(** * Verification of the proxy-pool dispatcher of Booru-Crawling

    A shallow embedding of [src/utils/proxyhandler.py] ([ProxyHandler] and
    [SingleProxyHandler]), of the chunked path of [download_post] and the
    file filter of [yield_posts] in [src/danbooru_post_download.py], and of
    the file filter of [yield_posts] and the split path (part files, merge,
    size check) of [download_post] in [src/gelbooru_post_download.py], with
    the properties stated about them.

    Modelling conventions.
    - Time ([time()], [sleep]) is an integer clock; floats become [Z].
    - Python exceptions are the constructors of [exn]; an operation of the
      handler runs in the state-and-exception monad [M].
    - The HTTP session is the function [session_get url timeout], which
      either raises ([HttpExc]) or returns a response.  Every URL handed to
      the session is appended to [h_sent], so the number of HTTP calls is
      visible in the state.
    - Strings are byte strings (Stdlib [string]). *)

From Stdlib Require Import ZArith Lia Ascii String.
From stdpp Require Import base list gmap strings pretty sorting.

Open Scope Z_scope.
Local Set Warnings "-register-all".

(* ------------------------------------------------------------------ *)
(** ** Python values and exceptions *)

Inductive exn :=
  | ValueError
  | TypeError
  | KeyError
  | AttributeError
  | IndexError
  | ZeroDivisionError
  | UnboundLocalError
  | FileNotFoundError
  | OverflowError
  | RuntimeError (msg : string).

Inductive result (A : Type) :=
  | Ok (a : A)
  | Raise (e : exn).
Arguments Ok {_} _.
Arguments Raise {_} _.

(** JSON values as returned by [json.loads]: a number with a fraction or
    an exponent is a float, finite ([m * 2^e]), infinite (["Infinity"],
    or a literal too large such as [1e400]) or NaN. *)
Inductive json :=
  | JNull
  | JBool (b : bool)
  | JInt (z : Z)
  | JFloat (m e : Z)
  | JInf (neg : bool)
  | JNaN
  | JStr (s : string)
  | JArr (l : list json)
  | JObj (kv : list (string * json)).

(** [dict.get(key)] on a decoded object: [json.loads] keeps the last
    binding of a duplicated key. *)
Fixpoint obj_get (kv : list (string * json)) (k : string) : option json :=
  match kv with
  | [] => None
  | (k', v) :: kv' =>
      match obj_get kv' k with
      | Some w => Some w
      | None => if String.eqb k k' then Some v else None
      end
  end.

(** Python truthiness of a decoded JSON value. *)
Definition py_truthy (v : json) : bool :=
  match v with
  | JNull => false
  | JBool b => b
  | JInt z => negb (z =? 0)
  | JFloat m _ => negb (m =? 0)
  | JInf _ => true
  | JNaN => true
  | JStr s => negb (String.eqb s "")
  | JArr l => negb (bool_decide (l = []))
  | JObj kv => negb (bool_decide (kv = []))
  end.

(* ------------------------------------------------------------------ *)
(** ** [str.strip] and [int(str)] *)

(** Characters for which [str.isspace()] holds (code points below 256). *)
Definition is_py_space (c : ascii) : bool :=
  let n := nat_of_ascii c in
  ((9 <=? n)%nat && (n <=? 13)%nat) || ((28 <=? n)%nat && (n <=? 32)%nat)
  || (n =? 133)%nat || (n =? 160)%nat.

Fixpoint lstrip_list (l : list ascii) : list ascii :=
  match l with
  | [] => []
  | c :: l' => if is_py_space c then lstrip_list l' else l
  end.

Definition strip_list (l : list ascii) : list ascii :=
  rev (lstrip_list (rev (lstrip_list l))).

(** [s.strip()] *)
Definition py_strip (s : string) : string :=
  string_of_list_ascii (strip_list (list_ascii_of_string s)).

Definition digit_val (c : ascii) : option Z :=
  let n := nat_of_ascii c in
  if ((48 <=? n)%nat && (n <=? 57)%nat) then Some (Z.of_nat n - 48) else None.

(** Digits of a base-10 [int()] literal: [digit ('_'? digit)*].  [acc] is
    the value read so far; [after_us] records a pending underscore. *)
Fixpoint int_digits (acc : Z) (after_us : bool) (l : list ascii) : option Z :=
  match l with
  | [] => if after_us then None else Some acc
  | c :: l' =>
      match digit_val c with
      | Some d => int_digits (10 * acc + d) false l'
      | None =>
          if (Ascii.eqb c "_"%char && negb after_us)%bool
          then match l' with [] => None | _ => int_digits acc true l' end
          else None
      end
  end.

Definition int_body (l : list ascii) : option Z :=
  match l with
  | [] => None
  | c :: _ => match digit_val c with Some _ => int_digits 0 false l | None => None end
  end.

(** [int(s)] for a string [s] (base 10); [None] is the [ValueError].
    [int()] skips surrounding whitespace itself. *)
Definition py_int (s : string) : option Z :=
  match strip_list (list_ascii_of_string s) with
  | "+"%char :: l => int_body l
  | "-"%char :: l => option_map Z.opp (int_body l)
  | l => int_body l
  end.

(* ------------------------------------------------------------------ *)
(** ** [urllib.parse.quote_plus(s, safe="")] *)

Definition hex_digit (n : nat) : ascii :=
  ascii_of_nat (if (n <? 10)%nat then 48 + n else 55 + n).

Definition quote_char (c : ascii) : list ascii :=
  let n := nat_of_ascii c in
  if ((48 <=? n)%nat && (n <=? 57)%nat) || ((65 <=? n)%nat && (n <=? 90)%nat)
     || ((97 <=? n)%nat && (n <=? 122)%nat)
     || (n =? 95)%nat || (n =? 46)%nat || (n =? 45)%nat || (n =? 126)%nat
  then [c]
  else if (n =? 32)%nat then ["+"%char]
  else ["%"%char; hex_digit (n / 16); hex_digit (n mod 16)].

Definition quote_plus (s : string) : string :=
  string_of_list_ascii (concat (map quote_char (list_ascii_of_string s))).

(** Python's [lst[i]], negative indices counting from the end. *)
Definition py_index {A} (l : list A) (i : Z) : result A :=
  let n := Z.of_nat (length l) in
  let j := if i <? 0 then n + i else i in
  match (if (0 <=? j) && (j <? n) then l !! Z.to_nat j else None) with
  | Some x => Ok x
  | None => Raise IndexError
  end.

(* ------------------------------------------------------------------ *)
(** ** The handler state and its monad *)

(** A [requests.Response] as the code reads it. *)
Record response := mkResponse {
  status_code : Z;
  text : string;                  (** [resp.text] *)
  content_length : option string; (** [resp.headers.get('Content-Length')] *)
  content : list Z                (** [resp.content] *)
}.

(** [requests.Response.__bool__] is [resp.ok]. *)
Definition resp_truthy (r : response) : bool := status_code r <? 400.

Inductive http_outcome :=
  | HttpExc                        (** the session call raised *)
  | HttpResp (r : response).

(** The fields of a [ProxyHandler], the clock read by [_now()], and the
    URLs issued through [self._session.get], most recent first. *)
Record handler := mkHandler {
  h_auth : string * string;
  h_wait_time : Z;
  h_timeout : Z;
  h_proxies : list string;
  h_commit_time : gmap Z Z;
  h_current_index : Z;
  h_clock : Z;
  h_sent : list string
}.

Definition set_proxies (ps : list string) (h : handler) : handler :=
  mkHandler (h_auth h) (h_wait_time h) (h_timeout h) ps (h_commit_time h)
    (h_current_index h) (h_clock h) (h_sent h).
Definition set_commit_time (ct : gmap Z Z) (h : handler) : handler :=
  mkHandler (h_auth h) (h_wait_time h) (h_timeout h) (h_proxies h) ct
    (h_current_index h) (h_clock h) (h_sent h).
Definition set_current_index (i : Z) (h : handler) : handler :=
  mkHandler (h_auth h) (h_wait_time h) (h_timeout h) (h_proxies h)
    (h_commit_time h) i (h_clock h) (h_sent h).
Definition set_clock (t : Z) (h : handler) : handler :=
  mkHandler (h_auth h) (h_wait_time h) (h_timeout h) (h_proxies h)
    (h_commit_time h) (h_current_index h) t (h_sent h).
Definition set_sent (sent : list string) (h : handler) : handler :=
  mkHandler (h_auth h) (h_wait_time h) (h_timeout h) (h_proxies h)
    (h_commit_time h) (h_current_index h) (h_clock h) sent.
Definition log_sent (url : string) (h : handler) : handler :=
  mkHandler (h_auth h) (h_wait_time h) (h_timeout h) (h_proxies h)
    (h_commit_time h) (h_current_index h) (h_clock h) (url :: h_sent h).

(** State and exception monad of the handler's methods. *)
Definition M (A : Type) : Type := handler -> handler * result A.

Global Instance M_ret : MRet M := fun A a h => (h, Ok a).
Global Instance M_bind : MBind M := fun A B f m h =>
  match m h with
  | (h', Ok a) => f a h'
  | (h', Raise e) => (h', Raise e)
  end.

Definition get_h : M handler := fun h => (h, Ok h).
Definition modify_h (f : handler -> handler) : M unit := fun h => (f h, Ok tt).
Definition throw {A} (e : exn) : M A := fun h => (h, Raise e).
Definition lift {A} (r : result A) : M A := fun h => (h, r).

(** [with suppress(...)]: the listed exceptions end the block quietly. *)
Definition suppress {A} (caught : exn -> bool) (m : M (option A)) : M (option A) :=
  fun h => match m h with
           | (h', Raise e) => if caught e then (h', Ok None) else (h', Raise e)
           | r => r
           end.

(** [time()] *)
Definition now_ : M Z := h ← get_h; mret (h_clock h).
(** [sleep(d)] *)
Definition sleep (d : Z) : M unit := modify_h (fun h => set_clock (h_clock h + d) h).

Section Dispatcher.

(** [self._session.get(url, timeout=t)] *)
Variable session_get : string -> Z -> http_outcome.
(** [json.loads] on a string; [None] is the [JSONDecodeError]. *)
Variable json_loads : string -> option json.

(** [_next_proxy_index] *)
Definition _next_proxy_index : M Z :=
  h ← get_h;
  let n := Z.of_nat (length (h_proxies h)) in
  if n =? 0 then throw ZeroDivisionError else
  let i := (h_current_index h + 1) mod n in
  modify_h (set_current_index i);;
  mret i.

(** [_wait_until_allowed] *)
Definition _wait_until_allowed (idx : Z) : M unit :=
  h ← get_h;
  let last_commit := default 0 (h_commit_time h !! idx) in
  let until := last_commit + h_wait_time h in
  t ← now_;
  let remaining := until - t in
  (if 0 <? remaining then sleep remaining else mret tt);;
  t' ← now_;
  modify_h (fun h => set_commit_time (<[idx := t']> (h_commit_time h)) h).

(** [_punish_proxy] *)
Definition _punish_proxy (idx : Z) : M unit :=
  t ← now_;
  modify_h (fun h => set_commit_time (<[idx := t + h_timeout h]> (h_commit_time h)) h).

(** [_request_through_proxy] *)
Definition _request_through_proxy (path : string) : M (option (response * Z)) :=
  h ← get_h;
  match h_proxies h with
  | [] => mret None
  | _ =>
      idx ← _next_proxy_index;
      _wait_until_allowed idx;;
      h ← get_h;
      base ← lift (py_index (h_proxies h) idx);
      let url := String.append base path in
      modify_h (log_sent url);;
      match session_get url (h_timeout h) with
      | HttpExc => _punish_proxy idx;; mret None
      | HttpResp resp =>
          if status_code resp =? 429 then _punish_proxy idx;; mret None
          else mret (Some (resp, idx))
      end
  end.

(** [int(x)] on a decoded JSON value. *)
Definition py_int_json (v : json) : result Z :=
  match v with
  | JInt z => Ok z
  | JFloat m e => Ok (if 0 <=? e then m * 2 ^ e else Z.quot m (2 ^ (- e)))  (* truncation *)
  | JInf _ => Raise OverflowError
  | JNaN => Raise ValueError
  | JBool b => Ok (if b then 1 else 0)
  | JStr s => match py_int s with Some z => Ok z | None => Raise ValueError end
  | _ => Raise TypeError
  end.

(** [payload.get(key, default)]: [AttributeError] unless a dict. *)
Definition py_get (payload : json) (k : string) (dflt : json) : result json :=
  match payload with
  | JObj kv => Ok (default dflt (obj_get kv k))
  | _ => Raise AttributeError
  end.

Definition caught_get_response (e : exn) : bool :=
  match e with ValueError | KeyError | TypeError => true | _ => false end.

Definition get_response_path (url : string) : string :=
  String.append "get_response?url=" (quote_plus url).
Definition get_path (url : string) : string :=
  String.append "get_response_raw?url=" (quote_plus url).
Definition filesize_path (url : string) : string :=
  String.append "file_size?url=" (quote_plus url).
Definition filepart_path (url : string) (start end_ : Z) : string :=
  String.append "filepart?url="
    (String.append (quote_plus url)
      (String.append "&start=" (String.append (pretty start)
        (String.append "&end=" (pretty end_))))).

(** [get_response] *)
Definition get_response (url : string) : M (option json) :=
  result ← _request_through_proxy (get_response_path url);
  match result with
  | None => mret None
  | Some (resp, idx) =>
      suppress caught_get_response (
        payload ← lift (match json_loads (text resp) with
                        | Some p => Ok p | None => Raise ValueError end);
        sc ← lift (py_get payload "status_code" (JInt 0));
        status_code ← lift (py_int_json sc);
        (if status_code =? 429 then _punish_proxy idx else mret tt);;
        success ← lift (py_get payload "success" JNull);
        if py_truthy success then
          response_text ← lift (py_get payload "response" JNull);
          match response_text with
          | JNull => mret None
          | JStr s =>
              match json_loads s with
              | Some v => mret (Some v)
              | None => mret (Some response_text)
              end
          | _ => mret (Some response_text)   (* TypeError in json.loads *)
          end
        else mret None)
  end.

(** [get] *)
Definition get (url : string) : M (option response) :=
  result ← _request_through_proxy (get_path url);
  mret (fst <$> result).

(** [filesize] *)
Definition filesize (url : string) : M (option Z) :=
  result ← _request_through_proxy (filesize_path url);
  match result with
  | None => mret None
  | Some (resp, _) =>
      if (status_code resp =? 200) || (status_code resp =? 206)
      then mret (py_int (py_strip (text resp)))   (* None: suppressed ValueError *)
      else mret None
  end.

(** [get_filepart] *)
Definition get_filepart (url : string) (start end_ : Z) : M (option response) :=
  result ← _request_through_proxy (filepart_path url start end_);
  mret (fst <$> result).

End Dispatcher.

(** The four dispatcher operations, as one entry point. *)
Inductive op :=
  | OpGetResponse
  | OpGet
  | OpFilesize
  | OpGetFilepart (start end_ : Z).

Inductive op_value :=
  | VJson (v : json)
  | VResp (r : response)
  | VInt (z : Z).

Definition op_path (o : op) (url : string) : string :=
  match o with
  | OpGetResponse => get_response_path url
  | OpGet => get_path url
  | OpFilesize => filesize_path url
  | OpGetFilepart start end_ => filepart_path url start end_
  end.

Definition dispatch (session_get : string -> Z -> http_outcome)
    (json_loads : string -> option json) (o : op) (url : string) : M (option op_value) :=
  match o with
  | OpGetResponse => v ← get_response session_get json_loads url; mret (VJson <$> v)
  | OpGet => v ← get session_get url; mret (VResp <$> v)
  | OpFilesize => v ← filesize session_get url; mret (VInt <$> v)
  | OpGetFilepart start end_ => v ← get_filepart session_get url start end_; mret (VResp <$> v)
  end.

(** The index [_next_proxy_index] returns in state [h]. *)
Definition selected_index (h : handler) : Z :=
  (h_current_index h + 1) mod Z.of_nat (length (h_proxies h)).

(** The URL [_request_through_proxy path] hands to the session in [h]. *)
Definition request_url (h : handler) (path : string) : string :=
  match py_index (h_proxies h) (selected_index h) with
  | Ok base => String.append base path
  | Raise _ => path
  end.

(** The [until] of [_wait_until_allowed idx]: the earliest clock value at
    which the gate lets a caller for [idx] through without sleeping. *)
Definition eligible_at (h : handler) (idx : Z) : Z :=
  default 0 (h_commit_time h !! idx) + h_wait_time h.

(** State after [_wait_until_allowed idx], computed directly. *)
Definition gate_state (idx : Z) (h : handler) : handler :=
  let remaining := eligible_at h idx - h_clock h in
  let h2 := if 0 <? remaining then set_clock (h_clock h + remaining) h else h in
  set_commit_time (<[idx := h_clock h2]> (h_commit_time h2)) h2.

(** State after [_punish_proxy idx], computed directly. *)
Definition punish_state (idx : Z) (h : handler) : handler :=
  set_commit_time (<[idx := h_clock h + h_timeout h]> (h_commit_time h)) h.

(** State right before the session call of [_request_through_proxy path]. *)
Definition sent_state (h : handler) (path : string) : handler :=
  let idx := selected_index h in
  log_sent (request_url h path) (gate_state idx (set_current_index idx h)).


(** A decimal integer as text: an optional sign and a non-empty digit
    sequence (each digit below 10). *)
Inductive sign := NoSign | Plus | Minus.

Definition sign_chars (sg : sign) : list ascii :=
  match sg with NoSign => [] | Plus => ["+"%char] | Minus => ["-"%char] end.

Definition sign_apply (sg : sign) (z : Z) : Z :=
  match sg with Minus => - z | _ => z end.

Definition digit_char (d : nat) : ascii := ascii_of_nat (48 + d).

Definition digits_value (ds : list nat) : Z :=
  fold_left (fun acc d => 10 * acc + Z.of_nat d) ds 0.


(* ------------------------------------------------------------------ *)
(** ** Construction: [__init__] and [_load_proxy_list] *)

(** [sub in s] *)
Definition py_contains (sub s : string) : bool :=
  match String.index 0 sub s with Some _ => true | None => false end.

(** [s.split(sep, 1)[-1]] *)
Definition split1_last (sep s : string) : string :=
  match String.index 0 sep s with
  | Some n => substring (n + String.length sep) (String.length s - n - String.length sep) s
  | None => s
  end.

(** [s.startswith(p)] *)
Definition py_startswith (p s : string) : bool := String.prefix p s.

(** [s.endswith("/")] *)
Definition ends_with_slash (s : string) : bool :=
  match last (list_ascii_of_string s) with
  | Some c => Ascii.eqb c "/"%char
  | None => false
  end.

(** The normalisation applied to one stripped, non-empty line. *)
Definition normalise_proxy (port : Z) (proxy : string) : string :=
  let proxy := if py_startswith "http" proxy then proxy else String.append "http://" proxy in
  let proxy := if py_contains ":" (split1_last "//" proxy) then proxy
               else String.append proxy (String.append ":" (pretty port)) in
  if ends_with_slash proxy then proxy else String.append proxy "/".

(** [_load_proxy_list], the file given as its lines. *)
Fixpoint _load_proxy_list (lines : list string) (port : Z) : list string :=
  match lines with
  | [] => []
  | raw :: rest =>
      let proxy := py_strip raw in
      if String.eqb proxy "" then _load_proxy_list rest port
      else normalise_proxy port proxy :: _load_proxy_list rest port
  end.

(** [ProxyHandler.__init__]; [clock] is the time at construction.
    [proxy_file] is what [open(fp, "r", encoding="utf-8")] and the
    iteration over it in [_load_proxy_list] give: [Ok lines], or the
    exception one of them raises (a missing or unreadable file, or a
    [UnicodeDecodeError]). *)
Definition init (proxy_auth : string) (proxy_file : result (list string))
    (port wait_time timeout clock : Z) : result handler :=
  match String.index 0 ":" proxy_auth with
  | None => Raise ValueError
  | Some n =>
      let user := substring 0 n proxy_auth in
      let pwd := substring (S n) (String.length proxy_auth - S n) proxy_auth in
      match proxy_file with
      | Raise e => Raise e
      | Ok lines =>
          match _load_proxy_list lines port with
          | [] => Raise ValueError
          | proxies => Ok (mkHandler (user, pwd) wait_time timeout proxies ∅ (-1) clock [])
          end
      end
  end.

(** Lines of the proxy file that yield an entry. *)
Definition count_valid (lines : list string) : nat :=
  length (List.filter (fun l => negb (String.eqb (py_strip l) "")) lines).

(** [m] successive calls of [_next_proxy_index] from one thread. *)
Fixpoint advances (m : nat) : M (list Z) :=
  match m with
  | O => mret []
  | S m' => i ← _next_proxy_index; is ← advances m'; mret (i :: is)
  end.

(** [len(handler)] *)
Definition handler_len (h : handler) : nat := length (h_proxies h).


(* ------------------------------------------------------------------ *)
(** ** Health check: [check] and [_check_single] *)

(** [del lst[i]], negative indices counting from the end. *)
Definition py_del {A} (l : list A) (i : Z) : result (list A) :=
  let n := Z.of_nat (length l) in
  let j := if i <? 0 then n + i else i in
  if (0 <=? j) && (j <? n)
  then Ok (take (Z.to_nat j) l ++ drop (S (Z.to_nat j)) l)
  else Raise IndexError.

Definition health_timeout : Z := 5.

(** The probe of one base URL is healthy. *)
Definition probe_ok (session_get : string -> Z -> http_outcome) (base : string) : bool :=
  match session_get base health_timeout with
  | HttpExc => false
  | HttpResp r => (status_code r =? 200) || (status_code r =? 206)
  end.

(** Descending order of [sorted(..., reverse=True)]. *)
Definition desc (a b : Z) : Prop := b <= a.
Global Instance desc_dec : RelDecision desc := fun a b => decide (b <= a).

Section HealthCheck.
Variable session_get : string -> Z -> http_outcome.

(** [_check_single] *)
Definition _check_single (idx : Z) : M (bool * option string) :=
  h ← get_h;
  proxy_base ← lift (py_index (h_proxies h) idx);
  modify_h (log_sent proxy_base);;
  match session_get proxy_base health_timeout with
  | HttpExc => mret (false, Some "exception")
  | HttpResp resp =>
      if (status_code resp =? 200) || (status_code resp =? 206) then mret (true, None)
      else mret (false, Some (String.append "status " (pretty (status_code resp))))
  end.

(** The futures of the thread pool, taken in the order [as_completed]
    yields them; failing indices are appended in that order. *)
Fixpoint scan (order : list nat) : M (list Z) :=
  match order with
  | [] => mret []
  | i :: rest =>
      _check_single (Z.of_nat i) ≫= fun res : bool * option string =>
      let ok := fst res in
      (if ok then mret tt
       else h ← get_h; lift (py_index (h_proxies h) (Z.of_nat i));; mret tt);;
      failed ← scan rest;
      mret (if ok then failed else Z.of_nat i :: failed)
  end.

(** [for idx in ...: del self._proxies[idx]] *)
Fixpoint del_each (idxs : list Z) : M unit :=
  match idxs with
  | [] => mret tt
  | i :: is =>
      h ← get_h;
      l' ← lift (py_del (h_proxies h) i);
      modify_h (set_proxies l');;
      del_each is
  end.

(** [check(raise_exception)]; [order] is the completion order of the
    probes, a permutation of [range(len(self._proxies))]. *)
Definition check (raise_exception : bool) (order : list nat) : M (list Z) :=
  failed ← scan order;
  del_each (merge_sort desc failed);;
  if raise_exception && negb (bool_decide (failed = [])) then
    throw (RuntimeError "Proxies are not working")
  else
    h ← get_h;
    match h_proxies h with
    | [] => throw (RuntimeError "No proxies available after check")
    | _ => mret failed
    end.

End HealthCheck.

(** Elements of [l] at the positions [j] with [f j = true]. *)
Fixpoint keep_idx {A} (f : nat -> bool) (l : list A) : list A :=
  match l with
  | [] => []
  | x :: l' =>
      if f O then x :: keep_idx (fun j => f (S j)) l' else keep_idx (fun j => f (S j)) l'
  end.

(* ------------------------------------------------------------------ *)
(** ** Chunked download: the split path of [download_post]
    (src/danbooru_post_download.py) *)

(** [range(start, stop, step)] *)
Definition py_range (start stop step : Z) : option (list Z) :=
  if step =? 0 then None  (* ValueError *)
  else
    let n := if 0 <? step then (stop - start + step - 1) / step
             else (start - stop - step - 1) / (- step) in
    Some (map (fun k => start + Z.of_nat k * step) (seq 0 (Z.to_nat n))).

(** [datas = [(i, min(filesize, i + split_size)) for i in range(0, filesize, split_size)]] *)
Definition chunks (filesize split_size : Z) : option (list (Z * Z)) :=
  starts ← py_range 0 filesize split_size;
  Some (map (fun i => (i, Z.min filesize (i + split_size))) starts).

(** The local [file_response]: unbound, or bound to the last value
    [get_filepart] returned.  It is shared by all chunks of the loop. *)
Definition binding := option (option response).

Section Download.
(** [get_filepart_call s e j]: what [proxyhandler.get_filepart(url, s, e)]
    does on the [j]-th attempt for that range: [Raise] if it raises, else
    the response or [None]. *)
Variable get_filepart_call : Z -> Z -> nat -> result (option response).

(** [for i in range(max_retry): ...] with its [break]. *)
Fixpoint retry_part (s e : Z) (i : nat) (k : nat) (fr : binding) : binding :=
  match k with
  | O => fr
  | S k' =>
      match get_filepart_call s e i with
      | Raise _ => retry_part s e (S i) k' fr
      | Ok r =>
          match r with
          | Some resp =>
              if resp_truthy resp && ((status_code resp =? 200) || (status_code resp =? 206))
              then Some r
              else retry_part s e (S i) k' (Some r)
          | None => retry_part s e (S i) k' (Some r)
          end
      end
  end.

(** The checks after the retry loop; [None] when [download_post]
    returns (directly or through the outer [except]). *)
Definition chunk_result (fr : binding) (s e : Z) : option (list Z) :=
  match fr with
  | None => None                (* UnboundLocalError *)
  | Some None => None           (* [file_response is None] *)
  | Some (Some r) =>
      if negb (status_code r =? 200) then None
      else
        match content_length r with
        | None => None          (* int(None): TypeError *)
        | Some cl =>
            match py_int cl with
            | Some v => if v =? e - s then Some (content r) else None
            | None => None      (* ValueError *)
            end
        end
  end.

(** One iteration of [for data in datas]. *)
Definition chunk_step (max_retry : nat) (fr : binding) (d : Z * Z) : binding * option (list Z) :=
  let fr' := retry_part (fst d) (snd d - 1) 0 max_retry fr in
  (fr', chunk_result fr' (fst d) (snd d)).

(** The [with open(save_path, 'wb')] block; [current_filesize] is 0 there
    (a file already present was removed or the function returned), so no
    chunk is skipped.  Returns the binding, the bytes written and whether
    the loop ran to its end. *)
Fixpoint write_chunks (max_retry : nat) (ds : list (Z * Z)) (fr : binding) (f : list Z)
  : binding * list Z * bool :=
  match ds with
  | [] => (fr, f, true)
  | d :: rest =>
      let (fr', v) := chunk_step max_retry fr d in
      match v with
      | None => (fr', f, false)
      | Some c => write_chunks max_retry rest fr' (f ++ c)
      end
  end.

(** The file at [save_path] once [download_post] has returned ([None]:
    no file), starting from no file. *)
Definition download_split (filesize split_size : Z) (max_retry : nat) : option (list Z) :=
  match chunks filesize split_size with
  | None => None
  | Some datas =>
      match write_chunks max_retry datas None [] with
      | (_, f, false) => Some f
      | (_, f, true) => if Z.of_nat (length f) =? filesize then Some f else None
      end
  end.

End Download.

(* ------------------------------------------------------------------ *)
(** ** Threads sharing one handler: [_next_proxy_index] and
    [_wait_until_allowed] as interleaved atomic steps *)

(** Where a thread is in [idx = self._next_proxy_index();
    self._wait_until_allowed(idx)]. *)
Inductive tstate :=
  | TStart                       (** before [_next_proxy_index] *)
  | THold (idx : Z)              (** holds [idx], before reading [_commit_time] *)
  | TGate (idx until : Z)        (** read [until]; sleeping until then *)
  | TDone (idx : Z)              (** committed: the request may go out *)
  | TErr.                        (** ZeroDivisionError *)

(** What the threads share. [g_adv] lists the indices handed out, in
    order; [g_pass] the gate passes [(idx, time)], latest first. *)
Record shared := mkShared {
  g_n : Z;                       (** [len(self._proxies)] *)
  g_cur : Z;                     (** [self._current_index] *)
  g_wait : Z;                    (** [self._wait_time] *)
  g_commit : gmap Z Z;           (** [self._commit_time] *)
  g_clock : Z;                   (** [_now()] *)
  g_threads : list tstate;
  g_adv : list Z;
  g_pass : list (Z * Z)
}.

Definition set_thread (t : nat) (s : tstate) (g : shared) : shared :=
  mkShared (g_n g) (g_cur g) (g_wait g) (g_commit g) (g_clock g)
    (<[t := s]> (g_threads g)) (g_adv g) (g_pass g).

Inductive event :=
  | EvTick (d : Z)               (** time passes *)
  | EvRun (t : nat).             (** thread [t] takes its next atomic step *)

Definition step (g : shared) (ev : event) : option shared :=
  match ev with
  | EvTick d =>
      if 0 <=? d then
        Some (mkShared (g_n g) (g_cur g) (g_wait g) (g_commit g) (g_clock g + d)
                (g_threads g) (g_adv g) (g_pass g))
      else None
  | EvRun t =>
      match g_threads g !! t with
      | Some TStart =>
          (* [with self._index_lock: ...] *)
          if g_n g =? 0 then Some (set_thread t TErr g)
          else
            let idx := (g_cur g + 1) mod g_n g in
            Some (mkShared (g_n g) idx (g_wait g) (g_commit g) (g_clock g)
                    (<[t := THold idx]> (g_threads g)) (g_adv g ++ [idx]) (g_pass g))
      | Some (THold idx) =>
          (* [last_commit = self._commit_time.get(idx, 0.0)];
             [until = last_commit + self._wait_time] *)
          let until := default 0 (g_commit g !! idx) + g_wait g in
          Some (set_thread t (TGate idx until) g)
      | Some (TGate idx until) =>
          (* after [sleep(remaining)]: [self._commit_time[idx] = _now()] *)
          if until <=? g_clock g then
            Some (mkShared (g_n g) (g_cur g) (g_wait g) (<[idx := g_clock g]> (g_commit g))
                    (g_clock g) (<[t := TDone idx]> (g_threads g)) (g_adv g)
                    ((idx, g_clock g) :: g_pass g))
          else None
      | _ => None
      end
  end.

Fixpoint run (g : shared) (evs : list event) : option shared :=
  match evs with
  | [] => Some g
  | ev :: rest => g' ← step g ev; run g' rest
  end.

(* ------------------------------------------------------------------ *)
(** ** [SingleProxyHandler] (src/utils/proxyhandler.py) *)

(** [SingleProxyHandler._load_proxy_list]: the pseudo file holds the one
    URL; it is read whole ([fp.read().strip()]). *)
Definition single_load_proxy_list (proxy_url : string) (port : Z) : result (list string) :=
  let proxy_raw := py_strip proxy_url in
  if String.eqb proxy_raw "" then Raise ValueError
  else Ok [normalise_proxy port proxy_raw].

(** [SingleProxyHandler(proxy_url, ...)]: [ProxyHandler.__init__] running
    the loader above. *)
Definition single_init (proxy_auth proxy_url : string) (port wait_time timeout clock : Z)
  : result handler :=
  match String.index 0 ":" proxy_auth with
  | None => Raise ValueError
  | Some n =>
      let user := substring 0 n proxy_auth in
      let pwd := substring (S n) (String.length proxy_auth - S n) proxy_auth in
      match single_load_proxy_list proxy_url port with
      | Raise e => Raise e
      | Ok [] => Raise ValueError
      | Ok proxies => Ok (mkHandler (user, pwd) wait_time timeout proxies ∅ (-1) clock [])
      end
  end.

(* ------------------------------------------------------------------ *)
(** ** The file filters of [yield_posts] (src/danbooru_post_download.py,
    src/gelbooru_post_download.py); file names are ASCII. *)

(** [s.split(sep)] for a one-character separator, on characters. *)
Fixpoint split_chars (sep : ascii) (l : list ascii) : list (list ascii) :=
  match l with
  | [] => [[]]
  | c :: l' =>
      let r := split_chars sep l' in
      if Ascii.eqb c sep then [] :: r
      else match r with
           | w :: ws => (c :: w) :: ws
           | [] => [[c]]
           end
  end.

(** [s.split(sep)] *)
Definition py_split (sep : ascii) (s : string) : list string :=
  map string_of_list_ascii (split_chars sep (list_ascii_of_string s)).

(** [s.endswith(suffix)] *)
Definition py_endswith (suffix s : string) : bool :=
  (String.length suffix <=? String.length s)%nat &&
  String.eqb (substring (String.length s - String.length suffix) (String.length suffix) s) suffix.

(** [s.isdigit()] *)
Definition py_isdigit (s : string) : bool :=
  negb (String.eqb s "") &&
  forallb (fun c => match digit_val c with Some _ => true | None => false end)
    (list_ascii_of_string s).

(** Danbooru's [yield_posts]: whether [filename] is added to [files]. *)
Definition danbooru_keep_file (filename : string) (from_id : Z) : bool :=
  if negb (py_endswith ".jsonl" filename) then false
  else
    let basename := nth 0 (py_split "." filename) "" in
    let parts := py_split "_" basename in
    let ids :=
      if (length parts =? 2)%nat && py_isdigit (nth 0 parts "") then
        Some (nth 0 parts "", nth 1 parts "")
      else if (length parts =? 3)%nat && String.eqb (nth 0 parts "") "posts" then
        Some (nth 1 parts "", nth 2 parts "")
      else None in
    match ids with
    | None => true                        (* unknown format, included *)
    | Some (a, b) =>
        match py_int a, py_int b with
        | Some starting_id, Some file_last_id =>
            if starting_id >? file_last_id then false
            else if file_last_id <? from_id then false
            else true
        | _, _ => true                    (* ValueError, included *)
        end
    end.

(** The [files] list of danbooru's [yield_posts], for the file names of the
    walk in walk order. *)
Definition danbooru_files (names : list string) (from_id : Z) : list string :=
  List.filter (fun n => danbooru_keep_file n from_id) names.

(** Gelbooru's [yield_posts]: whether [filename] is added to [files];
    [Raise] is an exception that leaves the generator. *)
Definition gelbooru_keep_file (filename : string) (from_id : Z) : result bool :=
  if negb (py_contains "_" filename) then Ok false
  else
    match py_split "_" (nth 0 (py_split "." filename) "") with
    | [a; b] =>
        match py_int a with
        | None => Raise ValueError
        | Some start_id =>
            match py_int b with
            | None => Raise ValueError
            | Some end_id =>
                if start_id >? end_id then Ok false
                else if end_id <? from_id then Ok false
                else Ok true
            end
        end
    | _ => Raise ValueError               (* unpacking into two names *)
    end.

(** The [files] list of gelbooru's [yield_posts]. *)
Fixpoint gelbooru_files (names : list string) (from_id : Z) : result (list string) :=
  match names with
  | [] => Ok []
  | n :: rest =>
      match gelbooru_keep_file n from_id with
      | Raise e => Raise e
      | Ok keep =>
          match gelbooru_files rest from_id with
          | Raise e => Raise e
          | Ok fs => Ok (if keep then n :: fs else fs)
          end
      end
  end.

(* ------------------------------------------------------------------ *)
(** ** The split path of gelbooru's [download_post], with its part files
    (src/gelbooru_post_download.py) *)

(** What the split path touches: [save_path], the part files
    [save_path + f".{_i}"] (by [_i]), and the [get_filepart] calls issued,
    as [(start, end)] in order. *)
Record gfs := mkGfs {
  gf_main : option (list Z);
  gf_parts : gmap nat (list Z);
  gf_reqs : list (Z * Z)
}.

Definition set_main (m : option (list Z)) (fs : gfs) : gfs :=
  mkGfs m (gf_parts fs) (gf_reqs fs).
Definition set_parts (ps : gmap nat (list Z)) (fs : gfs) : gfs :=
  mkGfs (gf_main fs) ps (gf_reqs fs).
Definition set_reqs (rs : list (Z * Z)) (fs : gfs) : gfs :=
  mkGfs (gf_main fs) (gf_parts fs) rs.

(** [int(file_response.headers.get('Content-Length'))] *)
Definition py_int_header (cl : option string) : result Z :=
  match cl with
  | None => Raise TypeError
  | Some s => match py_int s with Some z => Ok z | None => Raise ValueError end
  end.

Section GelbooruSplit.
(** [get_filepart_call s e j]: what [proxyhandler.get_filepart(url, s, e)]
    does on the [j]-th attempt for that range. *)
Variable get_filepart_call : Z -> Z -> nat -> result (option response).

(** [for i in range(max_retry): ...] for one chunk; [fr] is
    [file_response], set to [None] before the loop.  Every attempt is one
    call; the loop is left on a truthy 200 response, and everything else
    (a falsy or non-200 response, a failing [int()], an exception) goes on
    to the next attempt. *)
Fixpoint g_retry (s e : Z) (i k : nat) (fr : option response) (reqs : list (Z * Z))
  : option response * list (Z * Z) :=
  match k with
  | O => (fr, reqs)
  | S k' =>
      let reqs := reqs ++ [(s, e)] in
      match get_filepart_call s e i with
      | Raise _ => g_retry s e (S i) k' fr reqs
      | Ok r =>
          match r with
          | Some resp =>
              if resp_truthy resp && (status_code resp =? 200) then (r, reqs)
              else g_retry s e (S i) k' r reqs
          | None => g_retry s e (S i) k' r reqs
          end
      end
  end.

(** Fetch chunk [_i] = [(s, t)] and write its part file.  [Ok true]: on
    to the next chunk; [Ok false]: [download_post] returns; [Raise]: the
    exception leaves [download_post]. *)
Definition g_fetch (max_retry : nat) (i : nat) (s t : Z) (fs : gfs) : gfs * result bool :=
  let (fr, reqs) := g_retry s (t - 1) 0 max_retry None (gf_reqs fs) in
  let fs := set_reqs reqs fs in
  match fr with
  | None => (fs, Ok false)
  | Some resp =>
      if negb (resp_truthy resp) || negb (status_code resp =? 200) then (fs, Ok false)
      else
        match py_int_header (content_length resp) with
        | Raise e => (fs, Raise e)
        | Ok cl =>
            if negb (cl =? t - s) then (fs, Ok false)
            else
              let fs := set_parts (<[i := content resp]> (gf_parts fs)) fs in
              if negb (Z.of_nat (length (content resp)) =? t - s)
              then (set_parts (delete i (gf_parts fs)) fs, Ok true)
              else (fs, Ok true)
        end
  end.

(** One iteration of [for _i, data in enumerate(datas)]. *)
Definition g_chunk (max_retry : nat) (current_filesize : Z) (i : nat) (d : Z * Z) (fs : gfs)
  : gfs * result bool :=
  let (s, t) := d in
  if s <? current_filesize then (fs, Ok true)
  else
    match gf_parts fs !! i with
    | Some p =>
        if Z.of_nat (length p) =? t - s then (fs, Ok true)
        else g_fetch max_retry i s t (set_parts (delete i (gf_parts fs)) fs)
    | None => g_fetch max_retry i s t fs
    end.

(** [for _i, data in enumerate(datas)], from [_i = i]. *)
Fixpoint g_chunks (max_retry : nat) (current_filesize : Z) (i : nat) (ds : list (Z * Z))
    (fs : gfs) : gfs * result bool :=
  match ds with
  | [] => (fs, Ok true)
  | d :: rest =>
      match g_chunk max_retry current_filesize i d fs with
      | (fs', Ok true) => g_chunks max_retry current_filesize (S i) rest fs'
      | r => r
      end
  end.

(** The merge: [save_path] is opened for writing and the part files are
    appended in index order; a missing one raises [FileNotFoundError]. *)
Fixpoint g_merge (parts : gmap nat (list Z)) (idxs : list nat) (f : list Z)
  : list Z * result unit :=
  match idxs with
  | [] => (f, Ok tt)
  | i :: rest =>
      match parts !! i with
      | None => (f, Raise FileNotFoundError)
      | Some p => g_merge parts rest (f ++ p)
      end
  end.

(** [for _i in range(len(datas)): os.remove(save_path + f".{_i}")] *)
Fixpoint g_remove_parts (idxs : list nat) (parts : gmap nat (list Z))
  : result (gmap nat (list Z)) :=
  match idxs with
  | [] => Ok parts
  | i :: rest =>
      match parts !! i with
      | None => Raise FileNotFoundError
      | Some _ => g_remove_parts rest (delete i parts)
      end
  end.

(** The [else] branch of [if no_split:] in [download_post], from
    [datas = []] to its end: the files after it and whether an exception
    leaves [download_post]. *)
Definition gelbooru_split (filesize split_size : Z) (max_retry : nat) (fs : gfs)
  : gfs * result unit :=
  match chunks filesize split_size with
  | None => (fs, Raise ValueError)              (* range() step 0 *)
  | Some datas =>
      let current_filesize :=
        match gf_main fs with Some c => Z.of_nat (length c) | None => 0 end in
      match g_chunks max_retry current_filesize 0 datas fs with
      | (fs, Raise e) => (fs, Raise e)
      | (fs, Ok false) => (fs, Ok tt)
      | (fs, Ok true) =>
          let (f, r) := g_merge (gf_parts fs) (seq 0 (length datas)) [] in
          let fs := set_main (Some f) fs in
          match r with
          | Raise e => (fs, Raise e)
          | Ok _ =>
              if negb (Z.of_nat (length f) =? filesize) then (set_main None fs, Ok tt)
              else
                match g_remove_parts (seq 0 (length datas)) (gf_parts fs) with
                | Raise e => (fs, Raise e)
                | Ok ps => (set_parts ps fs, Ok tt)
                end
          end
      end
  end.

End GelbooruSplit.

(* ------------------------------------------------------------------ *)
(** ** Helpers for the statements: the characters [pretty] writes,
    decimal digit strings, and the state of a part file. *)

(** Characters [pretty] writes for an integer. *)
Definition num_char (c : ascii) : Prop := c = "-"%char \/ exists x, c = pretty_N_char x.

(** The decimal text of a digit list. *)
Definition digits_text (ds : list nat) : string := string_of_list_ascii (map digit_char ds).

(** A non-empty list of decimal digits. *)
Definition digits_ok (ds : list nat) : Prop := ds <> [] /\ Forall (fun d => d < 10)%nat ds.

(** The check [os.path.getsize(save_path + f".{_i}") == data[1] - data[0]]
    on an existing part file. *)
Definition part_complete (parts : gmap nat (list Z)) (i : nat) (d : Z * Z) : bool :=
  match parts !! i with
  | Some p => Z.of_nat (length p) =? snd d - fst d
  | None => false
  end.

Section GelbooruSplitServer.
Variable get_filepart_call : Z -> Z -> nat -> result (option response).
Variable body : Z * Z -> list Z.

(** The gateway answers the first request for chunk [d] with a 200
    response whose Content-Length and body are the chunk's width. *)
Definition serves (d : Z * Z) : Prop :=
  exists r, get_filepart_call (fst d) (snd d - 1) 0 = Ok (Some r) /\ status_code r = 200 /\
    py_int_header (content_length r) = Ok (snd d - fst d) /\ content r = body d /\
    Z.of_nat (length (body d)) = snd d - fst d.

(** Whether the loop of the split path downloads chunk [i] = [d]: it
    starts at or after [current_filesize] = [cur] and [parts] holds no
    complete part file for it. *)
Definition fetched (cur : Z) (parts : gmap nat (list Z)) (i : nat) (d : Z * Z) : bool :=
  negb (fst d <? cur) && negb (part_complete parts i d).

End GelbooruSplitServer.


(* ------------------------------------------------------------------ *)
(** ** Concrete environments used by the examples *)

(** Two proxies, wait interval 1, timeout 10, clock at 0. *)
Definition ex_handler : handler :=
  mkHandler ("user", "pass") 1 10 ["http://127.0.0.1:8000/"; "http://127.0.0.2:8000/"]
    ∅ (-1) 0 [].

Definition ex_empty_handler : handler := set_proxies [] ex_handler.

Definition ex_resp (status : Z) (body : string) : response := mkResponse status body None [].

(** Every session call raises. *)
Definition ex_session_down (url : string) (timeout : Z) : http_outcome := HttpExc.

(** Every session call answers [status] with [body]. *)
Definition ex_session_body (status : Z) (body : string) (url : string) (timeout : Z)
  : http_outcome := HttpResp (ex_resp status body).

(** Only the first proxy answers its health probe. *)
Definition ex_session_first_up (url : string) (timeout : Z) : http_outcome :=
  if String.eqb url "http://127.0.0.1:8000/" then HttpResp (ex_resp 200 "ok") else HttpExc.

(** A [json.loads] on two known texts. *)
Definition ex_json_loads (s : string) : option json :=
  if String.eqb s "PAYLOAD" then
    Some (JObj [("status_code", JInt 200); ("success", JBool true); ("response", JStr "A1")])
  else if String.eqb s "A1" then Some (JObj [("a", JInt 1)])
  else None.

(** A gateway serving both 1000-byte ranges of a 2000-byte file. *)
Definition ex_part_ok (s e : Z) (j : nat) : result (option response) :=
  Ok (Some (mkResponse 200 "" (Some "1000") (repeat 7 1000%nat))).

(** The same gateway, but the second range comes back with Content-Length 999. *)
Definition ex_part_short (s e : Z) (j : nat) : result (option response) :=
  if s =? 0 then Ok (Some (mkResponse 200 "" (Some "1000") (repeat 7 1000%nat)))
  else Ok (Some (mkResponse 200 "" (Some "999") (repeat 8 999%nat))).

(** The first range is served; every request for another range raises
    (as [get_filepart] does when a concurrent [check] has shrunk the pool
    under it: [IndexError] on [self._proxies[idx]]). *)
Definition ex_part_stale (s e : Z) (j : nat) : result (option response) :=
  if s =? 0 then Ok (Some (mkResponse 200 "" (Some "1000") (repeat 7 1000%nat)))
  else Raise IndexError.

(** One proxy, wait interval 5, clock at 100, two threads about to advance. *)
Definition ex_threads : shared := mkShared 1 (-1) 5 ∅ 100 [TStart; TStart] [] [].

(** The same, once both threads have advanced to index 0. *)
Definition ex_threads_held : shared := mkShared 1 0 5 ∅ 100 [THold 0; THold 0] [0; 0] [].

(* ================================================================== *)
(** * Properties *)

(** Unfold the monad's operations. *)
Ltac mred :=
  cbv [mbind M_bind mret M_ret get_h modify_h now_ sleep lift throw].

Lemma py_index_in_range {A} (l : list A) (i : Z) :
  0 <= i < Z.of_nat (length l) -> exists x, py_index l i = Ok x /\ l !! Z.to_nat i = Some x.
Proof.
  intros Hi. unfold py_index.
  destruct (l !! Z.to_nat i) as [x|] eqn:E.
  - exists x. split; [|done].
    replace (i <? 0) with false by (symmetry; apply Z.ltb_ge; lia).
    replace ((0 <=? i) && (i <? Z.of_nat (length l))) with true
      by (symmetry; apply andb_true_iff; split; [apply Z.leb_le | apply Z.ltb_lt]; lia).
    by rewrite E.
  - apply lookup_ge_None in E. lia.
Qed.

Lemma selected_index_range (h : handler) :
  h_proxies h <> [] -> 0 <= selected_index h < Z.of_nat (length (h_proxies h)).
Proof.
  intros Hne. unfold selected_index.
  assert (0 < Z.of_nat (length (h_proxies h))).
  { destruct (h_proxies h); [done | simpl; lia]. }
  apply Z.mod_pos_bound; lia.
Qed.

Lemma wait_until_allowed_eq (idx : Z) (h : handler) :
  _wait_until_allowed idx h = (gate_state idx h, Ok tt).
Proof.
  unfold _wait_until_allowed, gate_state, eligible_at. mred.
  destruct (0 <? _); reflexivity.
Qed.

Lemma gate_state_fields (idx : Z) (h : handler) :
  h_proxies (gate_state idx h) = h_proxies h /\ h_timeout (gate_state idx h) = h_timeout h /\
  h_wait_time (gate_state idx h) = h_wait_time h /\ h_sent (gate_state idx h) = h_sent h /\
  h_current_index (gate_state idx h) = h_current_index h.
Proof. unfold gate_state. destruct (0 <? _); done. Qed.

Lemma punish_proxy_eq (idx : Z) (h : handler) :
  _punish_proxy idx h = (punish_state idx h, Ok tt).
Proof. reflexivity. Qed.

(** ** Whitespace trimming and decimal parsing *)

Lemma digit_val_digit_char (d : nat) :
  (d < 10)%nat -> digit_val (digit_char d) = Some (Z.of_nat d).
Proof.
  intros Hd. do 10 (destruct d as [|d]; [reflexivity|]). lia.
Qed.

Lemma digit_char_not_space (d : nat) :
  (d < 10)%nat -> is_py_space (digit_char d) = false.
Proof.
  intros Hd. do 10 (destruct d as [|d]; [reflexivity|]). lia.
Qed.

Lemma int_digits_digits (ds : list nat) (acc : Z) :
  Forall (fun d => d < 10)%nat ds ->
  int_digits acc false (map digit_char ds) =
    Some (fold_left (fun acc d => 10 * acc + Z.of_nat d) ds acc).
Proof.
  revert acc. induction ds as [|d ds IH]; intros acc Hds; [done|].
  inversion Hds as [|? ? Hd Hrest]; subst.
  cbn [map int_digits fold_left]. rewrite digit_val_digit_char by done. by apply IH.
Qed.

Lemma int_body_digits (ds : list nat) :
  ds <> [] -> Forall (fun d => d < 10)%nat ds ->
  int_body (map digit_char ds) = Some (digits_value ds).
Proof.
  intros Hne Hds. destruct ds as [|d ds']; [done|].
  inversion Hds; subst. cbn [map int_body]. rewrite digit_val_digit_char by done.
  unfold digits_value. rewrite <- (int_digits_digits (d :: ds') 0) by done.
  reflexivity.
Qed.

Lemma lstrip_spaces (ws l : list ascii) :
  Forall (fun c => is_py_space c = true) ws -> lstrip_list (ws ++ l) = lstrip_list l.
Proof.
  induction 1 as [|c ws Hc _ IH]; [done|]. cbn [app lstrip_list]. by rewrite Hc.
Qed.

Lemma lstrip_nonspace (c : ascii) (l : list ascii) :
  is_py_space c = false -> lstrip_list (c :: l) = c :: l.
Proof. intros Hc. cbn [lstrip_list]. by rewrite Hc. Qed.

(** Trimming removes exactly the surrounding whitespace of a body that
    starts and ends with a non-space character. *)
Lemma strip_list_around (ws1 ws2 b : list ascii) (c e : ascii) (mid pre : list ascii) :
  Forall (fun c => is_py_space c = true) ws1 ->
  Forall (fun c => is_py_space c = true) ws2 ->
  b = c :: mid -> is_py_space c = false ->
  b = pre ++ [e] -> is_py_space e = false ->
  strip_list (ws1 ++ b ++ ws2) = b.
Proof.
  intros H1 H2 Hb Hc Hpre He. unfold strip_list.
  rewrite lstrip_spaces by done. rewrite Hb at 1. rewrite <- app_comm_cons.
  rewrite lstrip_nonspace by done. rewrite app_comm_cons, <- Hb.
  rewrite rev_app_distr. rewrite lstrip_spaces by (by apply Forall_rev).
  rewrite Hpre at 1. rewrite rev_app_distr. cbn [rev app].
  rewrite lstrip_nonspace by done.
  change (e :: rev pre) with (rev [e] ++ rev pre).
  by rewrite <- rev_app_distr, rev_involutive.
Qed.

Lemma decimal_text_strip (ws1 ws2 : list ascii) (sg : sign) (ds : list nat) :
  Forall (fun c => is_py_space c = true) ws1 ->
  Forall (fun c => is_py_space c = true) ws2 ->
  ds <> [] -> Forall (fun d => d < 10)%nat ds ->
  strip_list (ws1 ++ (sign_chars sg ++ map digit_char ds) ++ ws2) =
    sign_chars sg ++ map digit_char ds.
Proof.
  intros H1 H2 Hne Hds.
  destruct ds as [|d ds'] eqn:Eds; [done|].
  destruct (exists_last (l := d :: ds') ltac:(done)) as [pre [e Hlast]].
  assert (He : (e < 10)%nat).
  { rewrite Forall_forall in Hds. apply Hds. rewrite Hlast. set_solver. }
  assert (Hd : (d < 10)%nat) by (inversion Hds; done).
  assert (Hm : map digit_char (d :: ds') = map digit_char pre ++ [digit_char e])
    by (rewrite Hlast, map_app; done).
  destruct sg.
  - eapply (strip_list_around _ _ _ (digit_char d) (digit_char e) _ (map digit_char pre));
      eauto using digit_char_not_space.
  - eapply (strip_list_around _ _ _ "+"%char (digit_char e) _ ("+"%char :: map digit_char pre));
      eauto using digit_char_not_space.
    cbn [sign_chars app]. by rewrite Hm.
  - eapply (strip_list_around _ _ _ "-"%char (digit_char e) _ ("-"%char :: map digit_char pre));
      eauto using digit_char_not_space.
    cbn [sign_chars app]. by rewrite Hm.
Qed.

(** [int(s.strip())] reads a decimal integer surrounded by whitespace. *)
Lemma py_int_strip_decimal (ws1 ws2 : list ascii) (sg : sign) (ds : list nat) :
  Forall (fun c => is_py_space c = true) ws1 ->
  Forall (fun c => is_py_space c = true) ws2 ->
  ds <> [] -> Forall (fun d => d < 10)%nat ds ->
  py_int (py_strip (string_of_list_ascii (ws1 ++ sign_chars sg ++ map digit_char ds ++ ws2))) =
    Some (sign_apply sg (digits_value ds)).
Proof.
  intros H1 H2 Hne Hds.
  unfold py_strip. rewrite list_ascii_of_string_of_list_ascii.
  rewrite (app_assoc (sign_chars sg)).
  rewrite decimal_text_strip by done.
  unfold py_int. rewrite list_ascii_of_string_of_list_ascii.
  rewrite <- (app_nil_l (sign_chars sg ++ map digit_char ds)) at 1.
  rewrite <- (app_nil_r (sign_chars sg ++ map digit_char ds)) at 1.
  rewrite decimal_text_strip by done.
  destruct ds as [|d ds'] eqn:Eds; [done|].
  assert (Hd : (d < 10)%nat) by (inversion Hds; done).
  rewrite <- Eds in Hne, Hds |- *.
  pose proof (int_body_digits ds Hne Hds) as Hb.
  destruct sg; cbn [sign_chars app sign_apply].
  - rewrite Eds in Hb |- *. cbn [map] in Hb |- *.
    destruct d as [|[|[|[|[|[|[|[|[|[|d]]]]]]]]]]; try lia; exact Hb.
  - by rewrite Hb.
  - by rewrite Hb.
Qed.

Section DispatcherFacts.
Variable session_get : string -> Z -> http_outcome.
Variable json_loads : string -> option json.

(** The one step every operation goes through: pick, pace, one call,
    classify. *)
Lemma request_through_proxy_eq (path : string) (h : handler) :
  h_proxies h <> [] ->
  _request_through_proxy session_get path h =
    let idx := selected_index h in
    let h3 := sent_state h path in
    match session_get (request_url h path) (h_timeout h) with
    | HttpExc => (punish_state idx h3, Ok None)
    | HttpResp r =>
        if status_code r =? 429 then (punish_state idx h3, Ok None)
        else (h3, Ok (Some (r, idx)))
    end.
Proof.
  intros Hne.
  destruct (py_index_in_range (h_proxies h) (selected_index h)
              (selected_index_range h Hne)) as [base [Hb _]].
  unfold _request_through_proxy, sent_state, request_url.
  unfold _next_proxy_index. mred.
  destruct (h_proxies h) as [|p ps] eqn:Ep; [done|].
  unfold selected_index in *. rewrite Ep in *.
  replace (Z.of_nat (length (p :: ps)) =? 0) with false by (simpl; lia).
  pose proof (wait_until_allowed_eq ((h_current_index h + 1) mod Z.of_nat (length (p :: ps)))
     (set_current_index ((h_current_index h + 1) mod Z.of_nat (length (p :: ps))) h)) as Hw.
  cbn beta iota zeta.
  rewrite Hw. cbn beta iota zeta.
  destruct (gate_state_fields ((h_current_index h + 1) mod Z.of_nat (length (p :: ps)))
     (set_current_index ((h_current_index h + 1) mod Z.of_nat (length (p :: ps))) h))
    as (-> & -> & _).
  cbn [h_proxies h_timeout set_current_index]. rewrite Ep, Hb. cbn beta iota zeta.
  destruct (session_get _ _) as [|r]; [reflexivity|].
  destruct (status_code r =? 429); reflexivity.
Qed.

Lemma request_through_proxy_fail (path : string) (h : handler) :
  h_proxies h <> [] ->
  (session_get (request_url h path) (h_timeout h) = HttpExc \/
   exists r, session_get (request_url h path) (h_timeout h) = HttpResp r /\ status_code r = 429) ->
  _request_through_proxy session_get path h =
    (punish_state (selected_index h) (sent_state h path), Ok None).
Proof.
  intros Hne Hout. rewrite request_through_proxy_eq by done. cbn zeta.
  destruct Hout as [-> | [r [-> H429]]]; [done|].
  by rewrite H429.
Qed.

Lemma request_through_proxy_empty (path : string) (h : handler) :
  h_proxies h = [] -> _request_through_proxy session_get path h = (h, Ok None).
Proof. intros He. unfold _request_through_proxy. mred. by rewrite He. Qed.

(** C1: a transport error or a gateway 429 makes each of the four
    operations punish the selected index (its commit time becomes now +
    timeout) and return None, after exactly one HTTP call. *)
Theorem dispatch_failure_punishes (o : op) (url : string) (h : handler) :
  h_proxies h <> [] ->
  (session_get (request_url h (op_path o url)) (h_timeout h) = HttpExc \/
   exists r, session_get (request_url h (op_path o url)) (h_timeout h) = HttpResp r /\
             status_code r = 429) ->
  exists h', dispatch session_get json_loads o url h = (h', Ok None) /\
    h' = punish_state (selected_index h) (sent_state h (op_path o url)) /\
    h_commit_time h' !! selected_index h = Some (h_clock h' + h_timeout h') /\
    h_sent h' = request_url h (op_path o url) :: h_sent h.
Proof.
  intros Hne Hout.
  pose proof (request_through_proxy_fail (op_path o url) h Hne Hout) as Hr.
  exists (punish_state (selected_index h) (sent_state h (op_path o url))).
  split; [|split; [done|split]].
  - destruct o; unfold dispatch, get_response, get, filesize, get_filepart; mred;
      simpl in Hr; rewrite Hr; reflexivity.
  - unfold punish_state. simpl. by rewrite lookup_insert_eq.
  - cbn [punish_state sent_state log_sent set_commit_time h_sent].
    by destruct (gate_state_fields (selected_index h)
                  (set_current_index (selected_index h) h)) as (_ & _ & _ & -> & _).
Qed.

(** C7 (as the code does it): on an empty pool each of the four operations
    returns None, raises nothing, issues no request and leaves the handler
    unchanged. *)
Theorem dispatch_empty_pool_none (o : op) (url : string) (h : handler) :
  h_proxies h = [] ->
  dispatch session_get json_loads o url h = (h, Ok None).
Proof.
  intros He.
  pose proof (request_through_proxy_empty (op_path o url) h He) as Hr.
  destruct o; unfold dispatch, get_response, get, filesize, get_filepart; mred;
    simpl in Hr; rewrite Hr; reflexivity.
Qed.

Lemma request_through_proxy_ok (path : string) (h : handler) (r : response) :
  h_proxies h <> [] ->
  session_get (request_url h path) (h_timeout h) = HttpResp r ->
  status_code r <> 429 ->
  _request_through_proxy session_get path h =
    (sent_state h path, Ok (Some (r, selected_index h))).
Proof.
  intros Hne Hout H429. rewrite request_through_proxy_eq by done. cbn zeta.
  rewrite Hout. by replace (status_code r =? 429) with false by (symmetry; apply Z.eqb_neq; done).
Qed.

(** C2: [get_response] returns None when the gateway call fails, when the
    gateway answers 429, when its answer is not JSON, or when the
    payload's success flag is false or
    missing; when the flag is true it returns the JSON decoding of the
    [response] text, or that text itself when it does not decode. *)
Theorem get_response_results (url : string) (h : handler) :
  h_proxies h <> [] ->
  ((session_get (request_url h (get_response_path url)) (h_timeout h) = HttpExc \/
    exists r, session_get (request_url h (get_response_path url)) (h_timeout h) = HttpResp r /\
              status_code r = 429) ->
     snd (get_response session_get json_loads url h) = Ok None) /\
  (forall r,
     session_get (request_url h (get_response_path url)) (h_timeout h) = HttpResp r ->
     status_code r <> 429 ->
     json_loads (text r) = None ->
     snd (get_response session_get json_loads url h) = Ok None) /\
  (forall r kv,
     session_get (request_url h (get_response_path url)) (h_timeout h) = HttpResp r ->
     status_code r <> 429 ->
     json_loads (text r) = Some (JObj kv) ->
     (forall v, obj_get kv "status_code" = Some v -> exists n, v = JInt n) ->
     (py_truthy (default JNull (obj_get kv "success")) = false ->
        snd (get_response session_get json_loads url h) = Ok None) /\
     (obj_get kv "success" = Some (JBool true) ->
      forall s, obj_get kv "response" = Some (JStr s) ->
        snd (get_response session_get json_loads url h) =
          Ok (Some (match json_loads s with Some v => v | None => JStr s end)))).
Proof.
  intros Hne. split; [|split].
  - intros Hout. pose proof (dispatch_failure_punishes OpGetResponse url h Hne Hout)
      as (h' & Hd & _).
    unfold dispatch in Hd. cbv [mbind M_bind mret M_ret] in Hd.
    destruct (get_response session_get json_loads url h) as [h1 [[v|]|e]];
      cbv [fmap option_fmap option_map] in Hd; simpl in Hd |- *; congruence.
  - intros r Hout H429 Hjs.
    pose proof (request_through_proxy_ok _ h r Hne Hout H429) as Hr.
    unfold get_response. mred. rewrite Hr. cbn beta iota zeta.
    unfold suppress. mred. rewrite Hjs. reflexivity.
  - intros r kv Hout H429 Hjs Hsc.
    pose proof (request_through_proxy_ok _ h r Hne Hout H429) as Hr.
    unfold get_response. mred. rewrite Hr. cbn beta iota zeta.
    unfold suppress. mred. rewrite Hjs. cbn [py_get default].
    assert (Hst : exists n, default (JInt 0) (obj_get kv "status_code") = JInt n).
    { destruct (obj_get kv "status_code") as [v|] eqn:E; [|by exists 0].
      destruct (Hsc v eq_refl) as [n ->]. by exists n. }
    destruct Hst as [n ->]. cbn [py_int_json].
    set (hp := if n =? 429 then _ else _).
    assert (Hp : exists h2, hp (sent_state h (get_response_path url)) = (h2, Ok tt)).
    { unfold hp. destruct (n =? 429); eauto. }
    destruct Hp as [h2 ->]. cbn beta iota zeta.
    split.
    + intros Hf. destruct (obj_get kv "success") as [v|]; simpl in *; [rewrite Hf|]; done.
    + intros Hs s0 Hr0. rewrite Hs. cbn. rewrite Hr0. cbn.
      by destruct (json_loads s0).
Qed.

(** C5: [filesize] never raises; it returns None when the gateway status
    is neither 200 nor 206 or when [int()] rejects the trimmed body, and the
    exact value of a decimal integer body surrounded by whitespace. *)
Theorem filesize_results (url : string) (h : handler) :
  h_proxies h <> [] ->
  (forall r, session_get (request_url h (filesize_path url)) (h_timeout h) = HttpResp r ->
     status_code r <> 200 -> status_code r <> 206 ->
     snd (filesize session_get url h) = Ok None) /\
  (forall r, session_get (request_url h (filesize_path url)) (h_timeout h) = HttpResp r ->
     (status_code r = 200 \/ status_code r = 206) ->
     py_int (py_strip (text r)) = None ->
     snd (filesize session_get url h) = Ok None) /\
  (forall r ws1 ws2 sg ds,
     session_get (request_url h (filesize_path url)) (h_timeout h) = HttpResp r ->
     (status_code r = 200 \/ status_code r = 206) ->
     Forall (fun c => is_py_space c = true) ws1 ->
     Forall (fun c => is_py_space c = true) ws2 ->
     ds <> [] -> Forall (fun d => d < 10)%nat ds ->
     text r = string_of_list_ascii (ws1 ++ sign_chars sg ++ map digit_char ds ++ ws2) ->
     snd (filesize session_get url h) = Ok (Some (sign_apply sg (digits_value ds)))) /\
  (forall h', exists v, snd (filesize session_get url h') = Ok v).
Proof.
  intros Hne.
  assert (Hok : forall r, session_get (request_url h (filesize_path url)) (h_timeout h) = HttpResp r ->
     status_code r <> 429 ->
     snd (filesize session_get url h) =
       Ok (if (status_code r =? 200) || (status_code r =? 206)
           then py_int (py_strip (text r)) else None)).
  { intros r Hout H429. unfold filesize. mred.
    rewrite (request_through_proxy_ok _ h r Hne Hout H429). cbn beta iota zeta.
    by destruct (_ || _). }
  split; [|split; [|split]].
  - intros r Hout H200 H206.
    destruct (Z.eq_dec (status_code r) 429) as [E|E].
    + destruct (dispatch_failure_punishes OpFilesize url h Hne (or_intror (ex_intro _ r (conj Hout E))))
        as (h' & Hd & _).
      unfold dispatch in Hd. cbv [mbind M_bind mret M_ret] in Hd.
      destruct (filesize session_get url h) as [h1 [[v|]|e]];
        cbv [fmap option_fmap option_map] in Hd; simpl in Hd |- *; congruence.
    + rewrite (Hok r Hout E).
      by replace ((status_code r =? 200) || (status_code r =? 206)) with false
        by (symmetry; apply orb_false_iff; split; apply Z.eqb_neq; done).
  - intros r Hout Hs Hp. rewrite (Hok r Hout) by lia.
    rewrite Hp. destruct Hs as [-> | ->]; reflexivity.
  - intros r ws1 ws2 sg ds Hout Hs H1 H2 Hne' Hds Ht. rewrite (Hok r Hout) by lia.
    rewrite Ht, py_int_strip_decimal by done.
    destruct Hs as [-> | ->]; reflexivity.
  - intros h'. clear Hok. unfold filesize. mred.
    destruct (h_proxies h') as [|p ps] eqn:Ep.
    + rewrite request_through_proxy_empty by done. by eexists.
    + rewrite request_through_proxy_eq by (by rewrite Ep). cbn zeta.
      destruct (session_get (request_url h' (filesize_path url)) (h_timeout h')) as [|r];
        [eexists; reflexivity|].
      destruct (status_code r =? 429); [eexists; reflexivity|]. cbn beta iota zeta.
      destruct (_ || _); eexists; reflexivity.
Qed.

End DispatcherFacts.

(** C3 (as the code does it): [_punish_proxy idx] overwrites the commit
    time of [idx] with now + timeout, whatever it was; since the gate adds
    the wait interval to the commit time, [idx] becomes eligible at now +
    timeout + wait, and a [_wait_until_allowed idx] right afterwards sleeps
    for max(0, timeout + wait), hence at least timeout when wait >= 0.
    Only the last point depends on the sign of [wait_time], which
    [__init__] does not check. *)
Theorem punish_then_wait (idx : Z) (h : handler) :
  let h1 := fst (_punish_proxy idx h) in
  h_commit_time h1 !! idx = Some (h_clock h + h_timeout h) /\
  eligible_at h1 idx = h_clock h + h_timeout h + h_wait_time h /\
  h_clock (fst (_wait_until_allowed idx h1)) - h_clock h = Z.max 0 (h_timeout h + h_wait_time h) /\
  (0 <= h_wait_time h ->
     h_timeout h <= h_clock (fst (_wait_until_allowed idx h1)) - h_clock h).
Proof.
  cbn zeta. rewrite punish_proxy_eq. cbn [fst].
  assert (Hc : h_commit_time (punish_state idx h) !! idx = Some (h_clock h + h_timeout h))
    by (unfold punish_state; cbn; by rewrite lookup_insert_eq).
  assert (He : eligible_at (punish_state idx h) idx = h_clock h + h_timeout h + h_wait_time h)
    by (unfold eligible_at; rewrite Hc; done).
  rewrite wait_until_allowed_eq. cbn [fst].
  assert (Hg : h_clock (gate_state idx (punish_state idx h)) - h_clock h =
               Z.max 0 (h_timeout h + h_wait_time h)).
  { unfold gate_state. rewrite He.
    change (h_clock (punish_state idx h)) with (h_clock h).
    destruct (0 <? _) eqn:E; cbn; [apply Z.ltb_lt in E | apply Z.ltb_ge in E]; lia. }
  split; [done|]. split; [done|]. split; [done|]. intros Hw. lia.
Qed.

(** ** Pool size and round robin *)

Lemma load_proxy_list_length (lines : list string) (port : Z) :
  length (_load_proxy_list lines port) = count_valid lines.
Proof.
  unfold count_valid. induction lines as [|l ls IH]; [done|].
  cbn [_load_proxy_list List.filter]. destruct (String.eqb (py_strip l) ""); cbn [negb length]; lia.
Qed.

Lemma advances_from (m : nat) (h : handler) :
  (0 < length (h_proxies h))%nat ->
  snd (advances m h) =
    Ok (map (fun k => (h_current_index h + 1 + Z.of_nat k) mod Z.of_nat (length (h_proxies h)))
            (seq 0 m)).
Proof.
  revert h. induction m as [|m IH]; intros h Hn; [done|].
  cbn [advances]. unfold _next_proxy_index. mred.
  replace (Z.of_nat (length (h_proxies h)) =? 0) with false by (symmetry; apply Z.eqb_neq; lia).
  set (n := Z.of_nat (length (h_proxies h))).
  set (h1 := set_current_index ((h_current_index h + 1) mod n) h).
  pose proof (IH h1 Hn) as IH1.
  destruct (advances m h1) as [h2 [is|e]]; cbn in IH1 |- *; [|done].
  injection IH1 as ->. f_equal. f_equal.
  - f_equal. lia.
  - rewrite <- seq_shift, map_map. apply map_ext. intros k.
    change (length (h_proxies h1)) with (length (h_proxies h)). fold n.
    rewrite <- Z.add_assoc, Zplus_mod_idemp_l. f_equal. lia.
Qed.

Lemma mod_window_nodup (n j : nat) :
  NoDup (map (fun k => Z.of_nat k mod Z.of_nat n) (seq j n)).
Proof.
  apply NoDup_ListNoDup. apply NoDup_map_NoDup_ForallPairs; [|apply List.seq_NoDup].
  intros a b Ha Hb Heq. apply in_seq in Ha, Hb.
  assert (Hd : (Z.of_nat a - Z.of_nat b) mod Z.of_nat n = 0).
  { rewrite Zminus_mod, Heq, Z.sub_diag. apply Z.mod_0_l. lia. }
  apply Z.mod_divide in Hd; [|lia]. destruct Hd as [q Hq].
  assert (q = 0) by nia. subst q. lia.
Qed.

(** C4: a handler built from a file read as N > 0 non-blank lines holds N
    proxies, and single-threaded advances return 0, 1, ..., N-1, 0, ...:
    every N consecutive advances visit N distinct indices of [0, N). *)
Theorem init_len_round_robin (auth : string) (lines : list string) (port w t clk : Z) :
  py_contains ":" auth = true ->
  (0 < count_valid lines)%nat ->
  exists h, init auth (Ok lines) port w t clk = Ok h /\
    handler_len h = count_valid lines /\
    (forall m, snd (advances m h) =
       Ok (map (fun k => Z.of_nat k mod Z.of_nat (count_valid lines)) (seq 0 m))) /\
    (forall j, NoDup (map (fun k => Z.of_nat k mod Z.of_nat (count_valid lines))
                          (seq j (count_valid lines))) /\
               Forall (fun i => 0 <= i < Z.of_nat (count_valid lines))
                 (map (fun k => Z.of_nat k mod Z.of_nat (count_valid lines))
                      (seq j (count_valid lines)))).
Proof.
  intros Hauth Hn. unfold py_contains in Hauth. unfold init.
  destruct (String.index 0 ":" auth) as [i|]; [|done].
  pose proof (load_proxy_list_length lines port) as Hl.
  destruct (_load_proxy_list lines port) as [|p ps] eqn:El; [simpl in Hl; lia|].
  eexists. split; [reflexivity|]. split; [exact Hl|]. split.
  - intros m. rewrite advances_from by (simpl; lia).
    cbn [h_current_index h_proxies]. rewrite Hl.
    reflexivity.
  - intros j. split; [apply mod_window_nodup|].
    apply Forall_forall. intros x Hx. apply list_elem_of_fmap in Hx as (k & -> & _).
    apply Z.mod_pos_bound. lia.
Qed.

(** ** Positional removal *)

Lemma keep_idx_ext {A} (f g : nat -> bool) (l : list A) :
  (forall j, (j < length l)%nat -> f j = g j) -> keep_idx f l = keep_idx g l.
Proof.
  revert f g. induction l as [|x l IH]; intros f g Hfg; [done|].
  cbn [keep_idx]. rewrite (Hfg O) by (simpl; lia).
  rewrite (IH (fun j => f (S j)) (fun j => g (S j))) by (intros j Hj; apply Hfg; simpl; lia).
  done.
Qed.

Lemma keep_idx_all {A} (f : nat -> bool) (l : list A) :
  (forall j, (j < length l)%nat -> f j = true) -> keep_idx f l = l.
Proof.
  revert f. induction l as [|x l IH]; intros f Hf; [done|].
  cbn [keep_idx]. rewrite Hf by (simpl; lia). f_equal. apply IH. intros j Hj. apply Hf. simpl; lia.
Qed.

Lemma take_drop_keep_idx {A} (k : nat) (l : list A) :
  (k < length l)%nat -> take k l ++ drop (S k) l = keep_idx (fun j => negb (j =? k)%nat) l.
Proof.
  revert k. induction l as [|x l IH]; intros k Hk; [simpl in Hk; lia|].
  destruct k as [|k].
  - cbn [keep_idx]. simpl. symmetry. apply keep_idx_all. done.
  - cbn [keep_idx take drop app]. simpl negb. f_equal.
    rewrite IH by (simpl in Hk; lia). done.
Qed.

Lemma py_del_in_range {A} (l : list A) (i : Z) :
  0 <= i < Z.of_nat (length l) ->
  py_del l i = Ok (keep_idx (fun j => negb (j =? Z.to_nat i)%nat) l).
Proof.
  intros Hi. unfold py_del.
  replace (i <? 0) with false by (symmetry; apply Z.ltb_ge; lia).
  replace ((0 <=? i) && (i <? Z.of_nat (length l))) with true
    by (symmetry; apply andb_true_iff; split; [apply Z.leb_le | apply Z.ltb_lt]; lia).
  rewrite take_drop_keep_idx by lia. done.
Qed.

Lemma length_keep_idx_del {A} (k : nat) (l : list A) :
  (k < length l)%nat -> length (keep_idx (fun j => negb (j =? k)%nat) l) = (length l - 1)%nat.
Proof.
  intros Hk. rewrite <- take_drop_keep_idx by done.
  rewrite length_app, length_take, length_drop. lia.
Qed.

(** Removing position [i] first and then positions selected by [g], all
    below [i], removes both sets from the original list. *)
Lemma keep_idx_del_then {A} (i : nat) (g : nat -> bool) (l : list A) :
  (forall j, (i <= j)%nat -> g j = true) ->
  keep_idx g (keep_idx (fun j => negb (j =? i)%nat) l) =
    keep_idx (fun j => negb (j =? i)%nat && g j) l.
Proof.
  revert i g. induction l as [|x l IH]; intros i g Hg; [done|].
  destruct i as [|i].
  - cbn [keep_idx]. simpl negb. cbn [andb].
    rewrite (keep_idx_all (fun _ => true) l) by done.
    rewrite (keep_idx_all g l) by (intros j _; apply Hg; lia).
    rewrite (keep_idx_all (fun j => g (S j)) l) by (intros j _; apply Hg; lia).
    done.
  - cbn [keep_idx]. simpl negb. cbn [andb].
    cbn [keep_idx].
    rewrite (IH i (fun j => g (S j))) by (intros j Hj; apply Hg; lia).
    by destruct (g O).
Qed.

Lemma keep_idx_filter {A} (p : A -> bool) (d : A) (l : list A) :
  keep_idx (fun j => p (nth j l d)) l = List.filter p l.
Proof.
  induction l as [|x l IH]; [done|]. cbn [keep_idx nth List.filter].
  destruct (p x); by rewrite IH.
Qed.

Global Instance desc_trans : Transitive desc.
Proof. intros a b c; unfold desc; lia. Qed.
Global Instance desc_total : Total desc.
Proof. intros a b; unfold desc; lia. Qed.

Lemma del_each_sorted (idxs : list Z) (h : handler) :
  StronglySorted desc idxs -> NoDup idxs ->
  Forall (fun i => 0 <= i < Z.of_nat (length (h_proxies h))) idxs ->
  del_each idxs h =
    (set_proxies (keep_idx (fun j => negb (bool_decide (Z.of_nat j ∈ idxs))) (h_proxies h)) h,
     Ok tt).
Proof.
  revert h. induction idxs as [|i is IH]; intros h Hs Hnd Hr.
  - cbn [del_each]. mred.
    rewrite keep_idx_all by done. by destruct h.
  - apply StronglySorted_inv in Hs as [Hs Hbelow].
    apply NoDup_cons in Hnd as [Hni Hnd].
    apply Forall_cons in Hr as [Hi Hr].
    cbn [del_each]. mred.
    rewrite py_del_in_range by done.
    assert (Hlt : Forall (fun x => x < i) is).
    { apply Forall_forall. intros x Hx.
      rewrite Forall_forall in Hbelow. specialize (Hbelow x Hx). unfold desc in Hbelow.
      destruct (decide (x = i)) as [->|]; [done|lia]. }
    rewrite IH; [| done | done |].
    2:{ cbn [set_proxies h_proxies]. rewrite length_keep_idx_del by lia.
        rewrite Forall_forall in Hr, Hlt |- *. intros x Hx.
        specialize (Hr x Hx). specialize (Hlt x Hx). lia. }
    cbn [set_proxies h_proxies].
    rewrite keep_idx_del_then.
    2:{ intros j Hj. apply negb_true_iff, bool_decide_eq_false.
        intros Hin. rewrite Forall_forall in Hlt. specialize (Hlt _ Hin). lia. }
    f_equal. unfold set_proxies; cbn. f_equal.
    apply keep_idx_ext. intros j _.
    destruct (Nat.eqb_spec j (Z.to_nat i)) as [Ej|Ej].
    + subst j. cbn [negb andb]. rewrite Z2Nat.id by lia.
      rewrite bool_decide_eq_true_2; [done|]. left.
    + cbn [negb andb]. f_equal. apply bool_decide_ext.
      rewrite elem_of_cons. split; [by right|].
      intros [E|E]; [|done]. exfalso. apply Ej. lia.
Qed.

Section HealthFacts.
Variable session_get : string -> Z -> http_outcome.

Lemma check_single_eq (i : nat) (h : handler) :
  (i < length (h_proxies h))%nat ->
  exists msg, _check_single session_get (Z.of_nat i) h =
    (log_sent (nth i (h_proxies h) "") h,
     Ok (probe_ok session_get (nth i (h_proxies h) ""), msg)).
Proof.
  intros Hi. destruct (py_index_in_range (h_proxies h) (Z.of_nat i)) as (x & Ex & Lx); [lia|].
  rewrite Nat2Z.id in Lx. apply (nth_lookup_Some _ _ "") in Lx.
  unfold _check_single. mred. rewrite Ex, Lx. unfold probe_ok.
  destruct (session_get x health_timeout) as [|r].
  - eexists; reflexivity.
  - destruct ((status_code r =? 200) || (status_code r =? 206)); eexists; reflexivity.
Qed.

Lemma scan_eq (order : list nat) (h : handler) :
  Forall (fun i => i < length (h_proxies h))%nat order ->
  scan session_get order h =
    (set_sent (rev (map (fun i => nth i (h_proxies h) "") order) ++ h_sent h) h,
     Ok (map Z.of_nat
           (List.filter (fun i => negb (probe_ok session_get (nth i (h_proxies h) ""))) order))).
Proof.
  revert h. induction order as [|i rest IH]; intros h Ho.
  - cbn [scan]. mred. by destruct h.
  - apply Forall_cons in Ho as [Hi Ho].
    destruct (check_single_eq i h Hi) as [msg Ec].
    cbn [scan]. unfold mbind at 1. unfold M_bind at 1. rewrite Ec.
    cbn [fst].
    destruct (py_index_in_range (h_proxies h) (Z.of_nat i)) as (x & Ex & _); [lia|].
    assert (Hp : h_proxies (log_sent (nth i (h_proxies h) "") h) = h_proxies h) by done.
    destruct (probe_ok session_get (nth i (h_proxies h) "")) eqn:Ep.
    + mred. rewrite IH by (by rewrite Hp). rewrite Hp.
      cbn [map rev List.filter]. rewrite Ep. cbn [negb].
      rewrite <- app_assoc. reflexivity.
    + mred. rewrite Hp, Ex. rewrite IH by (by rewrite Hp). rewrite Hp.
      cbn [map rev List.filter]. rewrite Ep. cbn [negb].
      rewrite <- app_assoc. reflexivity.
Qed.

End HealthFacts.

Section CheckFacts.
Variable session_get : string -> Z -> http_outcome.

Lemma failed_elem (p : nat -> bool) (order : list nat) (j : nat) :
  Z.of_nat j ∈ map Z.of_nat (List.filter p order) <-> j ∈ order /\ p j = true.
Proof.
  rewrite list_elem_of_fmap. split.
  - intros (k & Ek & Hk). apply Nat2Z.inj in Ek as ->.
    rewrite list_elem_of_In, filter_In in Hk. rewrite list_elem_of_In. done.
  - intros [Hj Hp]. exists j. split; [done|].
    rewrite list_elem_of_In, filter_In. rewrite list_elem_of_In in Hj. done.
Qed.

(** Outcome of [check(raise_exception=False)] when the probes complete
    in the order [order], a permutation of the indices. *)
(** [check] for either value of [raise_exception]. *)
Lemma check_eq_gen (raise_exception : bool) (order : list nat) (h : handler) :
  Permutation order (seq 0 (length (h_proxies h))) ->
  check session_get raise_exception order h =
    (set_proxies (List.filter (probe_ok session_get) (h_proxies h))
       (set_sent (rev (map (fun i => nth i (h_proxies h) "") order) ++ h_sent h) h),
     let failed := map Z.of_nat
       (List.filter (fun i => negb (probe_ok session_get (nth i (h_proxies h) ""))) order) in
     if raise_exception && negb (bool_decide (failed = [])) then
       Raise (RuntimeError "Proxies are not working")
     else
       match List.filter (probe_ok session_get) (h_proxies h) with
       | [] => Raise (RuntimeError "No proxies available after check")
       | _ => Ok failed
       end).
Proof.
  intros Hperm.
  set (l := h_proxies h).
  set (p := fun i => negb (probe_ok session_get (nth i l ""))).
  assert (Hin : forall i, i ∈ order <-> (i < length l)%nat).
  { intros i. rewrite Hperm, elem_of_seq. unfold l. split; lia. }
  assert (Hr : Forall (fun i => i < length l)%nat order).
  { apply Forall_forall. intros i Hi. apply Hin. exact Hi. }
  unfold check. unfold mbind at 1, M_bind at 1.
  rewrite scan_eq by done. fold l. fold p.
  set (h1 := set_sent (rev (map (fun i => nth i l "") order) ++ h_sent h) h).
  set (failed := map Z.of_nat (List.filter p order)).
  assert (Hnd : NoDup (merge_sort desc failed)).
  { rewrite (merge_sort_Permutation desc failed). unfold failed.
    apply NoDup_fmap_2; [intros a b E; lia|].
    apply NoDup_ListNoDup, List.NoDup_filter, NoDup_ListNoDup.
    rewrite Hperm. apply NoDup_seq. }
  assert (Hrange : Forall (fun i => 0 <= i < Z.of_nat (length (h_proxies h1))) (merge_sort desc failed)).
  { apply Forall_forall. intros x Hx.
    rewrite (merge_sort_Permutation desc failed) in Hx.
    unfold failed in Hx. apply list_elem_of_fmap in Hx as (k & -> & Hk).
    rewrite list_elem_of_In, filter_In, <- list_elem_of_In, Hin in Hk.
    change (h_proxies h1) with l. lia. }
  mred.
  rewrite del_each_sorted; [| apply StronglySorted_merge_sort; apply _ | exact Hnd | exact Hrange].
  change (h_proxies h1) with l.
  rewrite (keep_idx_ext _ (fun j => probe_ok session_get (nth j l ""))).
  2:{ intros j Hj.
      destruct (probe_ok session_get (nth j l "")) eqn:E.
      - apply negb_true_iff, bool_decide_eq_false.
        rewrite (merge_sort_Permutation desc failed). unfold failed.
        rewrite failed_elem. unfold p. rewrite E. intros [_ ?]; discriminate.
      - apply negb_false_iff, bool_decide_eq_true.
        rewrite (merge_sort_Permutation desc failed). unfold failed.
        rewrite failed_elem. unfold p. rewrite E. split; [by apply Hin|done]. }
  rewrite keep_idx_filter. cbn zeta.
  destruct (raise_exception && negb (bool_decide (failed = []))); [reflexivity|].
  destruct (List.filter (probe_ok session_get) l); reflexivity.
Qed.

Lemma check_eq (order : list nat) (h : handler) :
  Permutation order (seq 0 (length (h_proxies h))) ->
  check session_get false order h =
    (set_proxies (List.filter (probe_ok session_get) (h_proxies h))
       (set_sent (rev (map (fun i => nth i (h_proxies h) "") order) ++ h_sent h) h),
     match List.filter (probe_ok session_get) (h_proxies h) with
     | [] => Raise (RuntimeError "No proxies available after check")
     | _ => Ok (map Z.of_nat
                  (List.filter (fun i => negb (probe_ok session_get (nth i (h_proxies h) "")))
                     order))
     end).
Proof. intros Hp. by rewrite check_eq_gen. Qed.


End CheckFacts.

Lemma map_nth_seq_self {A} (l : list A) (d : A) :
  map (fun i => nth i l d) (seq 0 (length l)) = l.
Proof.
  induction l as [|x l IH]; [done|].
  cbn [length seq map nth]. f_equal.
  rewrite <- seq_shift, map_map. exact IH.
Qed.

Lemma filter_nil_forall {A} (p : A -> bool) (l : list A) :
  List.filter p l = [] <-> Forall (fun b => p b = false) l.
Proof.
  induction l as [|x l IH]; [split; done|].
  cbn [List.filter]. rewrite Forall_cons. destruct (p x); [split; [done|intros [? _]; done]|].
  rewrite IH. split; [done|intros [_ ?]; done].
Qed.

Section CheckTheorems.
Variable session_get : string -> Z -> http_outcome.

(** C6: [check()] (with [raise_exception] left False), whatever the
    completion order of the probe futures, probes every pool entry exactly
    once (a bare GET on its base URL, classified by [probe_ok]: status 200
    or 206 under the fixed timeout [health_timeout] = 5); the pool left
    afterwards is the healthy entries in their original relative order, so
    the failing indices were all removed, after the scan, from the list the
    scan indexed; the returned list holds exactly the failing indices; and
    the call raises the exhaustion error iff every entry failed its probe. *)
Theorem check_removes_failed (order : list nat) (h : handler) :
  Permutation order (seq 0 (length (h_proxies h))) ->
  let res := check session_get false order h in
  (exists probed, h_sent (fst res) = probed ++ h_sent h /\ Permutation probed (h_proxies h)) /\
  h_proxies (fst res) = List.filter (probe_ok session_get) (h_proxies h) /\
  (snd res = Raise (RuntimeError "No proxies available after check") <->
     Forall (fun b => probe_ok session_get b = false) (h_proxies h)) /\
  (forall failed, snd res = Ok failed ->
     forall i, i ∈ failed <->
       0 <= i < Z.of_nat (length (h_proxies h)) /\
       probe_ok session_get (nth (Z.to_nat i) (h_proxies h) "") = false).
Proof.
  intros Hp res. unfold res. rewrite (check_eq session_get order h Hp). cbn [fst snd].
  split; [|split; [|split]].
  - eexists. split; [reflexivity|].
    rewrite <- Permutation_rev. rewrite Hp. by rewrite map_nth_seq_self.
  - reflexivity.
  - rewrite <- filter_nil_forall.
    destruct (List.filter (probe_ok session_get) (h_proxies h)); split; done.
  - intros failed Hf i.
    destruct (List.filter (probe_ok session_get) (h_proxies h)); [done|].
    injection Hf as <-. rewrite list_elem_of_fmap. split.
    + intros (k & -> & Hk).
      rewrite list_elem_of_In, filter_In, <- list_elem_of_In, Hp, elem_of_seq in Hk.
      destruct Hk as [Hk Hn]. apply negb_true_iff in Hn.
      rewrite Nat2Z.id. split; [lia|done].
    + intros [Hi Hn]. exists (Z.to_nat i). split; [lia|].
      rewrite list_elem_of_In, filter_In, <- list_elem_of_In, Hp, elem_of_seq.
      rewrite Hn. split; [lia|done].
Qed.

(** C10: when every entry fails its probe, [check()] with
    [raise_exception] left False deletes all of them before it raises the
    no-proxies error: the handler the error leaves behind has an empty
    pool ([len] 0); nothing is restored. *)
Theorem check_all_failed_empties_pool (order : list nat) (h : handler) :
  Permutation order (seq 0 (length (h_proxies h))) ->
  Forall (fun b => probe_ok session_get b = false) (h_proxies h) ->
  let res := check session_get false order h in
  snd res = Raise (RuntimeError "No proxies available after check") /\
  h_proxies (fst res) = [] /\ handler_len (fst res) = 0%nat.
Proof.
  intros Hp Hall res. unfold res. rewrite (check_eq session_get order h Hp). cbn [fst snd].
  apply filter_nil_forall in Hall. unfold handler_len. cbn [h_proxies set_proxies].
  rewrite Hall. done.
Qed.

End CheckTheorems.

(** ** Chunked download *)

Lemma chunks_eq (filesize sp : Z) :
  0 < sp ->
  chunks filesize sp =
    Some (map (fun k => (Z.of_nat k * sp, Z.min filesize (Z.of_nat k * sp + sp)))
            (seq 0 (Z.to_nat ((filesize + sp - 1) / sp)))).
Proof.
  intros Hsp. unfold chunks, py_range.
  replace (sp =? 0) with false by (symmetry; apply Z.eqb_neq; lia).
  replace (0 <? sp) with true by (symmetry; apply Z.ltb_lt; lia).
  cbn [mbind option_bind]. rewrite map_map, Z.sub_0_r. reflexivity.
Qed.

(** Every start [k * sp] with [k] below the chunk count lies below [filesize]. *)
Lemma chunk_start_below (filesize sp : Z) (k : nat) :
  0 < sp -> (k < Z.to_nat ((filesize + sp - 1) / sp))%nat -> Z.of_nat k * sp < filesize.
Proof.
  intros Hsp Hk.
  assert (Hq : Z.of_nat k + 1 <= (filesize + sp - 1) / sp) by lia.
  pose proof (Z.mul_div_le (filesize + sp - 1) sp Hsp) as Hle.
  nia.
Qed.

Lemma chunks_cover (filesize sp : Z) (m : nat) :
  0 < sp -> 0 <= filesize -> (m <= Z.to_nat ((filesize + sp - 1) / sp))%nat ->
  concat (map (fun d : Z * Z => seqZ (fst d) (snd d - fst d))
            (map (fun k => (Z.of_nat k * sp, Z.min filesize (Z.of_nat k * sp + sp))) (seq 0 m)))
    = seqZ 0 (Z.min filesize (Z.of_nat m * sp)).
Proof.
  intros Hsp HS. induction m as [|m IH]; intros Hm.
  - cbn. rewrite Z.min_r by lia. done.
  - pose proof (chunk_start_below filesize sp m Hsp ltac:(lia)) as Hlt.
    rewrite seq_S, !map_app, concat_app, IH by lia. cbn [map concat fst snd].
    rewrite app_nil_r, (Z.min_r filesize (Z.of_nat m * sp)) by lia.
    replace (Z.min filesize (Z.of_nat (S m) * sp))
      with (Z.of_nat m * sp + (Z.min filesize (Z.of_nat m * sp + sp) - Z.of_nat m * sp)) by lia.
    rewrite seqZ_app by lia. by rewrite Z.add_0_l.
Qed.

Lemma chunks_partition (filesize sp : Z) :
  0 < sp -> 0 <= filesize ->
  exists ds, chunks filesize sp = Some ds /\
    concat (map (fun d : Z * Z => seqZ (fst d) (snd d - fst d)) ds) = seqZ 0 filesize /\
    Forall (fun d : Z * Z => 0 < snd d - fst d <= sp) ds.
Proof.
  intros Hsp HS. rewrite chunks_eq by done. eexists. split; [reflexivity|]. split.
  - rewrite chunks_cover by lia. f_equal.
    assert (Hq : 0 <= (filesize + sp - 1) / sp) by (apply Z.div_pos; lia).
    rewrite Z2Nat.id by lia.
    pose proof (Z.div_mod (filesize + sp - 1) sp ltac:(lia)) as Hd.
    pose proof (Z.mod_pos_bound (filesize + sp - 1) sp Hsp) as Hb.
    lia.
  - apply Forall_forall. intros d Hd.
    apply list_elem_of_fmap in Hd as (k & -> & Hk). apply elem_of_seq in Hk.
    pose proof (chunk_start_below filesize sp k Hsp ltac:(lia)). cbn [fst snd]. lia.
Qed.

Section DownloadFacts.
Variable get_filepart_call : Z -> Z -> nat -> result (option response).

(** The binding after the retry loop is the incoming one or the value of
    one of the attempts. *)
Lemma retry_part_origin (s e : Z) (k i : nat) (fr : binding) (r : option response) :
  retry_part get_filepart_call s e i k fr = Some r ->
  fr = Some r \/ exists j, (i <= j < i + k)%nat /\ get_filepart_call s e j = Ok r.
Proof.
  revert i fr. induction k as [|k IH]; intros i fr Hr; cbn [retry_part] in Hr; [by left|].
  destruct (get_filepart_call s e i) as [[resp|]|ex] eqn:Ec.
  - destruct (resp_truthy resp && _) eqn:Eok.
    + injection Hr as <-. right. exists i. split; [lia|done].
    + destruct (IH _ _ Hr) as [E|(j & Hj & Ej)].
      * injection E as <-. right. exists i. split; [lia|done].
      * right. exists j. split; [lia|done].
  - destruct (IH _ _ Hr) as [E|(j & Hj & Ej)].
    + injection E as <-. right. exists i. split; [lia|done].
    + right. exists j. split; [lia|done].
  - destruct (IH _ _ Hr) as [E|(j & Hj & Ej)]; [by left|].
    right. exists j. split; [lia|done].
Qed.

Lemma chunk_step_accepts (mr : nat) (fr : binding) (d : Z * Z) (c : list Z) :
  snd (chunk_step get_filepart_call mr fr d) = Some c ->
  exists r, fst (chunk_step get_filepart_call mr fr d) = Some (Some r) /\
    status_code r = 200 /\
    (exists cl, content_length r = Some cl /\ py_int cl = Some ((snd d - 1) - fst d + 1)) /\
    content r = c /\
    (fr = Some (Some r) \/
     exists j, (j < mr)%nat /\ get_filepart_call (fst d) (snd d - 1) j = Ok (Some r)).
Proof.
  unfold chunk_step. cbn [fst snd].
  destruct (retry_part get_filepart_call (fst d) (snd d - 1) 0 mr fr) as [[r|]|] eqn:Er;
    cbn [chunk_result]; [|done|done].
  destruct (status_code r =? 200) eqn:Es; cbn [negb]; [|done].
  destruct (content_length r) as [cl|] eqn:Ecl; [|done].
  destruct (py_int cl) as [v|] eqn:Ev; [|done].
  destruct (v =? snd d - fst d) eqn:Ew; [|done].
  intros Hc. injection Hc as <-.
  exists r. split; [done|]. split; [by apply Z.eqb_eq|]. split.
  { exists cl. split; [done|]. rewrite Ev. f_equal. apply Z.eqb_eq in Ew. lia. }
  split; [done|].
  destruct (retry_part_origin _ _ _ _ _ _ Er) as [E|(j & Hj & Ej)]; [by left|].
  right. exists j. split; [lia|done].
Qed.

Lemma write_chunks_app (mr : nat) (pre rest : list (Z * Z)) (fr fr' : binding) (f f' : list Z) :
  write_chunks get_filepart_call mr pre fr f = (fr', f', true) ->
  write_chunks get_filepart_call mr (pre ++ rest) fr f =
    write_chunks get_filepart_call mr rest fr' f'.
Proof.
  revert fr f. induction pre as [|d pre IH]; intros fr f Hw.
  - cbn in Hw. by injection Hw as -> ->.
  - cbn [app write_chunks] in Hw |- *.
    destruct (chunk_step get_filepart_call mr fr d) as [fr1 [c|]]; [|done].
    by apply IH.
Qed.

End DownloadFacts.

(** ** Interleaved threads *)

Lemma step_adv (g g' : shared) (ev : event) :
  step g ev = Some g' ->
  g_n g' = g_n g /\
  ((g_adv g' = g_adv g /\ g_cur g' = g_cur g) \/
   (g_n g <> 0 /\ g_adv g' = g_adv g ++ [(g_cur g + 1) mod g_n g] /\
    g_cur g' = (g_cur g + 1) mod g_n g)).
Proof.
  destruct ev as [d|t]; cbn [step].
  - destruct (0 <=? d); [|done]. intros Hs; injection Hs as <-. cbn. auto.
  - destruct (g_threads g !! t) as [[|idx|idx until|idx|]|]; try done.
    + destruct (g_n g =? 0) eqn:En.
      * intros Hs; injection Hs as <-. cbn. auto.
      * intros Hs; injection Hs as <-. cbn. split; [done|]. right.
        apply Z.eqb_neq in En. auto.
    + intros Hs; injection Hs as <-. cbn. auto.
    + destruct (until <=? g_clock g); [|done]. intros Hs; injection Hs as <-. cbn. auto.
Qed.

(** The indices handed out by [_next_proxy_index] in any interleaving. *)
Lemma run_adv (g0 : shared) (evs : list event) :
  forall g g', run g evs = Some g' ->
  g_n g = g_n g0 ->
  (exists m, g_adv g = g_adv g0 ++
       map (fun k => (g_cur g0 + 1 + Z.of_nat k) mod g_n g0) (seq 0 m) /\
     ((m = O /\ g_cur g = g_cur g0) \/ g_cur g = (g_cur g0 + Z.of_nat m) mod g_n g0)) ->
  g_n g' = g_n g0 /\
  exists m, g_adv g' = g_adv g0 ++
       map (fun k => (g_cur g0 + 1 + Z.of_nat k) mod g_n g0) (seq 0 m) /\
     ((m = O /\ g_cur g' = g_cur g0) \/ g_cur g' = (g_cur g0 + Z.of_nat m) mod g_n g0).
Proof.
  induction evs as [|ev evs IH]; intros g g' Hr Hn Hinv.
  - cbn in Hr. injection Hr as <-. auto.
  - cbn [run] in Hr. destruct (step g ev) as [g1|] eqn:Es; [|done].
    cbn [mbind option_bind] in Hr.
    apply (IH g1 g' Hr).
    { destruct (step_adv _ _ _ Es) as [E _]. congruence. }
    destruct (step_adv _ _ _ Es) as [_ [[Ea Ec]|(Hnz & Ea & Ec)]];
      destruct Hinv as (m & Hm & Hc).
    + exists m. rewrite Ea, Ec. auto.
    + exists (S m). rewrite Ea, Ec, Hm, seq_S, map_app, <- app_assoc. rewrite Hn. split.
      * do 2 f_equal. destruct Hc as [[-> ->] | ->]; [cbn; f_equal; f_equal; lia|].
        cbn [map]. f_equal. rewrite Zplus_mod_idemp_l. f_equal. lia.
      * right. destruct Hc as [[-> ->] | ->]; [reflexivity|].
        rewrite Zplus_mod_idemp_l. f_equal. lia.
Qed.

Lemma step_hold_read (g : shared) (t : nat) (idx : Z) :
  g_threads g !! t = Some (THold idx) ->
  step g (EvRun t) =
    Some (set_thread t (TGate idx (default 0 (g_commit g !! idx) + g_wait g)) g).
Proof. intros Ht. cbn [step]. by rewrite Ht. Qed.

Lemma step_gate_commit (g : shared) (t : nat) (idx until : Z) :
  g_threads g !! t = Some (TGate idx until) -> until <= g_clock g ->
  step g (EvRun t) =
    Some (mkShared (g_n g) (g_cur g) (g_wait g) (<[idx := g_clock g]> (g_commit g))
            (g_clock g) (<[t := TDone idx]> (g_threads g)) (g_adv g)
            ((idx, g_clock g) :: g_pass g)).
Proof.
  intros Ht Hle. cbn [step]. rewrite Ht.
  replace (until <=? g_clock g) with true by (symmetry; by apply Z.leb_le). done.
Qed.

Section DownloadTheorem.
Variable get_filepart_call : Z -> Z -> nat -> result (option response).

(** C8 (what the code does): for a probed size [filesize] and a chunk
    size [sp > 0],
    the chunks partition [0, filesize) contiguously, each of width between
    1 and [sp]; a chunk's bytes are appended only when the response bound
    to [file_response] has status 200 and a Content-Length equal to
    [end - start + 1] for the inclusive range requested, that response
    coming from one of the chunk's attempts or, when every attempt raised,
    still bound from an earlier chunk; when a chunk fails, [download_post]
    returns and the file keeps exactly the bytes written before it: it is
    neither removed nor truncated; only a completed loop whose file size
    differs from [filesize] removes the file. *)
Theorem download_split_outcome (filesize sp : Z) (mr : nat) :
  0 < sp -> 0 <= filesize ->
  exists ds, chunks filesize sp = Some ds /\
   concat (map (fun d : Z * Z => seqZ (fst d) (snd d - fst d)) ds) = seqZ 0 filesize /\
   Forall (fun d : Z * Z => 0 < snd d - fst d <= sp) ds /\
   (forall fr d c, snd (chunk_step get_filepart_call mr fr d) = Some c ->
      exists r, fst (chunk_step get_filepart_call mr fr d) = Some (Some r) /\
        status_code r = 200 /\
        (exists cl, content_length r = Some cl /\ py_int cl = Some ((snd d - 1) - fst d + 1)) /\
        content r = c /\
        (fr = Some (Some r) \/
         exists j, (j < mr)%nat /\ get_filepart_call (fst d) (snd d - 1) j = Ok (Some r))) /\
   (forall pre d post fr f, ds = pre ++ d :: post ->
      write_chunks get_filepart_call mr pre None [] = (fr, f, true) ->
      snd (chunk_step get_filepart_call mr fr d) = None ->
      download_split get_filepart_call filesize sp mr = Some f) /\
   (forall fr f, write_chunks get_filepart_call mr ds None [] = (fr, f, true) ->
      download_split get_filepart_call filesize sp mr =
        if Z.of_nat (length f) =? filesize then Some f else None).
Proof.
  intros Hsp HS.
  destruct (chunks_partition filesize sp Hsp HS) as (ds & Eds & Hcov & Hw).
  exists ds. split; [done|]. split; [done|]. split; [done|]. split.
  { intros fr d c Hc. by apply chunk_step_accepts. }
  split.
  - intros pre d post fr f -> Hpre Hd.
    unfold download_split. rewrite Eds.
    rewrite (write_chunks_app get_filepart_call mr pre (d :: post) None fr [] f Hpre).
    cbn [write_chunks].
    destruct (chunk_step get_filepart_call mr fr d) as [fr1 v] eqn:Ec.
    cbn [snd] in Hd. rewrite Hd. reflexivity.
  - intros fr f Hw'. unfold download_split. rewrite Eds, Hw'. reflexivity.
Qed.

End DownloadTheorem.

(** C9 (amended): [_next_proxy_index] is serialised by [_index_lock]: in
    every interleaving, the [k]-th index handed out is
    [(current_index + 1 + k) mod len(proxies)], so the cursor is advanced
    correctly; [_wait_until_allowed] is not atomic: two threads holding
    the same index, both before their read of [_commit_time], can both
    pass the gate at the same instant, whatever [wait_time] is. *)
Theorem advance_serialised_gate_racy :
  (forall g0 evs g, 0 < g_n g0 -> run g0 evs = Some g ->
     exists m, g_adv g = g_adv g0 ++
       map (fun k => (g_cur g0 + 1 + Z.of_nat k) mod g_n g0) (seq 0 m)) /\
  (forall g t1 t2 i, t1 <> t2 ->
     g_threads g !! t1 = Some (THold i) -> g_threads g !! t2 = Some (THold i) ->
     let until := default 0 (g_commit g !! i) + g_wait g in
     exists g', run g [EvRun t1; EvRun t2; EvTick (Z.max 0 (until - g_clock g));
                       EvRun t1; EvRun t2] = Some g' /\
       g_pass g' = (i, Z.max (g_clock g) until) :: (i, Z.max (g_clock g) until) :: g_pass g).
Proof.
  split.
  - intros g0 evs g Hn Hr.
    destruct (run_adv g0 evs g0 g Hr eq_refl) as [_ (m & Hm & _)].
    { exists O. cbn. rewrite app_nil_r. auto. }
    by exists m.
  - intros g t1 t2 i Hne H1 H2 until.
    pose proof (lookup_lt_Some _ _ _ H1) as L1.
    pose proof (lookup_lt_Some _ _ _ H2) as L2.
    cbn [run]. rewrite (step_hold_read g t1 i H1). cbn [mbind option_bind].
    rewrite (step_hold_read _ t2 i); cycle 1.
    { cbn. by rewrite list_lookup_insert_ne. }
    cbn [mbind option_bind step set_thread g_n g_cur g_wait g_commit g_clock g_threads
         g_adv g_pass].
    fold until.
    replace (0 <=? Z.max 0 (until - g_clock g)) with true by (symmetry; apply Z.leb_le; lia).
    cbn [mbind option_bind g_n g_cur g_wait g_commit g_clock g_threads g_adv g_pass].
    rewrite list_lookup_insert_ne, list_lookup_insert_eq by (done || lia).
    replace (until <=? g_clock g + Z.max 0 (until - g_clock g)) with true
      by (symmetry; apply Z.leb_le; lia).
    cbn [mbind option_bind g_n g_cur g_wait g_commit g_clock g_threads g_adv g_pass].
    rewrite list_lookup_insert_ne, list_lookup_insert_eq
      by (rewrite ?length_insert; (done || lia)).
    replace (until <=? g_clock g + Z.max 0 (until - g_clock g)) with true
      by (symmetry; apply Z.leb_le; lia).
    cbn [mbind option_bind run g_pass].
    eexists. split; [reflexivity|].
    replace (g_clock g + Z.max 0 (until - g_clock g)) with (Z.max (g_clock g) until) by lia.
    reflexivity.
Qed.

(* ------------------------------------------------------------------ *)
(** ** Requests, health check, loading, paths, file filters and the
    gelbooru split path *)


Section RequestFacts.
Variable session_get : string -> Z -> http_outcome.
Variable json_loads : string -> option json.

(** X1: on a non-empty pool, [get] and [get_filepart] return the
    response of their one HTTP call unchanged whenever its status is not
    429, in the state left by sending that request. *)
Theorem get_passes_response_through (h : handler) :
  h_proxies h <> [] ->
  (forall url r, session_get (request_url h (get_path url)) (h_timeout h) = HttpResp r ->
     status_code r <> 429 ->
     get session_get url h = (sent_state h (get_path url), Ok (Some r))) /\
  (forall url s e r,
     session_get (request_url h (filepart_path url s e)) (h_timeout h) = HttpResp r ->
     status_code r <> 429 ->
     get_filepart session_get url s e h = (sent_state h (filepart_path url s e), Ok (Some r))).
Proof.
  intros Hne. split.
  - intros url r Hout H429. unfold get. mred.
    rewrite (request_through_proxy_ok session_get _ h r Hne Hout H429). reflexivity.
  - intros url s e r Hout H429. unfold get_filepart. mred.
    rewrite (request_through_proxy_ok session_get _ h r Hne Hout H429). reflexivity.
Qed.

(** X2: when the gateway body decodes to JSON that is not an object,
    [payload.get] raises [AttributeError], which
    [suppress(ValueError, KeyError, TypeError)] lets through:
    [get_response] raises it. *)
Theorem get_response_non_object_raises (url : string) (h : handler) (r : response) (v : json) :
  h_proxies h <> [] ->
  session_get (request_url h (get_response_path url)) (h_timeout h) = HttpResp r ->
  status_code r <> 429 ->
  json_loads (text r) = Some v ->
  (forall kv, v <> JObj kv) ->
  get_response session_get json_loads url h =
    (sent_state h (get_response_path url), Raise AttributeError).
Proof.
  intros Hne Hout H429 Hjs Hv.
  unfold get_response. mred.
  rewrite (request_through_proxy_ok session_get _ h r Hne Hout H429). cbn beta iota zeta.
  unfold suppress. mred. rewrite Hjs.
  destruct v as [| | | | | | | |kv]; try reflexivity. by destruct (Hv kv).
Qed.

(** X3: a [status_code] field of the payload that [int()] rejects makes
    [get_response] return None, whatever [success] says, unless it is an
    infinite float (such as [1e400]): [int()] then raises
    [OverflowError], which [suppress(ValueError, KeyError, TypeError)]
    lets through, and [get_response] raises it. *)
Theorem get_response_bad_status (url : string) (h : handler) (r : response)
    (kv : list (string * json)) (sc : json) (e : exn) :
  h_proxies h <> [] ->
  session_get (request_url h (get_response_path url)) (h_timeout h) = HttpResp r ->
  status_code r <> 429 ->
  json_loads (text r) = Some (JObj kv) ->
  obj_get kv "status_code" = Some sc ->
  py_int_json sc = Raise e ->
  get_response session_get json_loads url h =
    (sent_state h (get_response_path url),
     match sc with JInf _ => Raise OverflowError | _ => Ok None end).
Proof.
  intros Hne Hout H429 Hjs Hsc Hbad.
  unfold get_response. mred.
  rewrite (request_through_proxy_ok session_get _ h r Hne Hout H429). cbn beta iota zeta.
  unfold suppress. mred. rewrite Hjs. cbn [py_get]. rewrite Hsc. cbn [default id].
  rewrite Hbad. cbn beta iota.
  destruct sc as [|b|z|m ex|neg| |s0|l|kv0]; cbn in Hbad; try discriminate;
    try (injection Hbad as <-; reflexivity).
  destruct (py_int s0); [discriminate|]. injection Hbad as <-. reflexivity.
Qed.

(** X4: a payload [status_code] of 429 punishes the proxy that carried the
    request; [get_response] still returns None when [success] is falsy,
    and the decoded [response] text when [success] is true. *)
Theorem get_response_upstream_429 (url : string) (h : handler) (r : response)
    (kv : list (string * json)) (sc : json) :
  h_proxies h <> [] ->
  session_get (request_url h (get_response_path url)) (h_timeout h) = HttpResp r ->
  status_code r <> 429 ->
  json_loads (text r) = Some (JObj kv) ->
  obj_get kv "status_code" = Some sc ->
  py_int_json sc = Ok 429 ->
  fst (get_response session_get json_loads url h) =
    punish_state (selected_index h) (sent_state h (get_response_path url)) /\
  (py_truthy (default JNull (obj_get kv "success")) = false ->
     snd (get_response session_get json_loads url h) = Ok None) /\
  (obj_get kv "success" = Some (JBool true) ->
   forall s, obj_get kv "response" = Some (JStr s) ->
     snd (get_response session_get json_loads url h) =
       Ok (Some (match json_loads s with Some v => v | None => JStr s end))).
Proof.
  intros Hne Hout H429 Hjs Hsc H.
  unfold get_response. mred.
  rewrite (request_through_proxy_ok session_get _ h r Hne Hout H429). cbn beta iota zeta.
  unfold suppress. mred. rewrite Hjs. cbn [py_get]. rewrite Hsc. cbn [default id].
  rewrite H. cbn -[punish_state sent_state selected_index].
  rewrite punish_proxy_eq. cbn -[punish_state sent_state selected_index].
  split; [|split].
  - destruct (py_truthy _); [|reflexivity].
    destruct (default JNull (obj_get kv "response")) as [| | | | | |s| |]; try reflexivity.
    destruct (json_loads s); reflexivity.
  - intros Hf. rewrite Hf. reflexivity.
  - intros Hs s Hr. rewrite Hs, Hr. cbn. destruct (json_loads s); reflexivity.
Qed.

(** X5: a request through a non-empty pool is sent at
    max(clock, commit time of the selected index + wait interval); that
    index's commit time becomes the send time, plus the timeout after a
    transport error or a 429; no other commit time changes and the pool
    stays the same. *)
Theorem request_paced (path : string) (h : handler) :
  h_proxies h <> [] ->
  let idx := selected_index h in
  let t := Z.max (h_clock h) (eligible_at h idx) in
  let h' := fst (_request_through_proxy session_get path h) in
  h_clock h' = t /\
  h_commit_time h' !! idx =
    Some (match session_get (request_url h path) (h_timeout h) with
          | HttpResp r => if status_code r =? 429 then t + h_timeout h else t
          | HttpExc => t + h_timeout h
          end) /\
  (forall j, j <> idx -> h_commit_time h' !! j = h_commit_time h !! j) /\
  h_current_index h' = idx /\ h_proxies h' = h_proxies h.
Proof.
  intros Hne idx t h'. unfold h'. rewrite request_through_proxy_eq by done. cbn zeta.
  assert (Hs : h_clock (sent_state h path) = t /\
               h_commit_time (sent_state h path) = <[idx := t]> (h_commit_time h) /\
               h_current_index (sent_state h path) = idx /\
               h_proxies (sent_state h path) = h_proxies h /\
               h_timeout (sent_state h path) = h_timeout h).
  { unfold sent_state, gate_state, eligible_at, t, idx. fold idx.
    destruct (0 <? _) eqn:E; cbn;
      [apply Z.ltb_lt in E | apply Z.ltb_ge in E].
    all: unfold eligible_at in *.
    all: cbn [h_commit_time h_wait_time h_clock set_current_index] in E.
    all: match goal with |- ?a = ?b /\ _ => assert (a = b) as Hab by lia end.
    all: split; [exact Hab|]; split; [f_equal; exact Hab|]; repeat split. }
  destruct Hs as (Hc & Hct & Hci & Hp & Ht).
  destruct (session_get (request_url h path) (h_timeout h)) as [|r];
    [|destruct (status_code r =? 429)]; cbn [fst punish_state set_commit_time h_clock
        h_commit_time h_current_index h_proxies h_timeout];
    rewrite ?Hc, ?Hct, ?Hci, ?Hp, ?Ht; (split; [done|]);
    (split; [by rewrite ?lookup_insert_eq|]);
    (split; [intros j Hj; by rewrite ?lookup_insert_ne, ?lookup_insert_ne by done|done]).
Qed.
End RequestFacts.

Section CheckExtras.
Variable session_get : string -> Z -> http_outcome.

Lemma failed_nil_iff (order : list nat) (l : list string) :
  Permutation order (seq 0 (length l)) ->
  (map Z.of_nat (List.filter (fun i => negb (probe_ok session_get (nth i l ""))) order) = [] <->
   Forall (fun b => probe_ok session_get b = true) l).
Proof.
  intros Hp. split.
  - intros H. apply map_eq_nil in H. apply filter_nil_forall in H.
    rewrite Hp in H. rewrite <- (map_nth_seq_self l "").
    apply Forall_fmap. eapply Forall_impl; [exact H|]. intros i Hi. cbn.
    by apply negb_false_iff in Hi.
  - intros H. cut (List.filter (fun i => negb (probe_ok session_get (nth i l ""))) order = []);
      [intros ->; reflexivity|].
    apply filter_nil_forall.
    rewrite Hp. rewrite <- (map_nth_seq_self l "") in H. apply Forall_fmap in H.
    eapply Forall_impl; [exact H|]. intros i Hi. cbn in Hi. by rewrite Hi.
Qed.

Lemma filter_forall_true {A} (p : A -> bool) (l : list A) :
  Forall (fun b => p b = true) l -> List.filter p l = l.
Proof.
  induction l as [|x l IH]; intros H; [done|].
  apply Forall_cons in H as [Hx H]. cbn. rewrite Hx. f_equal. by apply IH.
Qed.

(** X6: [check(raise_exception=True)] removes the failed proxies and
    raises [RuntimeError] as soon as one probe failed; when it returns,
    it returns [[]], and it does so exactly when the pool was non-empty
    and every probe succeeded. *)
Theorem check_raise_mode (order : list nat) (h : handler) :
  Permutation order (seq 0 (length (h_proxies h))) ->
  let res := check session_get true order h in
  h_proxies (fst res) = List.filter (probe_ok session_get) (h_proxies h) /\
  (forall v, snd res = Ok v -> v = []) /\
  (snd res = Ok [] <->
     h_proxies h <> [] /\ Forall (fun b => probe_ok session_get b = true) (h_proxies h)) /\
  (Exists (fun b => probe_ok session_get b = false) (h_proxies h) ->
     exists msg, snd res = Raise (RuntimeError msg)).
Proof.
  intros Hp res. unfold res. rewrite (check_eq_gen session_get true order h Hp). cbn [fst snd andb].
  pose proof (failed_nil_iff order (h_proxies h) Hp) as Hf.
  set (failed := map Z.of_nat _) in *.
  cbn zeta.
  split; [reflexivity|].
  destruct (bool_decide (failed = [])) eqn:Eb; cbn [negb].
  - apply bool_decide_eq_true in Eb. pose proof Eb as Hall. apply Hf in Hall.
    rewrite (filter_forall_true _ _ Hall).
    assert (Hnx : ~ Exists (fun b => probe_ok session_get b = false) (h_proxies h)).
    { intros Hx. apply Exists_exists in Hx as (b & Hb & Eb').
      rewrite Forall_forall in Hall. specialize (Hall b Hb). congruence. }
    destruct (h_proxies h) as [|b bs]; split.
    + done.
    + split; [split; [done|intros [? _]; done]|]. intros Hx. inversion Hx.
    + intros v [= <-]. exact Eb.
    + split; [split; [intros _; split; [done|exact Hall]|intros _; by rewrite Eb]|].
      intros Hx. by exfalso.
  - apply bool_decide_eq_false in Eb.
    split; [done|]. split; [|by eexists].
    split; [done|]. intros [_ Hall]. by apply Hf in Hall.
Qed.

(** X7: after a [check] that returns, the next round-robin advance selects
    an index inside the pruned pool, and the proxy there passed its
    probe. *)
Theorem check_then_next_index (raise_exception : bool) (order : list nat) (h : handler)
    (failed : list Z) :
  Permutation order (seq 0 (length (h_proxies h))) ->
  snd (check session_get raise_exception order h) = Ok failed ->
  let h1 := fst (check session_get raise_exception order h) in
  exists i b, _next_proxy_index h1 = (set_current_index i h1, Ok i) /\
    0 <= i /\ h_proxies h1 !! Z.to_nat i = Some b /\ probe_ok session_get b = true.
Proof.
  intros Hp Hok h1. unfold h1 in *. rewrite (check_eq_gen session_get raise_exception order h Hp) in Hok |- *.
  cbn [fst snd] in Hok |- *. cbn zeta in Hok.
  set (l' := List.filter (probe_ok session_get) (h_proxies h)) in *.
  assert (Hne : l' <> []).
  { destruct (_ && _); [discriminate|]. destruct l'; [discriminate|done]. }
  set (h2 := set_proxies l' _).
  assert (Hn : 0 < Z.of_nat (length l')) by (destruct l'; [done|cbn; lia]).
  set (i := (h_current_index h2 + 1) mod Z.of_nat (length l')).
  assert (Hi : 0 <= i < Z.of_nat (length l')) by (apply Z.mod_pos_bound; lia).
  destruct (lookup_lt_is_Some_2 l' (Z.to_nat i)) as [b Hb]; [lia|].
  exists i, b. split; [|split; [lia|split; [exact Hb|]]].
  - unfold _next_proxy_index. mred. cbn [h_proxies h2 set_proxies].
    replace (Z.of_nat (length l') =? 0) with false by lia. reflexivity.
  - apply list_elem_of_lookup_2 in Hb. unfold l' in Hb.
    rewrite list_elem_of_In, filter_In in Hb. by destruct Hb.
Qed.

End CheckExtras.

Lemma list_ascii_of_string_app (a b : string) :
  list_ascii_of_string (String.append a b) = list_ascii_of_string a ++ list_ascii_of_string b.
Proof. induction a as [|c a IH]; [done|]. simpl. by rewrite IH. Qed.

Lemma string_length_app (a b : string) :
  String.length (String.append a b) = (String.length a + String.length b)%nat.
Proof. induction a as [|c a IH]; [done|]. simpl. by rewrite IH. Qed.

Lemma substring_app_r (a b : string) (k m : nat) :
  substring (String.length a + k) m (String.append a b) = substring k m b.
Proof. induction a as [|c a IH]; [done|]. simpl. exact IH. Qed.

Lemma substring_whole (s : string) : substring 0 (String.length s) s = s.
Proof. induction s as [|c s IH]; [done|]. simpl. by rewrite IH. Qed.

Lemma substring_app_l (a b : string) : substring 0 (String.length a) (String.append a b) = a.
Proof. induction a as [|c a IH]; [by destruct b|]. simpl. by rewrite IH. Qed.

Lemma prefix_empty (s : string) : String.prefix EmptyString s = true.
Proof. by destruct s. Qed.

(** A one-character pattern. *)
Lemma index_char_none (c : ascii) (s : string) :
  String.index 0 (String c EmptyString) s = None <-> c ∉ list_ascii_of_string s.
Proof.
  induction s as [|x s IH]; cbn [String.index list_ascii_of_string].
  - split; [intros _ H; inversion H|done].
  - cbn [String.prefix]. destruct (ascii_dec c x) as [->|Hne]; rewrite ?prefix_empty.
    + split; [discriminate|]. intros H. exfalso. apply H. left.
    + rewrite elem_of_cons. destruct (String.index 0 (String c EmptyString) s) eqn:E.
      * split; [discriminate|]. intros H. exfalso.
        destruct (decide (c ∈ list_ascii_of_string s)) as [Hin|Hnin].
        -- apply H. by right.
        -- apply IH in Hnin. discriminate.
      * split; [|done]. intros _ [E'|E']; [done|]. by apply IH.
Qed.

Lemma prefix_app (p s t : string) :
  String.prefix p s = true -> String.prefix p (String.append s t) = true.
Proof.
  revert s. induction p as [|c p IH]; intros s H; [by destruct (String.append s t)|].
  destruct s as [|x s]; [done|]. simpl in H |- *.
  destruct (ascii_dec c x); [by apply IH|done].
Qed.

Lemma prefix_length (p s : string) :
  String.prefix p s = true -> (String.length p <= String.length s)%nat.
Proof.
  revert s. induction p as [|c p IH]; intros s H; [simpl; lia|].
  destruct s as [|x s]; [done|]. simpl in H |- *.
  destruct (ascii_dec c x); [apply IH in H; lia|done].
Qed.

Lemma prefix_app_inv (p s t : string) :
  String.prefix p (String.append s t) = true ->
  (String.length p <= String.length s)%nat -> String.prefix p s = true.
Proof.
  revert s. induction p as [|c p IH]; intros s H Hl; [by destruct s|].
  destruct s as [|x s]; [simpl in Hl; lia|]. simpl in H, Hl |- *.
  destruct (ascii_dec c x); [apply IH; [done|lia]|done].
Qed.

Lemma index_bound (p s : string) (n : nat) :
  String.index 0 p s = Some n -> (n + String.length p <= String.length s)%nat.
Proof.
  revert n. induction s as [|x s IH]; intros n H.
  - destruct p; cbn in H; [injection H as <-; simpl; lia|done].
  - cbn [String.index] in H. destruct (String.prefix p (String x s)) eqn:Ep.
    + injection H as <-. apply prefix_length in Ep. simpl in *. lia.
    + destruct (String.index 0 p s) eqn:E; [|done]. injection H as <-.
      specialize (IH _ eq_refl). simpl. lia.
Qed.

Lemma index_app_some (p s t : string) (n : nat) :
  String.index 0 p s = Some n -> String.index 0 p (String.append s t) = Some n.
Proof.
  revert n. induction s as [|x s IH]; intros n H.
  - destruct p; cbn in H; [|done]. injection H as <-. by destruct t.
  - cbn [String.index] in H. change (String.append (String x s) t) with (String x (String.append s t)).
    cbn [String.index]. destruct (String.prefix p (String x s)) eqn:Ep.
    + injection H as <-. change (String x (String.append s t)) with (String.append (String x s) t).
      by rewrite prefix_app.
    + destruct (String.index 0 p s) eqn:E; [|done]. injection H as <-.
      rewrite (IH n0 eq_refl).
      change (String x (String.append s t)) with (String.append (String x s) t).
      destruct (String.prefix p (String.append (String x s) t)) eqn:Ep'; [|done].
      pose proof (index_bound _ _ _ E) as Eb.
      rewrite (prefix_app_inv _ _ _ Ep') in Ep by (simpl; lia). done.
Qed.

Lemma substring_app_tail (s t : string) (k : nat) :
  (k <= String.length s)%nat ->
  substring k (String.length s - k + String.length t) (String.append s t) =
    String.append (substring k (String.length s - k) s) t.
Proof.
  revert k. induction s as [|x s IH]; intros k Hk.
  - simpl in Hk. assert (k = 0%nat) as -> by lia. simpl. apply substring_whole.
  - destruct k as [|k].
    + by rewrite !Nat.sub_0_r, <- string_length_app, !substring_whole.
    + simpl in Hk |- *. apply IH. lia.
Qed.

Lemma split1_last_app (sep s t : string) (n : nat) :
  String.index 0 sep s = Some n ->
  split1_last sep (String.append s t) = String.append (split1_last sep s) t.
Proof.
  intros H. pose proof (index_bound _ _ _ H) as Hb.
  unfold split1_last. rewrite (index_app_some _ _ _ _ H), H.
  rewrite string_length_app.
  replace (String.length s + String.length t - n - String.length sep)%nat
    with (String.length s - (n + String.length sep) + String.length t)%nat by lia.
  replace (String.length s - n - String.length sep)%nat
    with (String.length s - (n + String.length sep))%nat by lia.
  by apply substring_app_tail.
Qed.

Lemma ends_with_slash_cons (c : ascii) (s : string) :
  ends_with_slash (String c s) =
    match s with EmptyString => Ascii.eqb c "/" | _ => ends_with_slash s end.
Proof. unfold ends_with_slash. by destruct s. Qed.

Lemma ends_with_slash_snoc (s : string) :
  ends_with_slash (String.append s "/") = true.
Proof.
  unfold ends_with_slash. rewrite list_ascii_of_string_app. simpl.
  by rewrite last_snoc.
Qed.

(** No "//" is formed when joining two strings without one, unless the
    first ends and the second starts with a slash. *)
Lemma index_dslash_app_none (s t : string) :
  String.index 0 "//" s = None -> String.index 0 "//" t = None ->
  ends_with_slash s = false \/ String.prefix "/" t = false ->
  String.index 0 "//" (String.append s t) = None.
Proof.
  induction s as [|x s IH]; intros Hs Ht Hj; [done|].
  change (String.append (String x s) t) with (String x (String.append s t)).
  cbn [String.index] in Hs |- *.
  destruct (String.prefix "//" (String x s)) eqn:Ep; [done|].
  destruct (String.index 0 "//" s) eqn:Es; [done|].
  rewrite (IH eq_refl Ht).
  2:{ rewrite ends_with_slash_cons in Hj. destruct s; [|done]. by left. }
  destruct (String.prefix "//" (String x (String.append s t))) eqn:Ep'; [|done].
  exfalso. cbn [String.prefix] in Ep, Ep'.
  destruct (ascii_dec "/" x) as [<-|]; [|done].
  destruct s as [|y s].
  - change (String.append EmptyString t) with t in Ep'.
    rewrite ends_with_slash_cons in Hj.
    destruct t as [|z t]; [done|]. cbn [String.prefix] in Ep'.
    destruct (ascii_dec "/" z) as [<-|]; [|done].
    destruct Hj as [Hj|Hj]; cbn [String.prefix] in Hj; [done|].
    destruct (ascii_dec "/" "/"); [by rewrite prefix_empty in Hj|done].
  - change (String.append (String y s) t) with (String y (String.append s t)) in Ep'.
    cbn [String.prefix] in Ep, Ep'.
    destruct (ascii_dec "/" y); [|done]. by rewrite prefix_empty in Ep.
Qed.

Lemma pretty_N_go_chars (x : N) (s : string) :
  Forall num_char (list_ascii_of_string s) ->
  Forall num_char (list_ascii_of_string (pretty_N_go x s)).
Proof.
  revert s. induction (N.lt_wf_0 x) as [x _ IH]; intros s Hs.
  destruct (decide (x = 0)%N) as [->|Hx]; [by rewrite pretty_N_go_0|].
  rewrite pretty_N_go_step by lia. apply IH; [apply N.div_lt; lia|].
  cbn [list_ascii_of_string]. constructor; [right; eauto|done].
Qed.

Lemma pretty_Z_chars (z : Z) : Forall num_char (list_ascii_of_string (pretty z)).
Proof.
  assert (HN : forall p : positive, Forall num_char (list_ascii_of_string (pretty (Npos p)))).
  { intros p. unfold pretty, pretty_N. case_decide; [done|].
    by apply pretty_N_go_chars. }
  destruct z as [|p|p].
  - constructor; [right; by exists 0%N|done].
  - apply HN.
  - change (pretty (Zneg p)) with (String.append "-" (pretty (Npos p))).
    rewrite list_ascii_of_string_app. constructor; [by left|apply HN].
Qed.

Lemma num_char_ne (c d : ascii) :
  num_char c -> d <> "-"%char ->
  (d <> "0" /\ d <> "1" /\ d <> "2" /\ d <> "3" /\ d <> "4" /\ d <> "5" /\ d <> "6"
   /\ d <> "7" /\ d <> "8" /\ d <> "9")%char -> c <> d.
Proof.
  intros [->|[x ->]] Hm Hd; [done|].
  unfold pretty_N_char. repeat case_match; naive_solver.
Qed.

Lemma py_contains_char (c : ascii) (s : string) :
  py_contains (String c EmptyString) s = true <-> c ∈ list_ascii_of_string s.
Proof.
  unfold py_contains. pose proof (index_char_none c s) as H.
  destruct (String.index 0 (String c EmptyString) s).
  - split; [intros _|done]. destruct (decide (c ∈ list_ascii_of_string s)) as [|Hn]; [done|].
    by apply H in Hn.
  - split; [done|]. intros Hin. by apply H in Hin.
Qed.

Lemma index_dslash_noslash (t : string) :
  "/"%char ∉ list_ascii_of_string t -> String.index 0 "//" t = None.
Proof.
  induction t as [|z t IH]; intros Ht; [done|].
  cbn [String.index String.prefix]. cbn [list_ascii_of_string] in Ht.
  rewrite elem_of_cons in Ht.
  destruct (ascii_dec "/" z) as [<-|]; [exfalso; apply Ht; by left|].
  rewrite IH; [done|]. intros Hin; apply Ht; by right.
Qed.

Lemma port_suffix_no_slash (port : Z) :
  "/"%char ∉ list_ascii_of_string (String.append ":" (pretty port)).
Proof.
  rewrite list_ascii_of_string_app. cbn [list_ascii_of_string app].
  rewrite elem_of_cons. intros [H|H]; [done|].
  pose proof (pretty_Z_chars port) as Hc. rewrite Forall_forall in Hc.
  apply Hc in H. exact (num_char_ne "/" "/" H ltac:(done) ltac:(repeat split; done) eq_refl).
Qed.

Lemma startswith_http_app (s t : string) :
  py_startswith "http" s = true -> py_startswith "http" (String.append s t) = true.
Proof. apply prefix_app. Qed.

Lemma split1_last_none (sep s : string) :
  String.index 0 sep s = None -> split1_last sep s = s.
Proof. unfold split1_last. by intros ->. Qed.

(** What [_load_proxy_list] makes of one line: an entry that starts with
    "http", names a port after its scheme, and ends in a slash. *)
Lemma normalise_proxy_props (port : Z) (s : string) :
  let p := normalise_proxy port s in
  py_startswith "http" p = true /\ py_contains ":" (split1_last "//" p) = true /\
  ends_with_slash p = true.
Proof.
  unfold normalise_proxy. cbv zeta.
  set (s1 := if py_startswith "http" s then s else String.append "http://" s).
  assert (H1 : py_startswith "http" s1 = true).
  { subst s1. destruct (py_startswith "http" s) eqn:E; [done|].
    by apply (startswith_http_app "http://"). }
  set (s2 := if py_contains ":" (split1_last "//" s1) then s1
             else String.append s1 (String.append ":" (pretty port))).
  assert (H2 : py_startswith "http" s2 = true /\ py_contains ":" (split1_last "//" s2) = true /\
    (String.index 0 "//" s2 = None -> split1_last "//" s2 = s2)).
  { subst s2. destruct (py_contains ":" (split1_last "//" s1)) eqn:E.
    { split; [done|split; [done|]]. apply split1_last_none. }
    split; [by apply startswith_http_app|].
    destruct (String.index 0 "//" s1) as [n|] eqn:Ei.
    - rewrite (split1_last_app _ _ _ n Ei). split; [|intros Hn; by rewrite (index_app_some _ _ _ _ Ei) in Hn].
      apply py_contains_char. rewrite !list_ascii_of_string_app.
      cbn [list_ascii_of_string app]. set_solver.
    - assert (Hn : String.index 0 "//" (String.append s1 (String.append ":" (pretty port))) = None).
      { apply index_dslash_app_none; [done|by apply index_dslash_noslash, port_suffix_no_slash|].
        by right. }
      rewrite split1_last_none by done. split; [|done].
      apply py_contains_char. rewrite !list_ascii_of_string_app.
      cbn [list_ascii_of_string app]. set_solver. }
  destruct H2 as [H2s [H2c H2n]].
  destruct (ends_with_slash s2) eqn:E3; [done|].
  split; [by apply startswith_http_app|]. split; [|apply ends_with_slash_snoc].
  destruct (String.index 0 "//" s2) as [n|] eqn:Ei.
  - rewrite (split1_last_app _ _ _ n Ei). apply py_contains_char in H2c.
    apply py_contains_char. rewrite list_ascii_of_string_app. set_solver.
  - rewrite split1_last_none.
    + rewrite H2n in H2c by done. apply py_contains_char in H2c.
      apply py_contains_char. rewrite list_ascii_of_string_app. set_solver.
    + apply index_dslash_app_none; [done|done|by left].
Qed.

Lemma strip_http_slash (p : string) :
  py_startswith "http" p = true -> ends_with_slash p = true -> py_strip p = p.
Proof.
  intros Hs He. unfold py_strip.
  destruct p as [|c p']; [done|].
  cbn [py_startswith String.prefix] in Hs.
  destruct (ascii_dec "h" c) as [<-|]; [|done].
  unfold ends_with_slash in He.
  destruct (last (list_ascii_of_string (String "h" p'))) as [e|] eqn:El; [|done].
  apply last_Some in El as [pre Hpre].
  apply Ascii.eqb_eq in He. subst e.
  rewrite <- (app_nil_l (list_ascii_of_string (String "h" p'))).
  rewrite <- (app_nil_r (list_ascii_of_string (String "h" p'))).
  rewrite (strip_list_around [] [] _ "h" "/" (list_ascii_of_string p') pre); try done.
  apply string_of_list_ascii_of_string.
Qed.

Lemma normalise_proxy_fixed (port port' : Z) (p : string) :
  py_startswith "http" p = true -> py_contains ":" (split1_last "//" p) = true ->
  ends_with_slash p = true -> normalise_proxy port' p = p.
Proof.
  intros H1 H2 H3. unfold normalise_proxy. cbv zeta.
  rewrite H1. cbv iota. rewrite H2. cbv iota. by rewrite H3.
Qed.

(** X8: every entry of [_load_proxy_list] is stripped, starts with "http",
    has a colon after its first "//", and ends with "/". *)
Theorem load_proxy_list_normal_form (lines : list string) (port : Z) :
  Forall (fun p => py_strip p = p /\ py_startswith "http" p = true /\
                   py_contains ":" (split1_last "//" p) = true /\ ends_with_slash p = true)
    (_load_proxy_list lines port).
Proof.
  induction lines as [|l ls IH]; [constructor|].
  cbn [_load_proxy_list]. destruct (String.eqb (py_strip l) ""); [done|].
  constructor; [|done].
  destruct (normalise_proxy_props port (py_strip l)) as [H1 [H2 H3]].
  split; [by apply strip_http_slash|done].
Qed.

(** X9: [_load_proxy_list] is idempotent: loading its own output again,
    with any port, gives the same list. *)
Theorem load_proxy_list_idempotent (lines : list string) (port port' : Z) :
  _load_proxy_list (_load_proxy_list lines port) port' = _load_proxy_list lines port.
Proof.
  induction lines as [|l ls IH]; [done|].
  cbn [_load_proxy_list]. destruct (String.eqb (py_strip l) ""); [done|].
  cbn [_load_proxy_list].
  destruct (normalise_proxy_props port (py_strip l)) as [H1 [H2 H3]].
  rewrite strip_http_slash by done.
  destruct (String.eqb (normalise_proxy port (py_strip l)) "") eqn:E.
  { apply String.eqb_eq in E. rewrite E in H1. done. }
  rewrite IH. f_equal. by apply normalise_proxy_fixed.
Qed.

Lemma index_colon_app (user pwd : string) :
  ":"%char ∉ list_ascii_of_string user ->
  String.index 0 ":" (String.append user (String.append ":" pwd)) = Some (String.length user).
Proof.
  induction user as [|c u IH]; intros Hu.
  - change (String.append EmptyString (String.append ":" pwd)) with (String ":" pwd).
    cbn [String.index String.prefix]. destruct (ascii_dec ":" ":"); [|done].
    by rewrite prefix_empty.
  - change (String.append (String c u) (String.append ":" pwd))
      with (String c (String.append u (String.append ":" pwd))).
    cbn [list_ascii_of_string] in Hu. rewrite elem_of_cons in Hu.
    cbn [String.index String.prefix].
    destruct (ascii_dec ":" c) as [<-|]; [exfalso; apply Hu; by left|].
    rewrite IH; [done|]. intros H; apply Hu; by right.
Qed.

Lemma load_proxy_list_nil (lines : list string) (port : Z) :
  _load_proxy_list lines port = [] <-> count_valid lines = 0%nat.
Proof.
  rewrite <- (load_proxy_list_length lines port).
  split; [by intros ->|]. by destruct (_load_proxy_list lines port).
Qed.

(** X10: [__init__] splits the credentials before it opens the proxy
    file: credentials without a colon raise [ValueError] whatever the
    file; otherwise an exception from opening or reading the file leaves
    [__init__] as it is; on a file read as [lines], [__init__] fails only
    with [ValueError], and exactly when the credentials lack a colon or
    no line is usable. *)
Theorem init_outcomes (proxy_auth : string) (proxy_file : result (list string))
    (port w t clk : Z) :
  (":"%char ∉ list_ascii_of_string proxy_auth ->
     init proxy_auth proxy_file port w t clk = Raise ValueError) /\
  (":"%char ∈ list_ascii_of_string proxy_auth ->
     forall e, proxy_file = Raise e -> init proxy_auth proxy_file port w t clk = Raise e) /\
  (forall lines, proxy_file = Ok lines ->
     (forall e, init proxy_auth proxy_file port w t clk = Raise e -> e = ValueError) /\
     (init proxy_auth proxy_file port w t clk = Raise ValueError <->
        ":"%char ∉ list_ascii_of_string proxy_auth \/ count_valid lines = 0%nat)).
Proof.
  pose proof (index_char_none ":" proxy_auth) as Hi.
  unfold init. split; [|split].
  - intros H. apply Hi in H. by rewrite H.
  - intros Hin e ->. destruct (String.index 0 ":" proxy_auth) as [n|] eqn:En; [done|].
    exact (False_rect _ (proj1 Hi eq_refl Hin)).
  - intros lines ->.
    pose proof (load_proxy_list_nil lines port) as Hl.
    destruct (String.index 0 ":" proxy_auth) as [n|].
    + destruct (_load_proxy_list lines port) as [|p ps] eqn:E.
      * split; [by intros e [= <-]|]. split; [|done]. intros _. right. by apply Hl.
      * split; [done|]. split; [done|]. intros [H|H].
        -- by apply Hi in H.
        -- apply Hl in H. by rewrite ?E in H.
    + split; [by intros e [= <-]|]. split; [|done]. intros _. left. by apply Hi.
Qed.

(** X11: [proxy_auth.split(":", 1)]: credentials [user:pwd] whose user
    part has no colon give the pair [(user, pwd)], [pwd] keeping any
    further colons; the pool is the loaded list, the index starts at -1
    and no commit time is recorded. *)
Theorem init_auth_split (user pwd : string) (lines : list string) (port w t clk : Z) :
  ":"%char ∉ list_ascii_of_string user -> count_valid lines <> 0%nat ->
  exists h, init (String.append user (String.append ":" pwd)) (Ok lines) port w t clk = Ok h /\
    h_auth h = (user, pwd) /\ h_proxies h = _load_proxy_list lines port /\
    h_wait_time h = w /\ h_timeout h = t /\ h_current_index h = -1 /\ h_commit_time h = ∅.
Proof.
  intros Hu Hn. unfold init. rewrite index_colon_app by done.
  destruct (_load_proxy_list lines port) as [|p ps] eqn:E.
  { by apply load_proxy_list_nil in E. }
  eexists. split; [reflexivity|]. cbn [h_auth h_proxies h_wait_time h_timeout h_current_index h_commit_time].
  repeat split; try done. f_equal.
  - by rewrite substring_app_l.
  - rewrite string_length_app.
    replace (S (String.length user)) with (String.length user + 1)%nat by lia.
    rewrite substring_app_r.
    change (String.append ":" pwd) with (String ":" pwd). cbn [substring].
    match goal with |- substring 0 ?m pwd = pwd =>
      replace m with (String.length pwd) by (cbn [String.length]; lia) end.
    apply substring_whole.
Qed.

(** X12: [SingleProxyHandler(url)] builds what [ProxyHandler] builds from
    a proxy file read as the one line [url], and its pool has one proxy. *)
Theorem single_init_one_line (proxy_auth proxy_url : string) (port w t clk : Z) :
  single_init proxy_auth proxy_url port w t clk = init proxy_auth (Ok [proxy_url]) port w t clk /\
  (forall h, single_init proxy_auth proxy_url port w t clk = Ok h -> handler_len h = 1%nat).
Proof.
  assert (E : single_init proxy_auth proxy_url port w t clk = init proxy_auth (Ok [proxy_url]) port w t clk).
  { unfold single_init, init, single_load_proxy_list. cbn [_load_proxy_list].
    destruct (String.index 0 ":" proxy_auth); [|done].
    by destruct (String.eqb (py_strip proxy_url) ""). }
  split; [exact E|]. intros h. rewrite E. unfold init.
  destruct (String.index 0 ":" proxy_auth); [|done]. cbn [_load_proxy_list].
  destruct (String.eqb (py_strip proxy_url) ""); [done|]. by intros [= <-].
Qed.

(** ** [quote_plus] *)

Lemma hex_digit_inj (a b : nat) :
  (a < 16)%nat -> (b < 16)%nat -> hex_digit a = hex_digit b -> a = b.
Proof.
  intros Ha Hb.
  do 16 (destruct a as [|a]; [do 16 (destruct b as [|b]; [first [reflexivity|discriminate]|]); lia|]).
  lia.
Qed.

Lemma quote_char_cases (c : ascii) :
  (quote_char c = [c] /\ c <> "+"%char /\ c <> "%"%char) \/
  (quote_char c = ["+"%char] /\ c = " "%char) \/
  quote_char c = ["%"%char; hex_digit (nat_of_ascii c / 16); hex_digit (nat_of_ascii c mod 16)].
Proof.
  unfold quote_char. cbv zeta.
  destruct (((48 <=? nat_of_ascii c)%nat && (nat_of_ascii c <=? 57)%nat
       || (65 <=? nat_of_ascii c)%nat && (nat_of_ascii c <=? 90)%nat
       || (97 <=? nat_of_ascii c)%nat && (nat_of_ascii c <=? 122)%nat
       || (nat_of_ascii c =? 95)%nat || (nat_of_ascii c =? 46)%nat
       || (nat_of_ascii c =? 45)%nat || (nat_of_ascii c =? 126)%nat)) eqn:E.
  - left. split; [done|]. split; intros ->; discriminate E.
  - right. destruct (nat_of_ascii c =? 32)%nat eqn:E32; [left|right; done].
    split; [done|]. apply Nat.eqb_eq in E32.
    rewrite <- (ascii_nat_embedding c), E32. reflexivity.
Qed.

Lemma quote_char_app_inj (c1 c2 : ascii) (x1 x2 : list ascii) :
  quote_char c1 ++ x1 = quote_char c2 ++ x2 -> c1 = c2 /\ x1 = x2.
Proof.
  intros H.
  destruct (quote_char_cases c1) as [[E1 [P1 C1]]|[[E1 S1]|E1]];
  destruct (quote_char_cases c2) as [[E2 [P2 C2]]|[[E2 S2]|E2]];
  rewrite E1, E2 in H; cbn [app] in H; injection H; intros; subst; try (split; reflexivity); try congruence.
  pose proof (nat_ascii_bounded c1). pose proof (nat_ascii_bounded c2).
  assert (Hh : hex_digit (nat_of_ascii c1 / 16) = hex_digit (nat_of_ascii c2 / 16)) by congruence.
  assert (Hl : hex_digit (nat_of_ascii c1 mod 16) = hex_digit (nat_of_ascii c2 mod 16)) by congruence.
  apply hex_digit_inj in Hh; [|apply Nat.Div0.div_lt_upper_bound; lia..].
  apply hex_digit_inj in Hl; [|apply Nat.mod_upper_bound; lia..].
  split; [|done].
  rewrite <- (ascii_nat_embedding c1), <- (ascii_nat_embedding c2). f_equal.
  rewrite (Nat.div_mod (nat_of_ascii c1) 16), (Nat.div_mod (nat_of_ascii c2) 16) by lia.
  lia.
Qed.

Lemma quote_plus_inj (u1 u2 : string) : quote_plus u1 = quote_plus u2 -> u1 = u2.
Proof.
  unfold quote_plus. intros H.
  apply (f_equal list_ascii_of_string) in H. rewrite !list_ascii_of_string_of_list_ascii in H.
  rewrite <- (string_of_list_ascii_of_string u1), <- (string_of_list_ascii_of_string u2).
  f_equal. revert H. generalize (list_ascii_of_string u1) (list_ascii_of_string u2).
  intros l1. induction l1 as [|c1 r1 IH]; intros [|c2 r2] H; cbn [map concat] in H.
  - done.
  - destruct (quote_char_cases c2) as [[E _]|[[E _]|E]]; rewrite E in H; done.
  - destruct (quote_char_cases c1) as [[E _]|[[E _]|E]]; rewrite E in H; done.
  - apply quote_char_app_inj in H as [-> H]. by rewrite (IH r2 H).
Qed.

Lemma hex_digit_plain (n : nat) : (n < 16)%nat -> quote_char (hex_digit n) = [hex_digit n].
Proof. intros Hn. do 16 (destruct n as [|n]; [reflexivity|]). lia. Qed.

Lemma quote_plus_chars (u : string) :
  Forall (fun c => c = "+"%char \/ c = "%"%char \/ quote_char c = [c])
    (list_ascii_of_string (quote_plus u)).
Proof.
  unfold quote_plus. rewrite list_ascii_of_string_of_list_ascii.
  induction (list_ascii_of_string u) as [|c l IH]; [constructor|].
  cbn [map concat]. apply Forall_app. split; [|done].
  destruct (quote_char_cases c) as [[E [P C]]|[[E S]|E]]; rewrite E.
  - constructor; [|done]. by do 2 right.
  - constructor; [|done]. by left.
  - pose proof (nat_ascii_bounded c).
    constructor; [by right; left|]. constructor; [do 2 right|constructor; [do 2 right|done]].
    + apply hex_digit_plain. apply Nat.Div0.div_lt_upper_bound; lia.
    + apply hex_digit_plain. apply Nat.mod_upper_bound; lia.
Qed.

(** X13: the text [quote_plus(u, safe="")] produces is made of "+", "%"
    and characters [quote_plus] keeps as they are, and holds none of
    "&", "=", "?", "#", "/" and the space. *)
Theorem quote_plus_output (u : string) :
  Forall (fun c => c = "+"%char \/ c = "%"%char \/ quote_char c = [c])
    (list_ascii_of_string (quote_plus u)) /\
  Forall (fun c => c <> "&"%char /\ c <> "="%char /\ c <> "?"%char /\ c <> "#"%char /\
                   c <> "/"%char /\ c <> " "%char)
    (list_ascii_of_string (quote_plus u)).
Proof.
  pose proof (quote_plus_chars u) as H. split; [done|].
  eapply Forall_impl; [exact H|]. intros c [->|[->|Hc]]; [repeat split; done..|].
  repeat split; intros ->; discriminate Hc.
Qed.

Lemma app_cons_split {A} (x : A) (l1 r1 l2 r2 : list A) :
  x ∉ l1 -> x ∉ l2 -> l1 ++ x :: r1 = l2 ++ x :: r2 -> l1 = l2 /\ r1 = r2.
Proof.
  revert l2. induction l1 as [|a l1 IH]; intros [|b l2] H1 H2 H; cbn [app] in H.
  - by injection H.
  - injection H as -> _. exfalso. apply H2. by left.
  - injection H as -> _. exfalso. apply H1. by left.
  - injection H as -> H. rewrite elem_of_cons in H1, H2.
    destruct (IH l2) as [-> ->]; [tauto|tauto|done|done].
Qed.

Lemma list_ascii_of_string_inj (s1 s2 : string) :
  list_ascii_of_string s1 = list_ascii_of_string s2 -> s1 = s2.
Proof.
  intros H. by rewrite <- (string_of_list_ascii_of_string s1), H, string_of_list_ascii_of_string.
Qed.

Lemma quote_plus_no_amp (u : string) : "&"%char ∉ list_ascii_of_string (quote_plus u).
Proof.
  intros Hin. destruct (quote_plus_output u) as [_ H].
  rewrite Forall_forall in H. by destruct (H _ Hin).
Qed.

Lemma pretty_no_amp (z : Z) : "&"%char ∉ list_ascii_of_string (pretty z).
Proof.
  intros Hin. pose proof (pretty_Z_chars z) as Hc. rewrite Forall_forall in Hc.
  apply Hc in Hin. exact (num_char_ne _ "&" Hin ltac:(done) ltac:(repeat split; done) eq_refl).
Qed.

(** X14: different operations or targets never produce the same gateway
    path. *)
Theorem op_path_inj (o1 o2 : op) (u1 u2 : string) :
  op_path o1 u1 = op_path o2 u2 -> o1 = o2 /\ u1 = u2.
Proof.
  intros H. apply (f_equal list_ascii_of_string) in H.
  destruct o1, o2; cbn [op_path] in H;
    unfold get_response_path, get_path, filesize_path, filepart_path in H;
    rewrite ?list_ascii_of_string_app in H;
    try (apply app_inv_head in H; apply list_ascii_of_string_inj, quote_plus_inj in H; by subst);
    try (cbn [list_ascii_of_string app] in H; discriminate H).
  apply app_inv_head in H.
  change (list_ascii_of_string "&start=") with ("&"%char :: list_ascii_of_string "start=") in H.
  change (list_ascii_of_string "&end=") with ("&"%char :: list_ascii_of_string "end=") in H.
  cbn [app] in H.
  apply app_cons_split in H as [Hq H]; [|apply quote_plus_no_amp..].
  apply app_inv_head in H.
  apply app_cons_split in H as [Hs H]; [|apply pretty_no_amp..].
  apply app_inv_head in H.
  apply list_ascii_of_string_inj in Hq, Hs, H.
  apply quote_plus_inj in Hq. apply (inj pretty) in Hs, H. by subst.
Qed.

(** ** File-name filters *)

Lemma split_chars_ne (sep : ascii) (l : list ascii) : split_chars sep l <> [].
Proof.
  destruct l as [|c l]; [done|]. cbn [split_chars].
  destruct (Ascii.eqb c sep); [done|]. by destruct (split_chars sep l).
Qed.

Lemma split_chars_app_nosep (sep : ascii) (l r w : list ascii) (ws : list (list ascii)) :
  sep ∉ l -> split_chars sep r = w :: ws -> split_chars sep (l ++ r) = (l ++ w) :: ws.
Proof.
  induction l as [|c l IH]; intros Hl Hr; [done|].
  rewrite elem_of_cons in Hl. cbn [app split_chars].
  rewrite IH by tauto.
  destruct (Ascii.eqb c sep) eqn:E; [|done].
  apply Ascii.eqb_eq in E. exfalso. apply Hl. by left.
Qed.

Lemma split_chars_nosep (sep : ascii) (l : list ascii) :
  sep ∉ l -> split_chars sep l = [l].
Proof.
  intros Hl. rewrite <- (app_nil_r l). by apply split_chars_app_nosep.
Qed.

Lemma split_chars_sep (sep : ascii) (r : list ascii) :
  split_chars sep (sep :: r) = [] :: split_chars sep r.
Proof. cbn [split_chars]. by rewrite Ascii.eqb_refl. Qed.

Lemma digits_text_chars (ds : list nat) :
  Forall (fun d => d < 10)%nat ds ->
  Forall (fun c => exists d, (d < 10)%nat /\ c = digit_char d) (list_ascii_of_string (digits_text ds)).
Proof.
  intros Hds. unfold digits_text. rewrite list_ascii_of_string_of_list_ascii.
  induction Hds as [|d ds Hd _ IH]; constructor; [by exists d|done].
Qed.

Lemma digit_char_ne (c : ascii) (d : nat) :
  (d < 10)%nat -> c <> "0"%char -> c <> "1"%char -> c <> "2"%char -> c <> "3"%char ->
  c <> "4"%char -> c <> "5"%char -> c <> "6"%char -> c <> "7"%char -> c <> "8"%char ->
  c <> "9"%char -> digit_char d <> c.
Proof.
  intros Hd. do 10 (destruct d as [|d];
    [intros; intros E; subst c; match goal with H : _ <> _ |- _ => apply H; reflexivity end|]).
  lia.
Qed.

Lemma digits_text_no (c : ascii) (ds : list nat) :
  Forall (fun d => d < 10)%nat ds ->
  c <> "0"%char -> c <> "1"%char -> c <> "2"%char -> c <> "3"%char ->
  c <> "4"%char -> c <> "5"%char -> c <> "6"%char -> c <> "7"%char -> c <> "8"%char ->
  c <> "9"%char -> c ∉ list_ascii_of_string (digits_text ds).
Proof.
  intros Hds H0 H1 H2 H3 H4 H5 H6 H7 H8 H9 Hin.
  pose proof (digits_text_chars ds Hds) as Hc. rewrite Forall_forall in Hc.
  destruct (Hc _ Hin) as [d [Hd Ed]]. symmetry in Ed. revert Ed.
  by apply digit_char_ne.
Qed.

Lemma py_int_digits (ds : list nat) :
  ds <> [] -> Forall (fun d => d < 10)%nat ds -> py_int (digits_text ds) = Some (digits_value ds).
Proof.
  intros Hne Hds. pose proof (py_int_strip_decimal [] [] NoSign ds ltac:(done) ltac:(done) Hne Hds) as H.
  cbn [sign_chars app sign_apply] in H. rewrite app_nil_r in H.
  unfold py_strip in H. rewrite list_ascii_of_string_of_list_ascii in H.
  pose proof (decimal_text_strip [] [] NoSign ds ltac:(done) ltac:(done) Hne Hds) as Hs.
  cbn [sign_chars app] in Hs. rewrite app_nil_r in Hs. rewrite Hs in H. exact H.
Qed.

Lemma py_isdigit_digits (ds : list nat) :
  ds <> [] -> Forall (fun d => d < 10)%nat ds -> py_isdigit (digits_text ds) = true.
Proof.
  intros Hne Hds. unfold py_isdigit. apply andb_true_intro. split.
  - destruct ds; [done|]. done.
  - apply forallb_forall. intros c Hc. apply list_elem_of_In in Hc.
    pose proof (digits_text_chars ds Hds) as Hall. rewrite Forall_forall in Hall.
    destruct (Hall _ Hc) as [d [Hd ->]]. by rewrite digit_val_digit_char.
Qed.

Lemma py_endswith_app (x sfx : string) : py_endswith sfx (String.append x sfx) = true.
Proof.
  unfold py_endswith. rewrite string_length_app. apply andb_true_intro. split.
  - apply Nat.leb_le. lia.
  - replace (String.length x + String.length sfx - String.length sfx)%nat
      with (String.length x + 0)%nat by lia.
    rewrite substring_app_r, substring_whole. apply String.eqb_refl.
Qed.

Lemma string_app_cons (x : ascii) (a b : string) :
  String.append (String x a) b = String x (String.append a b).
Proof. reflexivity. Qed.

Lemma string_app_nil_l (a : string) : String.append EmptyString a = a.
Proof. reflexivity. Qed.

Lemma string_app_assoc (a b c : string) :
  String.append a (String.append b c) = String.append (String.append a b) c.
Proof. induction a as [|x a IH]; [done|]. by rewrite !string_app_cons, IH. Qed.

Lemma py_split_stem (sep : ascii) (stem ext : list ascii) :
  sep ∉ stem ->
  nth 0 (py_split sep (string_of_list_ascii (stem ++ sep :: ext))) "" = string_of_list_ascii stem.
Proof.
  intros Hs. unfold py_split. rewrite list_ascii_of_string_of_list_ascii.
  rewrite (split_chars_app_nosep sep stem (sep :: ext) [] (split_chars sep ext)) by
    (done || apply split_chars_sep).
  by rewrite app_nil_r.
Qed.

Lemma py_split_two (sep : ascii) (l1 l2 : list ascii) :
  sep ∉ l1 -> sep ∉ l2 ->
  py_split sep (string_of_list_ascii (l1 ++ sep :: l2)) =
    [string_of_list_ascii l1; string_of_list_ascii l2].
Proof.
  intros H1 H2. unfold py_split. rewrite list_ascii_of_string_of_list_ascii.
  rewrite (split_chars_app_nosep sep l1 (sep :: l2) [] [l2]).
  - by rewrite app_nil_r.
  - done.
  - by rewrite split_chars_sep, split_chars_nosep.
Qed.

Lemma py_split_three (sep : ascii) (l0 l1 l2 : list ascii) :
  sep ∉ l0 -> sep ∉ l1 -> sep ∉ l2 ->
  py_split sep (string_of_list_ascii (l0 ++ sep :: l1 ++ sep :: l2)) =
    [string_of_list_ascii l0; string_of_list_ascii l1; string_of_list_ascii l2].
Proof.
  intros H0 H1 H2. unfold py_split. rewrite list_ascii_of_string_of_list_ascii.
  rewrite (split_chars_app_nosep sep l0 (sep :: l1 ++ sep :: l2) [] [l1; l2]).
  - by rewrite app_nil_r.
  - done.
  - rewrite split_chars_sep. f_equal.
    rewrite (split_chars_app_nosep sep l1 (sep :: l2) [] [l2]); [by rewrite app_nil_r|done|].
    by rewrite split_chars_sep, split_chars_nosep.
Qed.

Lemma digits_no_sep (ds : list nat) :
  digits_ok ds ->
  ("_"%char ∉ list_ascii_of_string (digits_text ds)) /\
  ("."%char ∉ list_ascii_of_string (digits_text ds)).
Proof.
  intros [_ Hds]. split; apply digits_text_no; done.
Qed.

(** The file name [S_E.ext] and [posts_S_E.ext] as characters. *)
Lemma name_chars (pre : string) (ds1 ds2 : list nat) (ext : string) :
  String.append pre (String.append (digits_text ds1) (String.append "_"
    (String.append (digits_text ds2) (String.append "." ext)))) =
  string_of_list_ascii ((list_ascii_of_string pre ++ list_ascii_of_string (digits_text ds1) ++
    "_"%char :: list_ascii_of_string (digits_text ds2)) ++ "."%char :: list_ascii_of_string ext).
Proof.
  apply list_ascii_of_string_inj. rewrite list_ascii_of_string_of_list_ascii.
  rewrite !list_ascii_of_string_app. cbn [list_ascii_of_string app].
  by rewrite <- !app_assoc.
Qed.

(** X15: Danbooru's [yield_posts] reads the id range from [S_E.jsonl] and
    [posts_S_E.jsonl] alike and keeps the file iff [S <= E] and
    [from_id <= E]. *)
Theorem danbooru_keep_ids (ds1 ds2 : list nat) (from_id : Z) :
  digits_ok ds1 -> digits_ok ds2 ->
  let s := digits_text ds1 in
  let e := digits_text ds2 in
  let kept := (digits_value ds1 <=? digits_value ds2) && (from_id <=? digits_value ds2) in
  danbooru_keep_file (String.append s (String.append "_" (String.append e ".jsonl"))) from_id = kept /\
  danbooru_keep_file (String.append "posts_" (String.append s (String.append "_"
    (String.append e ".jsonl")))) from_id = kept.
Proof.
  intros H1 H2 s e kept.
  destruct (digits_no_sep ds1 H1) as [U1 D1]. destruct (digits_no_sep ds2 H2) as [U2 D2].
  pose proof (py_int_digits ds1 (proj1 H1) (proj2 H1)) as I1.
  pose proof (py_int_digits ds2 (proj1 H2) (proj2 H2)) as I2.
  assert (Hk : (if digits_value ds1 >? digits_value ds2 then false
               else if digits_value ds2 <? from_id then false else true) = kept).
  { subst kept. destruct (Z.gtb_spec (digits_value ds1) (digits_value ds2));
    destruct (Z.ltb_spec (digits_value ds2) from_id);
    destruct (Z.leb_spec (digits_value ds1) (digits_value ds2));
    destruct (Z.leb_spec from_id (digits_value ds2)); try lia; done. }
  split.
  - set (fname := String.append s (String.append "_" (String.append e ".jsonl"))).
    assert (Ee : py_endswith ".jsonl" fname = true).
    { subst fname. rewrite (string_app_assoc "_" e), (string_app_assoc s). apply py_endswith_app. }
    assert (Hn : fname = string_of_list_ascii ((list_ascii_of_string s ++
      "_"%char :: list_ascii_of_string e) ++ "."%char :: list_ascii_of_string "jsonl"))
      by exact (name_chars "" ds1 ds2 "jsonl").
    unfold danbooru_keep_file. rewrite Ee. cbn [negb]. cbv zeta iota. rewrite Hn.
    rewrite py_split_stem.
    2:{ rewrite elem_of_app, elem_of_cons. intros [|[|]]; [done|done|done]. }
    rewrite py_split_two by done. rewrite !string_of_list_ascii_of_string.
    cbn [length nth Nat.eqb]. subst s e. rewrite py_isdigit_digits by apply H1.
    cbn [andb]. rewrite I1, I2. exact Hk.
  - set (fname := String.append "posts_" (String.append s (String.append "_"
      (String.append e ".jsonl")))).
    assert (Ee : py_endswith ".jsonl" fname = true).
    { subst fname. rewrite (string_app_assoc "_" e), (string_app_assoc s), (string_app_assoc "posts_").
      apply py_endswith_app. }
    assert (Hn : fname = string_of_list_ascii ((list_ascii_of_string "posts" ++ "_"%char ::
      list_ascii_of_string s ++ "_"%char :: list_ascii_of_string e) ++ "."%char ::
      list_ascii_of_string "jsonl"))
      by exact (name_chars "posts_" ds1 ds2 "jsonl").
    unfold danbooru_keep_file. rewrite Ee. cbn [negb]. cbv zeta iota. rewrite Hn.
    rewrite py_split_stem.
    2:{ assert (Hp : "."%char ∉ list_ascii_of_string "posts") by (intros Hq; cbn [list_ascii_of_string] in Hq;
          repeat (apply elem_of_cons in Hq as [Hq|Hq]; [discriminate Hq|]);
          by apply elem_of_nil in Hq).
        intros Hq. apply elem_of_app in Hq as [Hq|Hq]; [by apply Hp|].
        apply elem_of_cons in Hq as [Hq|Hq]; [discriminate Hq|].
        apply elem_of_app in Hq as [Hq|Hq]; [by apply D1|].
        apply elem_of_cons in Hq as [Hq|Hq]; [discriminate Hq|]. by apply D2. }
    assert (Hp : "_"%char ∉ list_ascii_of_string "posts") by (intros Hq; cbn [list_ascii_of_string] in Hq;
          repeat (apply elem_of_cons in Hq as [Hq|Hq]; [discriminate Hq|]);
          by apply elem_of_nil in Hq).
    rewrite py_split_three by done.
    rewrite !string_of_list_ascii_of_string.
    cbn [length nth Nat.eqb andb]. change (py_isdigit "posts") with false. cbn [andb].
    change (String.eqb "posts" "posts") with true. cbv iota.
    subst s e. rewrite I1, I2. exact Hk.
Qed.

Ltac not_in_literal :=
  let Hq := fresh "Hq" in
  intros Hq; cbn [list_ascii_of_string] in Hq;
  repeat (apply elem_of_cons in Hq as [Hq|Hq]; [discriminate Hq|]);
  by apply elem_of_nil in Hq.

(** X16: Gelbooru's [yield_posts] reads [S_E.ext] like danbooru's reads
    [S_E.jsonl], whatever the extension, and raises [ValueError] on
    [posts_S_E.ext]. *)
Theorem gelbooru_keep_ids (ds1 ds2 : list nat) (ext : string) (from_id : Z) :
  digits_ok ds1 -> digits_ok ds2 ->
  let s := digits_text ds1 in
  let e := digits_text ds2 in
  gelbooru_keep_file (String.append s (String.append "_" (String.append e (String.append "." ext))))
    from_id = Ok ((digits_value ds1 <=? digits_value ds2) && (from_id <=? digits_value ds2)) /\
  gelbooru_keep_file (String.append "posts_" (String.append s (String.append "_"
    (String.append e (String.append "." ext))))) from_id = Raise ValueError.
Proof.
  intros H1 H2 s e.
  destruct (digits_no_sep ds1 H1) as [U1 D1]. destruct (digits_no_sep ds2 H2) as [U2 D2].
  pose proof (py_int_digits ds1 (proj1 H1) (proj2 H1)) as I1.
  pose proof (py_int_digits ds2 (proj1 H2) (proj2 H2)) as I2.
  split.
  - assert (Hn : String.append s (String.append "_" (String.append e (String.append "." ext))) =
      string_of_list_ascii ((list_ascii_of_string s ++ "_"%char :: list_ascii_of_string e) ++
        "."%char :: list_ascii_of_string ext)) by exact (name_chars "" ds1 ds2 ext). rewrite Hn. unfold gelbooru_keep_file.
    assert (Hc : py_contains "_" (string_of_list_ascii ((list_ascii_of_string s ++
      "_"%char :: list_ascii_of_string e) ++ "."%char :: list_ascii_of_string ext)) = true).
    { apply py_contains_char. rewrite list_ascii_of_string_of_list_ascii. set_solver. }
    rewrite Hc. cbn [negb]. cbv iota.
    rewrite py_split_stem.
    2:{ intros Hq. apply elem_of_app in Hq as [Hq|Hq]; [by apply D1|].
        apply elem_of_cons in Hq as [Hq|Hq]; [discriminate Hq|]. by apply D2. }
    rewrite py_split_two by done. rewrite !string_of_list_ascii_of_string.
    subst s e. rewrite I1, I2.
    destruct (Z.gtb_spec (digits_value ds1) (digits_value ds2));
    destruct (Z.ltb_spec (digits_value ds2) from_id);
    destruct (Z.leb_spec (digits_value ds1) (digits_value ds2));
    destruct (Z.leb_spec from_id (digits_value ds2)); try lia; done.
  - assert (Hn : String.append "posts_" (String.append s (String.append "_"
        (String.append e (String.append "." ext)))) =
      string_of_list_ascii ((list_ascii_of_string "posts" ++ "_"%char ::
        (list_ascii_of_string s ++ "_"%char :: list_ascii_of_string e)) ++
        "."%char :: list_ascii_of_string ext)) by exact (name_chars "posts_" ds1 ds2 ext).
    rewrite Hn. unfold gelbooru_keep_file.
    assert (Hc : py_contains "_" (string_of_list_ascii ((list_ascii_of_string "posts" ++
      "_"%char :: (list_ascii_of_string s ++ "_"%char :: list_ascii_of_string e)) ++
      "."%char :: list_ascii_of_string ext)) = true).
    { apply py_contains_char. rewrite list_ascii_of_string_of_list_ascii. set_solver. }
    rewrite Hc. cbn [negb]. cbv iota.
    assert (Hp : "."%char ∉ list_ascii_of_string "posts") by not_in_literal.
    assert (Hu : "_"%char ∉ list_ascii_of_string "posts") by not_in_literal.
    rewrite py_split_stem.
    2:{ intros Hq. apply elem_of_app in Hq as [Hq|Hq]; [by apply Hp|].
        apply elem_of_cons in Hq as [Hq|Hq]; [discriminate Hq|].
        apply elem_of_app in Hq as [Hq|Hq]; [by apply D1|].
        apply elem_of_cons in Hq as [Hq|Hq]; [discriminate Hq|]. by apply D2. }
    rewrite py_split_three by done. done.
Qed.

Lemma gelbooru_keep_file_raise (n : string) (from_id : Z) (e : exn) :
  gelbooru_keep_file n from_id = Raise e -> e = ValueError.
Proof.
  unfold gelbooru_keep_file. destruct (negb (py_contains "_" n)); [done|].
  destruct (py_split "_" (nth 0 (py_split "." n) "")) as [|a [|b [|c rest]]];
    try by intros [= <-].
  destruct (py_int a); [|by intros [= <-]]. destruct (py_int b); [|by intros [= <-]].
  repeat case_match; done.
Qed.

(** X17: on files named [S_E.jsonl], gelbooru's [yield_posts] lists what
    danbooru's lists. *)
Theorem gelbooru_files_agree (names : list string) (from_id : Z) :
  Forall (fun n => exists ds1 ds2, digits_ok ds1 /\ digits_ok ds2 /\
    n = String.append (digits_text ds1) (String.append "_" (String.append (digits_text ds2) ".jsonl")))
    names ->
  gelbooru_files names from_id = Ok (danbooru_files names from_id).
Proof.
  induction 1 as [|n names [ds1 [ds2 [H1 [H2 ->]]]] _ IH]; [done|].
  cbn [gelbooru_files]. unfold danbooru_files. cbn [List.filter]. fold (danbooru_files names from_id).
  destruct (gelbooru_keep_ids ds1 ds2 "jsonl" from_id H1 H2) as [Hg _].
  destruct (danbooru_keep_ids ds1 ds2 from_id H1 H2) as [Hd _].
  cbv zeta in Hg, Hd. change (String.append "." "jsonl") with ".jsonl" in Hg.
  rewrite Hg, IH, Hd. done.
Qed.

(** X18: one file named [posts_S_E.jsonl] anywhere in the walk makes
    gelbooru's [yield_posts] raise [ValueError]. *)
Theorem gelbooru_files_posts_raises (names : list string) (from_id : Z) (ds1 ds2 : list nat) :
  digits_ok ds1 -> digits_ok ds2 ->
  String.append "posts_" (String.append (digits_text ds1) (String.append "_"
    (String.append (digits_text ds2) ".jsonl"))) ∈ names ->
  gelbooru_files names from_id = Raise ValueError.
Proof.
  intros H1 H2 Hin.
  destruct (gelbooru_keep_ids ds1 ds2 "jsonl" from_id H1 H2) as [_ Hg].
  cbv zeta in Hg. change (String.append "." "jsonl") with ".jsonl" in Hg.
  induction names as [|n names IH]; [by apply elem_of_nil in Hin|].
  cbn [gelbooru_files]. apply elem_of_cons in Hin as [Heq|Hin].
  - subst n. by rewrite Hg.
  - destruct (gelbooru_keep_file n from_id) as [k|e0] eqn:Ek.
    + by rewrite IH.
    + f_equal. by apply gelbooru_keep_file_raise in Ek.
Qed.
Section GelbooruSplitFacts.
Variable get_filepart_call : Z -> Z -> nat -> result (option response).
Variable body : Z * Z -> list Z.

Lemma g_retry_first (s e : Z) (k : nat) (fr : option response) (reqs : list (Z * Z)) (r : response) :
  get_filepart_call s e 0 = Ok (Some r) -> resp_truthy r && (status_code r =? 200) = true ->
  g_retry get_filepart_call s e 0 (S k) fr reqs = (Some r, reqs ++ [(s, e)]).
Proof. intros Hc Ht. cbn [g_retry]. rewrite Hc. cbv beta iota. by rewrite Ht. Qed.

Lemma g_fetch_serves (mr : nat) (i : nat) (d : Z * Z) (fs : gfs) :
  (0 < mr)%nat -> (serves get_filepart_call body) d ->
  g_fetch get_filepart_call mr i (fst d) (snd d) fs =
    (mkGfs (gf_main fs) (<[i := body d]> (gf_parts fs)) (gf_reqs fs ++ [(fst d, snd d - 1)]), Ok true).
Proof.
  intros Hmr (r & Hc & Hs & Hl & Hb & Hw). destruct mr as [|mr]; [lia|].
  assert (Ht1 : resp_truthy r = true) by (unfold resp_truthy; rewrite Hs; done).
  assert (Ht2 : (status_code r =? 200) = true) by (rewrite Hs; done).
  unfold g_fetch. rewrite (g_retry_first _ _ mr None _ r Hc) by (by rewrite Ht1, Ht2).
  cbv beta iota. rewrite Ht1, Ht2. cbn [andb negb orb].
  cbn [set_reqs gf_main gf_parts gf_reqs set_parts content_length content].
  rewrite Hl, Z.eqb_refl. cbn [negb]. rewrite Hb, Hw, Z.eqb_refl. reflexivity.
Qed.

Lemma g_chunk_serves (mr : nat) (cur : Z) (i : nat) (d : Z * Z) (fs : gfs) :
  (0 < mr)%nat -> (serves get_filepart_call body) d ->
  g_chunk get_filepart_call mr cur i d fs =
    (if fetched cur (gf_parts fs) i d
     then mkGfs (gf_main fs) (<[i := body d]> (gf_parts fs)) (gf_reqs fs ++ [(fst d, snd d - 1)])
     else fs, Ok true).
Proof.
  intros Hmr Hsv. destruct d as [s t]. unfold g_chunk, fetched, part_complete. cbn [fst snd].
  destruct (s <? cur); [done|]. cbn [negb andb].
  destruct (gf_parts fs !! i) as [p|] eqn:Ep.
  - destruct (Z.of_nat (length p) =? t - s); [done|]. cbn [negb].
    rewrite (g_fetch_serves mr i (s, t)) by done. cbn [gf_main gf_parts gf_reqs set_parts].
    by rewrite insert_delete_eq.
  - cbn [negb]. by rewrite (g_fetch_serves mr i (s, t)).
Qed.

Lemma g_chunks_serves (mr : nat) (cur : Z) (ds : list (Z * Z)) (i : nat) (fs : gfs) :
  (0 < mr)%nat -> Forall (serves get_filepart_call body) ds ->
  exists ps, g_chunks get_filepart_call mr cur i ds fs =
    (mkGfs (gf_main fs) ps
       (gf_reqs fs ++ concat (map (fun kd : nat * (Z * Z) =>
          if fetched cur (gf_parts fs) kd.1 kd.2 then [(fst kd.2, snd kd.2 - 1)] else [])
          (zip (seq i (length ds)) ds))), Ok true) /\
    forall j, ps !! j =
      match (if (i <=? j)%nat then ds !! (j - i)%nat else None) with
      | Some d => if fetched cur (gf_parts fs) j d then Some (body d) else gf_parts fs !! j
      | None => gf_parts fs !! j
      end.
Proof.
  intros Hmr Hds. revert i fs. induction Hds as [|d ds Hd Hrest IH]; intros i fs.
  - exists (gf_parts fs). split.
    + cbn. rewrite app_nil_r. by destruct fs.
    + intros j. by destruct (i <=? j)%nat.
  - cbn [g_chunks]. rewrite g_chunk_serves by done.
    set (fs1 := if fetched cur (gf_parts fs) i d
      then mkGfs (gf_main fs) (<[i := body d]> (gf_parts fs)) (gf_reqs fs ++ [(fst d, snd d - 1)])
      else fs).
    destruct (IH (S i) fs1) as [ps [Hrun Hps]]. rewrite Hrun.
    assert (Hm : gf_main fs1 = gf_main fs) by (subst fs1; by destruct (fetched _ _ _ _)).
    assert (Hp : forall j, j <> i -> gf_parts fs1 !! j = gf_parts fs !! j).
    { intros j Hj. subst fs1. destruct (fetched _ _ _ _); [|done].
      cbn [gf_parts]. by rewrite lookup_insert_ne. }
    assert (Hf : forall j d', j <> i -> fetched cur (gf_parts fs1) j d' = fetched cur (gf_parts fs) j d').
    { intros j d' Hj. unfold fetched, part_complete. by rewrite Hp. }
    exists ps. split.
    + f_equal. rewrite Hm. f_equal.
      cbn [length seq zip map concat].
      assert (Hr : gf_reqs fs1 = gf_reqs fs ++ (if fetched cur (gf_parts fs) i d
                   then [(fst d, snd d - 1)] else [])).
      { subst fs1. destruct (fetched _ _ _ _); [done|]. by rewrite app_nil_r. }
      rewrite Hr, <- app_assoc. f_equal. cbn [fst snd]. f_equal. f_equal.
      apply map_ext_in. intros [k d'] Hk. cbn [fst snd].
      apply list_elem_of_In, elem_of_zip_l, elem_of_seq in Hk. rewrite Hf by lia. done.
    + intros j. rewrite Hps.
      destruct (decide (j = i)) as [->|Hj].
      * replace (S i <=? i)%nat with false by (symmetry; apply Nat.leb_gt; lia).
        rewrite Nat.leb_refl, Nat.sub_diag. cbn [lookup list_lookup].
        subst fs1. destruct (fetched cur (gf_parts fs) i d); [|done].
        cbn [gf_parts]. by rewrite lookup_insert_eq.
      * rewrite Hp by done.
        destruct (Nat.leb_spec (S i) j); destruct (Nat.leb_spec i j); try lia.
        -- replace (j - i)%nat with (S (j - S i)) by lia. cbn [lookup list_lookup].
           destruct (ds !! (j - S i)%nat); [|done]. by rewrite Hf.
        -- done.
Qed.

Lemma map_zip_seq_imap {B} (h : nat * (Z * Z) -> B) (ds : list (Z * Z)) (i : nat) :
  map h (zip (seq i (length ds)) ds) = imap (fun k d => h ((i + k)%nat, d)) ds.
Proof.
  revert i. induction ds as [|d ds IH]; intros i; [done|].
  cbn [length seq zip map]. rewrite imap_cons, IH. f_equal.
  - by rewrite Nat.add_0_r.
  - apply imap_ext. intros k x _. cbn. by rewrite Nat.add_succ_r.
Qed.

Lemma g_merge_all (parts : gmap nat (list Z)) (idxs : list nat) (f : list Z) :
  Forall (fun i => is_Some (parts !! i)) idxs ->
  g_merge parts idxs f = (f ++ concat (map (fun i => default [] (parts !! i)) idxs), Ok tt).
Proof.
  intros H. revert f. induction H as [|i idxs [p Hp] _ IH]; intros f.
  - cbn. by rewrite app_nil_r.
  - cbn [g_merge map concat]. rewrite Hp, IH. cbn [default]. by rewrite app_assoc.
Qed.

Lemma g_remove_all (idxs : list nat) (parts : gmap nat (list Z)) :
  NoDup idxs -> Forall (fun i => is_Some (parts !! i)) idxs ->
  exists ps, g_remove_parts idxs parts = Ok ps /\
    forall j, ps !! j = if decide (j ∈ idxs) then None else parts !! j.
Proof.
  intros Hnd. revert parts. induction Hnd as [|i idxs Hi Hnd IH]; intros parts Hall.
  - exists parts. split; [done|]. intros j. rewrite decide_False; [done|]. apply not_elem_of_nil.
  - inversion Hall as [|? ? [p Hp] Hrest]; subst.
    destruct (IH (delete i parts)) as [ps [Hrun Hps]].
    { rewrite Forall_forall in Hrest |- *. intros j Hj.
      rewrite lookup_delete_ne; [by apply Hrest|]. intros ->. contradiction. }
    exists ps. cbn [g_remove_parts]. rewrite Hp. split; [done|].
    intros j. rewrite Hps. destruct (decide (j = i)) as [->|Hji].
    + rewrite (decide_False (P := i ∈ idxs)) by done.
      rewrite decide_True by (apply elem_of_cons; by left). apply lookup_delete_eq.
    + rewrite lookup_delete_ne by done.
      destruct (decide (j ∈ idxs)); destruct (decide (j ∈ i :: idxs)) as [Hin|Hin];
        rewrite ?elem_of_cons in Hin; try done; set_solver.
Qed.

Lemma length_concat_eq {A B} (l1 : list (list A)) (l2 : list (list B)) :
  Forall2 (fun a b => length a = length b) l1 l2 -> length (concat l1) = length (concat l2).
Proof. induction 1; [done|]. cbn [concat]. rewrite !length_app. lia. Qed.

(** X19: from a fresh start ([save_path] absent), with a gateway that
    serves every chunk, the split path writes [save_path] as the chunks
    in order, each one taken from a complete part file left by an earlier
    run or downloaded; it downloads exactly the chunks without a complete
    part file, and removes the part files of all chunks. *)
Theorem gelbooru_split_fresh (filesize split_size : Z) (max_retry : nat) (fs : gfs)
    (datas : list (Z * Z)) :
  0 < split_size -> 0 <= filesize -> (0 < max_retry)%nat -> gf_main fs = None ->
  chunks filesize split_size = Some datas -> Forall (serves get_filepart_call body) datas ->
  exists ps,
    gelbooru_split get_filepart_call filesize split_size max_retry fs =
      (mkGfs (Some (concat (imap (fun k d =>
                if part_complete (gf_parts fs) k d then default [] (gf_parts fs !! k) else body d)
                datas)))
             ps
             (gf_reqs fs ++ concat (imap (fun k d =>
                if part_complete (gf_parts fs) k d then [] else [(fst d, snd d - 1)]) datas)),
       Ok tt) /\
    forall j, ps !! j = if (j <? length datas)%nat then None else gf_parts fs !! j.
Proof.
  intros Hsp Hfs Hmr Hmain Hch Hsv.
  set (n := length datas).
  assert (Hst : Forall (fun d : Z * Z => 0 <= fst d) datas).
  { rewrite chunks_eq in Hch by done. injection Hch as <-.
    apply Forall_forall. intros d Hd. apply list_elem_of_fmap in Hd as (k & -> & _). cbn. lia. }
  assert (Hfe : forall k d, datas !! k = Some d ->
            fetched 0 (gf_parts fs) k d = negb (part_complete (gf_parts fs) k d)).
  { intros k d Hk. unfold fetched. rewrite Forall_lookup in Hst.
    pose proof (Hst k d Hk). replace (fst d <? 0) with false by (symmetry; apply Z.ltb_ge; lia).
    done. }
  unfold gelbooru_split. rewrite Hch, Hmain.
  destruct (g_chunks_serves max_retry 0 datas 0 fs Hmr Hsv) as [ps1 [Hrun Hps1]].
  rewrite Hrun. cbv iota beta.
  cbn [gf_parts gf_main gf_reqs set_main set_parts].
  (* every chunk has its part after the loop *)
  assert (Hpart : forall k d, datas !! k = Some d ->
            ps1 !! k = Some (if part_complete (gf_parts fs) k d
                             then default [] (gf_parts fs !! k) else body d)).
  { intros k d Hk. rewrite Hps1. rewrite Nat.sub_0_r. cbn [Nat.leb]. rewrite Hk, Hfe by done.
    unfold part_complete. destruct (gf_parts fs !! k) as [p|] eqn:Ep; [|done].
    by destruct (Z.of_nat (length p) =? snd d - fst d). }
  assert (Hall : Forall (fun i => is_Some (ps1 !! i)) (seq 0 n)).
  { apply Forall_forall. intros k Hk. apply elem_of_seq in Hk.
    destruct (lookup_lt_is_Some_2 datas k ltac:(lia)) as [d Hd].
    rewrite (Hpart k d Hd). by eexists. }
  rewrite g_merge_all by done. cbn [app].
  assert (Hmap : map (fun i => default [] (ps1 !! i)) (seq 0 n) =
    imap (fun k d => if part_complete (gf_parts fs) k d then default [] (gf_parts fs !! k) else body d)
      datas).
  { apply list_eq. intros k. rewrite list_lookup_fmap, list_lookup_imap.
    destruct (decide (k < n)%nat) as [Hk|Hk].
    - rewrite lookup_seq_lt by done.
      destruct (lookup_lt_is_Some_2 datas k ltac:(lia)) as [d Hd]. rewrite Hd. cbn [fmap option_fmap option_map].
      rewrite Nat.add_0_l, (Hpart k d Hd). done.
    - rewrite lookup_seq_ge by lia. rewrite lookup_ge_None_2 by lia. done. }
  fold n. rewrite Hmap.
  (* the size check passes *)
  assert (Hlen : Z.of_nat (length (concat (imap (fun k d => if part_complete (gf_parts fs) k d
      then default [] (gf_parts fs !! k) else body d) datas))) = filesize).
  { destruct (chunks_partition filesize split_size Hsp Hfs) as [ds' [Hds' [Hcov _]]].
    rewrite Hch in Hds'. injection Hds' as <-.
    rewrite (length_concat_eq _ (map (fun d : Z * Z => seqZ (fst d) (snd d - fst d)) datas)).
    - rewrite Hcov, length_seqZ. lia.
    - apply Forall2_lookup. intros k. rewrite list_lookup_imap, list_lookup_fmap.
      destruct (datas !! k) as [d|] eqn:Hd; constructor.
      rewrite length_seqZ. rewrite Forall_lookup in Hsv.
      destruct (Hsv k d Hd) as (r & _ & _ & _ & _ & Hw).
      apply Nat2Z.inj. rewrite Z2Nat.id by lia.
      unfold part_complete. destruct (gf_parts fs !! k) as [p|] eqn:Ep; cbn [default]; [|lia].
      destruct (Z.of_nat (length p) =? snd d - fst d) eqn:Ec; [apply Z.eqb_eq in Ec|]; unfold id; lia. }
  rewrite Hlen, Z.eqb_refl. cbn [negb].
  destruct (g_remove_all (seq 0 n) ps1 (NoDup_seq 0 n) Hall) as [ps [Hrm Hps]].
  rewrite Hrm. exists ps. split.
  - unfold set_parts, set_main, n. cbn [gf_main gf_parts gf_reqs].
    rewrite map_zip_seq_imap. do 4 f_equal. apply imap_ext. intros k d Hd. cbn.
    rewrite Hfe by done. by destruct (part_complete (gf_parts fs) k d).
  - intros j. rewrite Hps. destruct (decide (j ∈ seq 0 n)) as [Hj|Hj];
      rewrite elem_of_seq in Hj.
    + replace (j <? n)%nat with true by (symmetry; apply Nat.ltb_lt; lia). done.
    + replace (j <? n)%nat with false by (symmetry; apply Nat.ltb_ge; lia).
      rewrite Hps1. cbn [Nat.leb]. rewrite Nat.sub_0_r, lookup_ge_None_2 by lia. done.
Qed.

End GelbooruSplitFacts.

(* ================================================================== *)
(** * Examples *)

(** A proxy that is down: [get] punishes index 0 and returns None. *)
Lemma dispatch_failure_punishes_witness :
  h_proxies ex_handler <> [] /\
  exists h', dispatch ex_session_down ex_json_loads OpGet "https://example.org/a.png" ex_handler
               = (h', Ok None) /\
    h_commit_time h' !! 0 = Some (h_clock h' + h_timeout h').
Proof.
  split; [discriminate|].
  destruct (dispatch_failure_punishes ex_session_down ex_json_loads OpGet
              "https://example.org/a.png" ex_handler ltac:(discriminate) (or_introl eq_refl))
    as (h' & E & _ & Hc & _).
  exists h'. split; [exact E|]. exact Hc.
Defined.

(** A successful payload whose [response] text decodes as JSON. *)
Lemma get_response_results_witness :
  snd (get_response (ex_session_body 200 "PAYLOAD") ex_json_loads "https://example.org/q"
         ex_handler) = Ok (Some (JObj [("a", JInt 1)])).
Proof.
  destruct (get_response_results (ex_session_body 200 "PAYLOAD") ex_json_loads
              "https://example.org/q" ex_handler ltac:(discriminate)) as (_ & _ & H).
  destruct (H (ex_resp 200 "PAYLOAD")
              [("status_code", JInt 200); ("success", JBool true); ("response", JStr "A1")]
              eq_refl ltac:(discriminate) eq_refl) as [_ H2].
  { intros v Hv. vm_compute in Hv. injection Hv as <-. exists 200. reflexivity. }
  exact (H2 eq_refl "A1" eq_refl).
Defined.

(** The body ["12345"] gives 12345. *)
Lemma filesize_results_witness :
  snd (filesize (ex_session_body 200 "12345") "https://example.org/a.png" ex_handler)
    = Ok (Some 12345).
Proof.
  destruct (filesize_results (ex_session_body 200 "12345") ex_json_loads "https://example.org/a.png"
              ex_handler ltac:(discriminate)) as (_ & _ & H3 & _).
  exact (H3 (ex_resp 200 "12345") [] [] NoSign [1; 2; 3; 4; 5]%nat eq_refl (or_introl eq_refl)
           ltac:(constructor) ltac:(constructor) ltac:(discriminate)
           ltac:(repeat constructor; lia) eq_refl).
Defined.

(** With wait 1 and timeout 10, the wait after a punishment lasts 11. *)
Lemma punish_then_wait_witness :
  h_clock (fst (_wait_until_allowed 0 (fst (_punish_proxy 0 ex_handler)))) - h_clock ex_handler
    = 11 /\
  h_timeout ex_handler <=
    h_clock (fst (_wait_until_allowed 0 (fst (_punish_proxy 0 ex_handler)))) - h_clock ex_handler.
Proof.
  destruct (punish_then_wait 0 ex_handler) as (_ & _ & H & H4).
  split; [rewrite H; reflexivity|]. apply H4. cbn. lia.
Defined.


(** Two proxy lines around a blank one. *)
Lemma init_len_round_robin_witness :
  exists h, init "user:pass" (Ok ["127.0.0.1"; ""; "127.0.0.2"]) 8000 1 10 0 = Ok h /\
    handler_len h = 2%nat /\ snd (advances 3 h) = Ok [0; 1; 0].
Proof.
  destruct (init_len_round_robin "user:pass" ["127.0.0.1"; ""; "127.0.0.2"] 8000 1 10 0
              eq_refl ltac:(vm_compute; lia)) as (h & E & Hl & Ha & _).
  exists h. split; [exact E|]. split; [exact Hl|]. rewrite Ha. reflexivity.
Defined.

(** Probes completing in the order 1, 0, only proxy 0 healthy. *)
Lemma check_removes_failed_witness :
  h_proxies (fst (check ex_session_first_up false [1; 0]%nat ex_handler))
    = ["http://127.0.0.1:8000/"].
Proof.
  destruct (check_removes_failed ex_session_first_up [1; 0]%nat ex_handler
              ltac:(apply (bool_decide_unpack _); vm_compute; exact I)) as (_ & H & _).
  rewrite H. reflexivity.
Defined.

(** On an empty pool, [filesize] returns None. *)
Lemma dispatch_empty_pool_none_witness :
  dispatch ex_session_down ex_json_loads OpFilesize "https://example.org/a.png" ex_empty_handler
    = (ex_empty_handler, Ok None).
Proof.
  exact (dispatch_empty_pool_none ex_session_down ex_json_loads OpFilesize
           "https://example.org/a.png" ex_empty_handler eq_refl).
Defined.

(** Both 1000-byte ranges verified: the file holds the 2000 bytes. *)
Lemma download_split_outcome_witness :
  download_split ex_part_ok 2000 1000 3 = Some (repeat 7 1000%nat ++ repeat 7 1000%nat).
Proof.
  destruct (download_split_outcome ex_part_ok 2000 1000 3 ltac:(lia) ltac:(lia))
    as (ds & Eds & _ & _ & _ & _ & Hfin).
  vm_compute in Eds. injection Eds as <-.
  rewrite (Hfin _ _ eq_refl). reflexivity.
Defined.

(** Two threads holding index 0 pass the gate together at time 100. *)
Lemma advance_serialised_gate_racy_witness :
  exists g', run ex_threads_held [EvRun 0; EvRun 1; EvTick (Z.max 0 (5 - 100)); EvRun 0; EvRun 1]
               = Some g' /\ g_pass g' = [(0, 100); (0, 100)].
Proof.
  destruct (proj2 advance_serialised_gate_racy ex_threads_held 0%nat 1%nat 0 ltac:(lia) eq_refl eq_refl)
    as (g' & E & P).
  exists g'. split; [exact E|]. rewrite P. reflexivity.
Defined.

(** Every probe fails: the pool is left empty after the error. *)
Lemma check_all_failed_empties_pool_witness :
  handler_len (fst (check ex_session_down false [0; 1]%nat ex_handler)) = 0%nat.
Proof.
  destruct (check_all_failed_empties_pool ex_session_down [0; 1]%nat ex_handler
              ltac:(apply (bool_decide_unpack _); vm_compute; exact I)
              ltac:(apply (bool_decide_unpack _); vm_compute; exact I)) as (_ & _ & H).
  exact H.
Defined.

(** A 200 answer to [get] comes back as it is. *)
Lemma get_passes_response_through_witness :
  get (ex_session_body 200 "data") "https://example.org/a.png" ex_handler =
    (sent_state ex_handler (get_path "https://example.org/a.png"),
     Ok (Some (ex_resp 200 "data"))).
Proof.
  exact (proj1 (get_passes_response_through (ex_session_body 200 "data") ex_handler
                  ltac:(discriminate))
           "https://example.org/a.png" (ex_resp 200 "data") eq_refl ltac:(cbn; lia)).
Defined.

(** A gateway body decoding to the integer 1. *)
Lemma get_response_non_object_raises_witness :
  snd (get_response (ex_session_body 200 "1") (fun _ => Some (JInt 1)) "https://example.org/q"
         ex_handler) = Raise AttributeError.
Proof.
  rewrite (get_response_non_object_raises (ex_session_body 200 "1") (fun _ => Some (JInt 1))
             "https://example.org/q" ex_handler (ex_resp 200 "1") (JInt 1)
             ltac:(discriminate) eq_refl ltac:(cbn; lia) eq_refl ltac:(intros ? ?; discriminate)).
  reflexivity.
Defined.

(** Payloads with [success] true and [status_code] "abc" (None), or
    [1e400], decoded as infinity ([OverflowError]). *)
Lemma get_response_bad_status_witness :
  snd (get_response (ex_session_body 200 "P")
         (fun _ => Some (JObj [("status_code", JStr "abc"); ("success", JBool true);
                               ("response", JStr "A1")]))
         "https://example.org/q" ex_handler) = Ok None /\
  snd (get_response (ex_session_body 200 "P")
         (fun _ => Some (JObj [("status_code", JInf false); ("success", JBool true);
                               ("response", JStr "A1")]))
         "https://example.org/q" ex_handler) = Raise OverflowError.
Proof.
  split.
  - rewrite (get_response_bad_status (ex_session_body 200 "P")
               (fun _ => Some (JObj [("status_code", JStr "abc"); ("success", JBool true);
                                     ("response", JStr "A1")]))
               "https://example.org/q" ex_handler (ex_resp 200 "P")
               [("status_code", JStr "abc"); ("success", JBool true); ("response", JStr "A1")]
               (JStr "abc") ValueError
               ltac:(discriminate) eq_refl ltac:(cbn; lia) eq_refl eq_refl
               ltac:(vm_compute; reflexivity)).
    reflexivity.
  - rewrite (get_response_bad_status (ex_session_body 200 "P")
               (fun _ => Some (JObj [("status_code", JInf false); ("success", JBool true);
                                     ("response", JStr "A1")]))
               "https://example.org/q" ex_handler (ex_resp 200 "P")
               [("status_code", JInf false); ("success", JBool true); ("response", JStr "A1")]
               (JInf false) OverflowError
               ltac:(discriminate) eq_refl ltac:(cbn; lia) eq_refl eq_refl eq_refl).
    reflexivity.
Defined.


(** A payload reporting an upstream 429 with [success] true: proxy 0 is
    punished and the response text is returned. *)
Lemma get_response_upstream_429_witness :
  snd (get_response (ex_session_body 200 "P")
         (fun _ => Some (JObj [("status_code", JInt 429); ("success", JBool true);
                               ("response", JStr "A1")]))
         "https://example.org/q" ex_handler) = Ok (Some (JObj [("status_code", JInt 429);
           ("success", JBool true); ("response", JStr "A1")])).
Proof.
  destruct (get_response_upstream_429 (ex_session_body 200 "P")
             (fun _ => Some (JObj [("status_code", JInt 429); ("success", JBool true);
                                   ("response", JStr "A1")]))
             "https://example.org/q" ex_handler (ex_resp 200 "P")
             [("status_code", JInt 429); ("success", JBool true); ("response", JStr "A1")]
             (JInt 429) ltac:(discriminate) eq_refl ltac:(cbn; lia) eq_refl eq_refl eq_refl)
    as (_ & _ & H).
  exact (H eq_refl "A1" eq_refl).
Defined.

(** A transport error on the first request: sent at 1 (wait interval
    1 after time 0), index 0 blocked until 1 + 10. *)
Lemma request_paced_witness :
  h_clock (fst (_request_through_proxy ex_session_down "x" ex_handler)) = 1 /\
  h_commit_time (fst (_request_through_proxy ex_session_down "x" ex_handler)) !! 0 = Some 11.
Proof.
  pose proof (request_paced ex_session_down "x" ex_handler ltac:(discriminate)) as P.
  cbv zeta in P. destruct P as (Hc & Ht & _).
  split.
  - refine (eq_trans Hc _). vm_compute. reflexivity.
  - refine (eq_trans Ht _). vm_compute. reflexivity.
Defined.

(** Only proxy 0 answers: in raise mode, [check] raises. *)
Lemma check_raise_mode_witness :
  exists msg, snd (check ex_session_first_up true [1; 0]%nat ex_handler) = Raise (RuntimeError msg).
Proof.
  pose proof (check_raise_mode ex_session_first_up [1; 0]%nat ex_handler
                ltac:(apply (bool_decide_unpack _); vm_compute; exact I)) as P.
  cbv zeta in P. destruct P as (_ & _ & _ & H).
  apply H. unfold ex_handler. cbn [h_proxies].
  apply Exists_cons_tl, Exists_cons_hd. vm_compute. reflexivity.
Defined.

(** Only proxy 0 answers: after [check], the next advance selects it. *)
Lemma check_then_next_index_witness :
  snd (check ex_session_first_up false [1; 0]%nat ex_handler) = Ok [1] /\
  exists i b,
    _next_proxy_index (fst (check ex_session_first_up false [1; 0]%nat ex_handler)) =
      (set_current_index i (fst (check ex_session_first_up false [1; 0]%nat ex_handler)), Ok i) /\
    0 <= i /\
    h_proxies (fst (check ex_session_first_up false [1; 0]%nat ex_handler)) !! Z.to_nat i = Some b /\
    probe_ok ex_session_first_up b = true.
Proof.
  split; [vm_compute; reflexivity|].
  exact (check_then_next_index ex_session_first_up false [1; 0]%nat ex_handler [1]
           ltac:(apply (bool_decide_unpack _); vm_compute; exact I)
           ltac:(vm_compute; reflexivity)).
Defined.

(** ["user:pa:ss"] splits into ["user"] and ["pa:ss"]. *)
Lemma init_auth_split_witness :
  exists h, init "user:pa:ss" (Ok ["127.0.0.1"]) 8000 1 10 0 = Ok h /\ h_auth h = ("user", "pa:ss").
Proof.
  destruct (init_auth_split "user" "pa:ss" ["127.0.0.1"] 8000 1 10 0
              ltac:(apply (bool_decide_unpack _); vm_compute; exact I)
              ltac:(vm_compute; discriminate)) as (h & E & Ha & _).
  exists h. split; [exact E|exact Ha].
Defined.

(** Two [filepart] paths for the same target with different ranges. *)
Lemma op_path_inj_witness :
  op_path (OpGetFilepart 0 999) "u" = op_path (OpGetFilepart 0 999) "u" /\
  OpGetFilepart 0 999 = OpGetFilepart 0 999.
Proof.
  split; [reflexivity|].
  exact (proj1 (op_path_inj (OpGetFilepart 0 999) (OpGetFilepart 0 999) "u" "u" eq_refl)).
Defined.

(** [1_20.jsonl] and [posts_1_20.jsonl] are kept from id 5. *)
Lemma danbooru_keep_ids_witness :
  danbooru_keep_file "1_20.jsonl" 5 = true /\ danbooru_keep_file "posts_1_20.jsonl" 5 = true.
Proof.
  exact (danbooru_keep_ids [1]%nat [2; 0]%nat 5
           ltac:(split; [discriminate|repeat constructor])
           ltac:(split; [discriminate|repeat constructor])).
Defined.

(** [1_20.json] is kept from id 5; [posts_1_20.json] raises. *)
Lemma gelbooru_keep_ids_witness :
  gelbooru_keep_file "1_20.json" 5 = Ok true /\
  gelbooru_keep_file "posts_1_20.json" 5 = Raise ValueError.
Proof.
  exact (gelbooru_keep_ids [1]%nat [2; 0]%nat "json" 5
           ltac:(split; [discriminate|repeat constructor])
           ltac:(split; [discriminate|repeat constructor])).
Defined.

(** Two [S_E.jsonl] files, from id 25. *)
Lemma gelbooru_files_agree_witness :
  gelbooru_files ["1_20.jsonl"; "30_40.jsonl"] 25 =
    Ok (danbooru_files ["1_20.jsonl"; "30_40.jsonl"] 25) /\
  danbooru_files ["1_20.jsonl"; "30_40.jsonl"] 25 = ["30_40.jsonl"].
Proof.
  split; [|vm_compute; reflexivity].
  apply gelbooru_files_agree.
  apply List.Forall_cons; [exists [1]%nat, [2; 0]%nat|apply List.Forall_cons; [exists [3; 0]%nat, [4; 0]%nat|apply List.Forall_nil]].
  all: split; [split; [discriminate|repeat constructor]|].
  all: split; [split; [discriminate|repeat constructor]|reflexivity].
Defined.

(** A [posts_1_20.jsonl] beside [1_20.jsonl]. *)
Lemma gelbooru_files_posts_raises_witness :
  gelbooru_files ["1_20.jsonl"; "posts_1_20.jsonl"] 5 = Raise ValueError.
Proof.
  exact (gelbooru_files_posts_raises ["1_20.jsonl"; "posts_1_20.jsonl"] 5 [1]%nat [2; 0]%nat
           ltac:(split; [discriminate|repeat constructor])
           ltac:(split; [discriminate|repeat constructor])
           ltac:(apply elem_of_cons; right; apply elem_of_cons; left; reflexivity)).
Defined.

(** Both 1000-byte chunks of a 2000-byte file, from nothing: two
    requests, the file written, no part file left. *)
Lemma gelbooru_split_fresh_witness :
  exists ps,
    gelbooru_split ex_part_ok 2000 1000 3 (mkGfs None ∅ []) =
      (mkGfs (Some (repeat 7 1000%nat ++ repeat 7 1000%nat)) ps [(0, 999); (1000, 1999)], Ok tt) /\
    forall j, ps !! j = None.
Proof.
  destruct (gelbooru_split_fresh ex_part_ok (fun _ => repeat 7 1000%nat) 2000 1000 3
              (mkGfs None ∅ []) [(0, 1000); (1000, 2000)]
              ltac:(lia) ltac:(lia) ltac:(lia) eq_refl ltac:(vm_compute; reflexivity)
              ltac:(apply List.Forall_cons; [|apply List.Forall_cons; [|apply List.Forall_nil]];
                    (eexists; split; [reflexivity|]; vm_compute; repeat split)))
    as (ps & E & Hps).
  exists ps. split.
  - rewrite E. reflexivity.
  - intros j. rewrite Hps. destruct (j <? _)%nat; [done|]. apply lookup_empty.
Defined.

(* ================================================================== *)
(** * Counterexamples *)

(** C3: with wait 1 and timeout 10 at time 0, a punished index becomes
    eligible at 11, not at now + timeout = 10, and the next wait on it
    lasts 11. *)
Lemma punish_eligibility_counterexample :
  eligible_at (fst (_punish_proxy 0 ex_handler)) 0 <> h_clock ex_handler + h_timeout ex_handler /\
  h_clock (fst (_wait_until_allowed 0 (fst (_punish_proxy 0 ex_handler)))) - h_clock ex_handler
    = 11.
Proof. split; [vm_compute; discriminate | reflexivity]. Qed.

(** C7: on an empty pool all four operations return None; none raises. *)
Lemma empty_pool_counterexample :
  snd (dispatch ex_session_down ex_json_loads OpGetResponse "u" ex_empty_handler) = Ok None /\
  snd (dispatch ex_session_down ex_json_loads OpGet "u" ex_empty_handler) = Ok None /\
  snd (dispatch ex_session_down ex_json_loads OpFilesize "u" ex_empty_handler) = Ok None /\
  snd (dispatch ex_session_down ex_json_loads (OpGetFilepart 0 999) "u" ex_empty_handler)
    = Ok None.
Proof. repeat split; vm_compute; reflexivity. Qed.

(** C8: a 2000-byte file in two 1000-byte ranges.
    - Every attempt for the second range raises: danbooru's loop never
      resets [file_response], so the first range's response is checked
      again, passes, and its bytes are written a second time; the
      2000-byte file passes the final size check and is kept, with the
      wrong bytes in its second half.
    - The second range comes back with Content-Length 999: danbooru's
      [download_post] returns with the first 1000 bytes left in the file,
      which is neither removed nor truncated.
    - In the same case gelbooru's split path returns without writing
      [save_path] and leaves the part file of the first range on disk. *)
Lemma partial_file_counterexample :
  download_split ex_part_stale 2000 1000 3 = Some (repeat 7 1000%nat ++ repeat 7 1000%nat) /\
  download_split ex_part_short 2000 1000 3 = Some (repeat 7 1000%nat) /\
  gf_main (fst (gelbooru_split ex_part_short 2000 1000 3 (mkGfs None ∅ []))) = None /\
  gf_parts (fst (gelbooru_split ex_part_short 2000 1000 3 (mkGfs None ∅ []))) !! 0%nat
    = Some (repeat 7 1000%nat).
Proof. vm_compute. repeat split. Qed.

(** C9: one proxy, wait interval 5: two threads both receive index 0 and
    both pass the gate at time 100. *)
Lemma gate_bypass_counterexample :
  option_map g_pass
    (run ex_threads [EvRun 0; EvRun 1; EvRun 0; EvRun 1; EvRun 0; EvRun 1])
    = Some [(0, 100); (0, 100)] /\ g_wait ex_threads = 5.
Proof. split; vm_compute; reflexivity. Qed.
